(** * Kairox.ai web-search agent: utilities and conversation orchestrator

    A shallow embedding of [utils.py] and [orchestrator.py] of the package
    [kairox_ai_web_search_agent], with the properties its specification
    states about them.

    Modelling conventions.
    - A Python [str] is a list of Unicode code points ([list N]).  String
      constants are written as Rocq string literals and decoded from UTF-8
      by [u].
    - [str.isspace] and [str.lower] are those of CPython 3.11 (Unicode
      14.0.0), with the complete tables: the lower-case mapping of every
      code point, the capital I with a dot above, which becomes two code
      points, and the capital sigma, which depends on what is around it.
    - Python values that the code handles (results of [json.loads], [None],
      strings) are the type [json]; [None] is [JNull].
    - A float keeps the text of its literal.  The operations that need the
      binary64 value ([bool], [repr], [json.dumps]) and [repr] of a string
      are left abstract in the class [PyRuntime]: every theorem holds for
      all of them.
    - [json.loads] follows CPython's C scanner, with no recursion limit and
      no limit on the number of digits of an integer.  Its recursion runs on
      a budget that is shown never to run out.
    - Exceptions are values of [exn].  Effects are recorded in a [world],
      the trace of events of a run, newest first: the polls of the stop
      predicate, the invocations of the agent, what is printed, and the
      calls of the observer.
    - The agent and the stop predicate are outside the code.  A run sees an
      agent as a function from the number of earlier invocations and the
      message to the finite list of chunks it streams, and a stop predicate
      as a function from the number of earlier polls to its answer. *)

From Stdlib Require Import ZArith NArith List Lia Ascii String DecimalString.
From stdpp Require Import base tactics option list numbers gmap sets.
Import ListNotations.

Local Open Scope N_scope.

(** ** Text *)

Definition str := list N.

Fixpoint bytes_of_string (s : string) : list N :=
  match s with
  | EmptyString => []
  | String a r => N_of_ascii a :: bytes_of_string r
  end.

(** UTF-8 decoding of a literal (well-formed input only matters). *)
Fixpoint utf8_decode (bs : list N) : str :=
  match bs with
  | [] => []
  | b :: r =>
      if b <? 128 then b :: utf8_decode r
      else if b <? 224 then
        match r with
        | b1 :: r1 => ((b - 192) * 64 + (b1 - 128)) :: utf8_decode r1
        | _ => [b]
        end
      else if b <? 240 then
        match r with
        | b1 :: b2 :: r2 =>
            ((b - 224) * 4096 + (b1 - 128) * 64 + (b2 - 128)) :: utf8_decode r2
        | _ => [b]
        end
      else
        match r with
        | b1 :: b2 :: b3 :: r3 =>
            ((b - 240) * 262144 + (b1 - 128) * 4096 + (b2 - 128) * 64 + (b3 - 128))
              :: utf8_decode r3
        | _ => [b]
        end
  end.

Definition u (s : string) : str := utf8_decode (bytes_of_string s).

Definition dq : str := [34].   (* the double quote *)
Definition nl : str := [10].   (* the line feed *)
Definition SP : N := 32.       (* the space *)

(** [c.isspace()] *)
Definition isspace (c : N) : bool :=
  ((9 <=? c) && (c <=? 13)) || ((28 <=? c) && (c <=? 32))
  || (c =? 133) || (c =? 160) || (c =? 5760)
  || ((8192 <=? c) && (c <=? 8202))
  || (c =? 8232) || (c =? 8233) || (c =? 8239) || (c =? 8287) || (c =? 12288).

(** [c.lower()] and [s.lower()] are those of CPython 3.11, whose character
    database is Unicode 14.0.0.

    [lower_table] is the lower-case mapping of single code points, as pairs
    of a code point and its image in increasing order of code points; a code
    point that is not listed maps to itself. *)
Definition lower_table : list (N * N) := [
  (65, 97); (66, 98); (67, 99); (68, 100); (69, 101); (70, 102); (71, 103);
  (72, 104); (73, 105); (74, 106); (75, 107); (76, 108); (77, 109); (78, 110);
  (79, 111); (80, 112); (81, 113); (82, 114); (83, 115); (84, 116); (85, 117);
  (86, 118); (87, 119); (88, 120); (89, 121); (90, 122); (192, 224);
  (193, 225); (194, 226); (195, 227); (196, 228); (197, 229); (198, 230);
  (199, 231); (200, 232); (201, 233); (202, 234); (203, 235); (204, 236);
  (205, 237); (206, 238); (207, 239); (208, 240); (209, 241); (210, 242);
  (211, 243); (212, 244); (213, 245); (214, 246); (216, 248); (217, 249);
  (218, 250); (219, 251); (220, 252); (221, 253); (222, 254); (256, 257);
  (258, 259); (260, 261); (262, 263); (264, 265); (266, 267); (268, 269);
  (270, 271); (272, 273); (274, 275); (276, 277); (278, 279); (280, 281);
  (282, 283); (284, 285); (286, 287); (288, 289); (290, 291); (292, 293);
  (294, 295); (296, 297); (298, 299); (300, 301); (302, 303); (306, 307);
  (308, 309); (310, 311); (313, 314); (315, 316); (317, 318); (319, 320);
  (321, 322); (323, 324); (325, 326); (327, 328); (330, 331); (332, 333);
  (334, 335); (336, 337); (338, 339); (340, 341); (342, 343); (344, 345);
  (346, 347); (348, 349); (350, 351); (352, 353); (354, 355); (356, 357);
  (358, 359); (360, 361); (362, 363); (364, 365); (366, 367); (368, 369);
  (370, 371); (372, 373); (374, 375); (376, 255); (377, 378); (379, 380);
  (381, 382); (385, 595); (386, 387); (388, 389); (390, 596); (391, 392);
  (393, 598); (394, 599); (395, 396); (398, 477); (399, 601); (400, 603);
  (401, 402); (403, 608); (404, 611); (406, 617); (407, 616); (408, 409);
  (412, 623); (413, 626); (415, 629); (416, 417); (418, 419); (420, 421);
  (422, 640); (423, 424); (425, 643); (428, 429); (430, 648); (431, 432);
  (433, 650); (434, 651); (435, 436); (437, 438); (439, 658); (440, 441);
  (444, 445); (452, 454); (453, 454); (455, 457); (456, 457); (458, 460);
  (459, 460); (461, 462); (463, 464); (465, 466); (467, 468); (469, 470);
  (471, 472); (473, 474); (475, 476); (478, 479); (480, 481); (482, 483);
  (484, 485); (486, 487); (488, 489); (490, 491); (492, 493); (494, 495);
  (497, 499); (498, 499); (500, 501); (502, 405); (503, 447); (504, 505);
  (506, 507); (508, 509); (510, 511); (512, 513); (514, 515); (516, 517);
  (518, 519); (520, 521); (522, 523); (524, 525); (526, 527); (528, 529);
  (530, 531); (532, 533); (534, 535); (536, 537); (538, 539); (540, 541);
  (542, 543); (544, 414); (546, 547); (548, 549); (550, 551); (552, 553);
  (554, 555); (556, 557); (558, 559); (560, 561); (562, 563); (570, 11365);
  (571, 572); (573, 410); (574, 11366); (577, 578); (579, 384); (580, 649);
  (581, 652); (582, 583); (584, 585); (586, 587); (588, 589); (590, 591);
  (880, 881); (882, 883); (886, 887); (895, 1011); (902, 940); (904, 941);
  (905, 942); (906, 943); (908, 972); (910, 973); (911, 974); (913, 945);
  (914, 946); (915, 947); (916, 948); (917, 949); (918, 950); (919, 951);
  (920, 952); (921, 953); (922, 954); (923, 955); (924, 956); (925, 957);
  (926, 958); (927, 959); (928, 960); (929, 961); (931, 963); (932, 964);
  (933, 965); (934, 966); (935, 967); (936, 968); (937, 969); (938, 970);
  (939, 971); (975, 983); (984, 985); (986, 987); (988, 989); (990, 991);
  (992, 993); (994, 995); (996, 997); (998, 999); (1000, 1001); (1002, 1003);
  (1004, 1005); (1006, 1007); (1012, 952); (1015, 1016); (1017, 1010);
  (1018, 1019); (1021, 891); (1022, 892); (1023, 893); (1024, 1104);
  (1025, 1105); (1026, 1106); (1027, 1107); (1028, 1108); (1029, 1109);
  (1030, 1110); (1031, 1111); (1032, 1112); (1033, 1113); (1034, 1114);
  (1035, 1115); (1036, 1116); (1037, 1117); (1038, 1118); (1039, 1119);
  (1040, 1072); (1041, 1073); (1042, 1074); (1043, 1075); (1044, 1076);
  (1045, 1077); (1046, 1078); (1047, 1079); (1048, 1080); (1049, 1081);
  (1050, 1082); (1051, 1083); (1052, 1084); (1053, 1085); (1054, 1086);
  (1055, 1087); (1056, 1088); (1057, 1089); (1058, 1090); (1059, 1091);
  (1060, 1092); (1061, 1093); (1062, 1094); (1063, 1095); (1064, 1096);
  (1065, 1097); (1066, 1098); (1067, 1099); (1068, 1100); (1069, 1101);
  (1070, 1102); (1071, 1103); (1120, 1121); (1122, 1123); (1124, 1125);
  (1126, 1127); (1128, 1129); (1130, 1131); (1132, 1133); (1134, 1135);
  (1136, 1137); (1138, 1139); (1140, 1141); (1142, 1143); (1144, 1145);
  (1146, 1147); (1148, 1149); (1150, 1151); (1152, 1153); (1162, 1163);
  (1164, 1165); (1166, 1167); (1168, 1169); (1170, 1171); (1172, 1173);
  (1174, 1175); (1176, 1177); (1178, 1179); (1180, 1181); (1182, 1183);
  (1184, 1185); (1186, 1187); (1188, 1189); (1190, 1191); (1192, 1193);
  (1194, 1195); (1196, 1197); (1198, 1199); (1200, 1201); (1202, 1203);
  (1204, 1205); (1206, 1207); (1208, 1209); (1210, 1211); (1212, 1213);
  (1214, 1215); (1216, 1231); (1217, 1218); (1219, 1220); (1221, 1222);
  (1223, 1224); (1225, 1226); (1227, 1228); (1229, 1230); (1232, 1233);
  (1234, 1235); (1236, 1237); (1238, 1239); (1240, 1241); (1242, 1243);
  (1244, 1245); (1246, 1247); (1248, 1249); (1250, 1251); (1252, 1253);
  (1254, 1255); (1256, 1257); (1258, 1259); (1260, 1261); (1262, 1263);
  (1264, 1265); (1266, 1267); (1268, 1269); (1270, 1271); (1272, 1273);
  (1274, 1275); (1276, 1277); (1278, 1279); (1280, 1281); (1282, 1283);
  (1284, 1285); (1286, 1287); (1288, 1289); (1290, 1291); (1292, 1293);
  (1294, 1295); (1296, 1297); (1298, 1299); (1300, 1301); (1302, 1303);
  (1304, 1305); (1306, 1307); (1308, 1309); (1310, 1311); (1312, 1313);
  (1314, 1315); (1316, 1317); (1318, 1319); (1320, 1321); (1322, 1323);
  (1324, 1325); (1326, 1327); (1329, 1377); (1330, 1378); (1331, 1379);
  (1332, 1380); (1333, 1381); (1334, 1382); (1335, 1383); (1336, 1384);
  (1337, 1385); (1338, 1386); (1339, 1387); (1340, 1388); (1341, 1389);
  (1342, 1390); (1343, 1391); (1344, 1392); (1345, 1393); (1346, 1394);
  (1347, 1395); (1348, 1396); (1349, 1397); (1350, 1398); (1351, 1399);
  (1352, 1400); (1353, 1401); (1354, 1402); (1355, 1403); (1356, 1404);
  (1357, 1405); (1358, 1406); (1359, 1407); (1360, 1408); (1361, 1409);
  (1362, 1410); (1363, 1411); (1364, 1412); (1365, 1413); (1366, 1414);
  (4256, 11520); (4257, 11521); (4258, 11522); (4259, 11523); (4260, 11524);
  (4261, 11525); (4262, 11526); (4263, 11527); (4264, 11528); (4265, 11529);
  (4266, 11530); (4267, 11531); (4268, 11532); (4269, 11533); (4270, 11534);
  (4271, 11535); (4272, 11536); (4273, 11537); (4274, 11538); (4275, 11539);
  (4276, 11540); (4277, 11541); (4278, 11542); (4279, 11543); (4280, 11544);
  (4281, 11545); (4282, 11546); (4283, 11547); (4284, 11548); (4285, 11549);
  (4286, 11550); (4287, 11551); (4288, 11552); (4289, 11553); (4290, 11554);
  (4291, 11555); (4292, 11556); (4293, 11557); (4295, 11559); (4301, 11565);
  (5024, 43888); (5025, 43889); (5026, 43890); (5027, 43891); (5028, 43892);
  (5029, 43893); (5030, 43894); (5031, 43895); (5032, 43896); (5033, 43897);
  (5034, 43898); (5035, 43899); (5036, 43900); (5037, 43901); (5038, 43902);
  (5039, 43903); (5040, 43904); (5041, 43905); (5042, 43906); (5043, 43907);
  (5044, 43908); (5045, 43909); (5046, 43910); (5047, 43911); (5048, 43912);
  (5049, 43913); (5050, 43914); (5051, 43915); (5052, 43916); (5053, 43917);
  (5054, 43918); (5055, 43919); (5056, 43920); (5057, 43921); (5058, 43922);
  (5059, 43923); (5060, 43924); (5061, 43925); (5062, 43926); (5063, 43927);
  (5064, 43928); (5065, 43929); (5066, 43930); (5067, 43931); (5068, 43932);
  (5069, 43933); (5070, 43934); (5071, 43935); (5072, 43936); (5073, 43937);
  (5074, 43938); (5075, 43939); (5076, 43940); (5077, 43941); (5078, 43942);
  (5079, 43943); (5080, 43944); (5081, 43945); (5082, 43946); (5083, 43947);
  (5084, 43948); (5085, 43949); (5086, 43950); (5087, 43951); (5088, 43952);
  (5089, 43953); (5090, 43954); (5091, 43955); (5092, 43956); (5093, 43957);
  (5094, 43958); (5095, 43959); (5096, 43960); (5097, 43961); (5098, 43962);
  (5099, 43963); (5100, 43964); (5101, 43965); (5102, 43966); (5103, 43967);
  (5104, 5112); (5105, 5113); (5106, 5114); (5107, 5115); (5108, 5116);
  (5109, 5117); (7312, 4304); (7313, 4305); (7314, 4306); (7315, 4307);
  (7316, 4308); (7317, 4309); (7318, 4310); (7319, 4311); (7320, 4312);
  (7321, 4313); (7322, 4314); (7323, 4315); (7324, 4316); (7325, 4317);
  (7326, 4318); (7327, 4319); (7328, 4320); (7329, 4321); (7330, 4322);
  (7331, 4323); (7332, 4324); (7333, 4325); (7334, 4326); (7335, 4327);
  (7336, 4328); (7337, 4329); (7338, 4330); (7339, 4331); (7340, 4332);
  (7341, 4333); (7342, 4334); (7343, 4335); (7344, 4336); (7345, 4337);
  (7346, 4338); (7347, 4339); (7348, 4340); (7349, 4341); (7350, 4342);
  (7351, 4343); (7352, 4344); (7353, 4345); (7354, 4346); (7357, 4349);
  (7358, 4350); (7359, 4351); (7680, 7681); (7682, 7683); (7684, 7685);
  (7686, 7687); (7688, 7689); (7690, 7691); (7692, 7693); (7694, 7695);
  (7696, 7697); (7698, 7699); (7700, 7701); (7702, 7703); (7704, 7705);
  (7706, 7707); (7708, 7709); (7710, 7711); (7712, 7713); (7714, 7715);
  (7716, 7717); (7718, 7719); (7720, 7721); (7722, 7723); (7724, 7725);
  (7726, 7727); (7728, 7729); (7730, 7731); (7732, 7733); (7734, 7735);
  (7736, 7737); (7738, 7739); (7740, 7741); (7742, 7743); (7744, 7745);
  (7746, 7747); (7748, 7749); (7750, 7751); (7752, 7753); (7754, 7755);
  (7756, 7757); (7758, 7759); (7760, 7761); (7762, 7763); (7764, 7765);
  (7766, 7767); (7768, 7769); (7770, 7771); (7772, 7773); (7774, 7775);
  (7776, 7777); (7778, 7779); (7780, 7781); (7782, 7783); (7784, 7785);
  (7786, 7787); (7788, 7789); (7790, 7791); (7792, 7793); (7794, 7795);
  (7796, 7797); (7798, 7799); (7800, 7801); (7802, 7803); (7804, 7805);
  (7806, 7807); (7808, 7809); (7810, 7811); (7812, 7813); (7814, 7815);
  (7816, 7817); (7818, 7819); (7820, 7821); (7822, 7823); (7824, 7825);
  (7826, 7827); (7828, 7829); (7838, 223); (7840, 7841); (7842, 7843);
  (7844, 7845); (7846, 7847); (7848, 7849); (7850, 7851); (7852, 7853);
  (7854, 7855); (7856, 7857); (7858, 7859); (7860, 7861); (7862, 7863);
  (7864, 7865); (7866, 7867); (7868, 7869); (7870, 7871); (7872, 7873);
  (7874, 7875); (7876, 7877); (7878, 7879); (7880, 7881); (7882, 7883);
  (7884, 7885); (7886, 7887); (7888, 7889); (7890, 7891); (7892, 7893);
  (7894, 7895); (7896, 7897); (7898, 7899); (7900, 7901); (7902, 7903);
  (7904, 7905); (7906, 7907); (7908, 7909); (7910, 7911); (7912, 7913);
  (7914, 7915); (7916, 7917); (7918, 7919); (7920, 7921); (7922, 7923);
  (7924, 7925); (7926, 7927); (7928, 7929); (7930, 7931); (7932, 7933);
  (7934, 7935); (7944, 7936); (7945, 7937); (7946, 7938); (7947, 7939);
  (7948, 7940); (7949, 7941); (7950, 7942); (7951, 7943); (7960, 7952);
  (7961, 7953); (7962, 7954); (7963, 7955); (7964, 7956); (7965, 7957);
  (7976, 7968); (7977, 7969); (7978, 7970); (7979, 7971); (7980, 7972);
  (7981, 7973); (7982, 7974); (7983, 7975); (7992, 7984); (7993, 7985);
  (7994, 7986); (7995, 7987); (7996, 7988); (7997, 7989); (7998, 7990);
  (7999, 7991); (8008, 8000); (8009, 8001); (8010, 8002); (8011, 8003);
  (8012, 8004); (8013, 8005); (8025, 8017); (8027, 8019); (8029, 8021);
  (8031, 8023); (8040, 8032); (8041, 8033); (8042, 8034); (8043, 8035);
  (8044, 8036); (8045, 8037); (8046, 8038); (8047, 8039); (8072, 8064);
  (8073, 8065); (8074, 8066); (8075, 8067); (8076, 8068); (8077, 8069);
  (8078, 8070); (8079, 8071); (8088, 8080); (8089, 8081); (8090, 8082);
  (8091, 8083); (8092, 8084); (8093, 8085); (8094, 8086); (8095, 8087);
  (8104, 8096); (8105, 8097); (8106, 8098); (8107, 8099); (8108, 8100);
  (8109, 8101); (8110, 8102); (8111, 8103); (8120, 8112); (8121, 8113);
  (8122, 8048); (8123, 8049); (8124, 8115); (8136, 8050); (8137, 8051);
  (8138, 8052); (8139, 8053); (8140, 8131); (8152, 8144); (8153, 8145);
  (8154, 8054); (8155, 8055); (8168, 8160); (8169, 8161); (8170, 8058);
  (8171, 8059); (8172, 8165); (8184, 8056); (8185, 8057); (8186, 8060);
  (8187, 8061); (8188, 8179); (8486, 969); (8490, 107); (8491, 229);
  (8498, 8526); (8544, 8560); (8545, 8561); (8546, 8562); (8547, 8563);
  (8548, 8564); (8549, 8565); (8550, 8566); (8551, 8567); (8552, 8568);
  (8553, 8569); (8554, 8570); (8555, 8571); (8556, 8572); (8557, 8573);
  (8558, 8574); (8559, 8575); (8579, 8580); (9398, 9424); (9399, 9425);
  (9400, 9426); (9401, 9427); (9402, 9428); (9403, 9429); (9404, 9430);
  (9405, 9431); (9406, 9432); (9407, 9433); (9408, 9434); (9409, 9435);
  (9410, 9436); (9411, 9437); (9412, 9438); (9413, 9439); (9414, 9440);
  (9415, 9441); (9416, 9442); (9417, 9443); (9418, 9444); (9419, 9445);
  (9420, 9446); (9421, 9447); (9422, 9448); (9423, 9449); (11264, 11312);
  (11265, 11313); (11266, 11314); (11267, 11315); (11268, 11316);
  (11269, 11317); (11270, 11318); (11271, 11319); (11272, 11320);
  (11273, 11321); (11274, 11322); (11275, 11323); (11276, 11324);
  (11277, 11325); (11278, 11326); (11279, 11327); (11280, 11328);
  (11281, 11329); (11282, 11330); (11283, 11331); (11284, 11332);
  (11285, 11333); (11286, 11334); (11287, 11335); (11288, 11336);
  (11289, 11337); (11290, 11338); (11291, 11339); (11292, 11340);
  (11293, 11341); (11294, 11342); (11295, 11343); (11296, 11344);
  (11297, 11345); (11298, 11346); (11299, 11347); (11300, 11348);
  (11301, 11349); (11302, 11350); (11303, 11351); (11304, 11352);
  (11305, 11353); (11306, 11354); (11307, 11355); (11308, 11356);
  (11309, 11357); (11310, 11358); (11311, 11359); (11360, 11361);
  (11362, 619); (11363, 7549); (11364, 637); (11367, 11368); (11369, 11370);
  (11371, 11372); (11373, 593); (11374, 625); (11375, 592); (11376, 594);
  (11378, 11379); (11381, 11382); (11390, 575); (11391, 576); (11392, 11393);
  (11394, 11395); (11396, 11397); (11398, 11399); (11400, 11401);
  (11402, 11403); (11404, 11405); (11406, 11407); (11408, 11409);
  (11410, 11411); (11412, 11413); (11414, 11415); (11416, 11417);
  (11418, 11419); (11420, 11421); (11422, 11423); (11424, 11425);
  (11426, 11427); (11428, 11429); (11430, 11431); (11432, 11433);
  (11434, 11435); (11436, 11437); (11438, 11439); (11440, 11441);
  (11442, 11443); (11444, 11445); (11446, 11447); (11448, 11449);
  (11450, 11451); (11452, 11453); (11454, 11455); (11456, 11457);
  (11458, 11459); (11460, 11461); (11462, 11463); (11464, 11465);
  (11466, 11467); (11468, 11469); (11470, 11471); (11472, 11473);
  (11474, 11475); (11476, 11477); (11478, 11479); (11480, 11481);
  (11482, 11483); (11484, 11485); (11486, 11487); (11488, 11489);
  (11490, 11491); (11499, 11500); (11501, 11502); (11506, 11507);
  (42560, 42561); (42562, 42563); (42564, 42565); (42566, 42567);
  (42568, 42569); (42570, 42571); (42572, 42573); (42574, 42575);
  (42576, 42577); (42578, 42579); (42580, 42581); (42582, 42583);
  (42584, 42585); (42586, 42587); (42588, 42589); (42590, 42591);
  (42592, 42593); (42594, 42595); (42596, 42597); (42598, 42599);
  (42600, 42601); (42602, 42603); (42604, 42605); (42624, 42625);
  (42626, 42627); (42628, 42629); (42630, 42631); (42632, 42633);
  (42634, 42635); (42636, 42637); (42638, 42639); (42640, 42641);
  (42642, 42643); (42644, 42645); (42646, 42647); (42648, 42649);
  (42650, 42651); (42786, 42787); (42788, 42789); (42790, 42791);
  (42792, 42793); (42794, 42795); (42796, 42797); (42798, 42799);
  (42802, 42803); (42804, 42805); (42806, 42807); (42808, 42809);
  (42810, 42811); (42812, 42813); (42814, 42815); (42816, 42817);
  (42818, 42819); (42820, 42821); (42822, 42823); (42824, 42825);
  (42826, 42827); (42828, 42829); (42830, 42831); (42832, 42833);
  (42834, 42835); (42836, 42837); (42838, 42839); (42840, 42841);
  (42842, 42843); (42844, 42845); (42846, 42847); (42848, 42849);
  (42850, 42851); (42852, 42853); (42854, 42855); (42856, 42857);
  (42858, 42859); (42860, 42861); (42862, 42863); (42873, 42874);
  (42875, 42876); (42877, 7545); (42878, 42879); (42880, 42881);
  (42882, 42883); (42884, 42885); (42886, 42887); (42891, 42892);
  (42893, 613); (42896, 42897); (42898, 42899); (42902, 42903);
  (42904, 42905); (42906, 42907); (42908, 42909); (42910, 42911);
  (42912, 42913); (42914, 42915); (42916, 42917); (42918, 42919);
  (42920, 42921); (42922, 614); (42923, 604); (42924, 609); (42925, 620);
  (42926, 618); (42928, 670); (42929, 647); (42930, 669); (42931, 43859);
  (42932, 42933); (42934, 42935); (42936, 42937); (42938, 42939);
  (42940, 42941); (42942, 42943); (42944, 42945); (42946, 42947);
  (42948, 42900); (42949, 642); (42950, 7566); (42951, 42952); (42953, 42954);
  (42960, 42961); (42966, 42967); (42968, 42969); (42997, 42998);
  (65313, 65345); (65314, 65346); (65315, 65347); (65316, 65348);
  (65317, 65349); (65318, 65350); (65319, 65351); (65320, 65352);
  (65321, 65353); (65322, 65354); (65323, 65355); (65324, 65356);
  (65325, 65357); (65326, 65358); (65327, 65359); (65328, 65360);
  (65329, 65361); (65330, 65362); (65331, 65363); (65332, 65364);
  (65333, 65365); (65334, 65366); (65335, 65367); (65336, 65368);
  (65337, 65369); (65338, 65370); (66560, 66600); (66561, 66601);
  (66562, 66602); (66563, 66603); (66564, 66604); (66565, 66605);
  (66566, 66606); (66567, 66607); (66568, 66608); (66569, 66609);
  (66570, 66610); (66571, 66611); (66572, 66612); (66573, 66613);
  (66574, 66614); (66575, 66615); (66576, 66616); (66577, 66617);
  (66578, 66618); (66579, 66619); (66580, 66620); (66581, 66621);
  (66582, 66622); (66583, 66623); (66584, 66624); (66585, 66625);
  (66586, 66626); (66587, 66627); (66588, 66628); (66589, 66629);
  (66590, 66630); (66591, 66631); (66592, 66632); (66593, 66633);
  (66594, 66634); (66595, 66635); (66596, 66636); (66597, 66637);
  (66598, 66638); (66599, 66639); (66736, 66776); (66737, 66777);
  (66738, 66778); (66739, 66779); (66740, 66780); (66741, 66781);
  (66742, 66782); (66743, 66783); (66744, 66784); (66745, 66785);
  (66746, 66786); (66747, 66787); (66748, 66788); (66749, 66789);
  (66750, 66790); (66751, 66791); (66752, 66792); (66753, 66793);
  (66754, 66794); (66755, 66795); (66756, 66796); (66757, 66797);
  (66758, 66798); (66759, 66799); (66760, 66800); (66761, 66801);
  (66762, 66802); (66763, 66803); (66764, 66804); (66765, 66805);
  (66766, 66806); (66767, 66807); (66768, 66808); (66769, 66809);
  (66770, 66810); (66771, 66811); (66928, 66967); (66929, 66968);
  (66930, 66969); (66931, 66970); (66932, 66971); (66933, 66972);
  (66934, 66973); (66935, 66974); (66936, 66975); (66937, 66976);
  (66938, 66977); (66940, 66979); (66941, 66980); (66942, 66981);
  (66943, 66982); (66944, 66983); (66945, 66984); (66946, 66985);
  (66947, 66986); (66948, 66987); (66949, 66988); (66950, 66989);
  (66951, 66990); (66952, 66991); (66953, 66992); (66954, 66993);
  (66956, 66995); (66957, 66996); (66958, 66997); (66959, 66998);
  (66960, 66999); (66961, 67000); (66962, 67001); (66964, 67003);
  (66965, 67004); (68736, 68800); (68737, 68801); (68738, 68802);
  (68739, 68803); (68740, 68804); (68741, 68805); (68742, 68806);
  (68743, 68807); (68744, 68808); (68745, 68809); (68746, 68810);
  (68747, 68811); (68748, 68812); (68749, 68813); (68750, 68814);
  (68751, 68815); (68752, 68816); (68753, 68817); (68754, 68818);
  (68755, 68819); (68756, 68820); (68757, 68821); (68758, 68822);
  (68759, 68823); (68760, 68824); (68761, 68825); (68762, 68826);
  (68763, 68827); (68764, 68828); (68765, 68829); (68766, 68830);
  (68767, 68831); (68768, 68832); (68769, 68833); (68770, 68834);
  (68771, 68835); (68772, 68836); (68773, 68837); (68774, 68838);
  (68775, 68839); (68776, 68840); (68777, 68841); (68778, 68842);
  (68779, 68843); (68780, 68844); (68781, 68845); (68782, 68846);
  (68783, 68847); (68784, 68848); (68785, 68849); (68786, 68850);
  (71840, 71872); (71841, 71873); (71842, 71874); (71843, 71875);
  (71844, 71876); (71845, 71877); (71846, 71878); (71847, 71879);
  (71848, 71880); (71849, 71881); (71850, 71882); (71851, 71883);
  (71852, 71884); (71853, 71885); (71854, 71886); (71855, 71887);
  (71856, 71888); (71857, 71889); (71858, 71890); (71859, 71891);
  (71860, 71892); (71861, 71893); (71862, 71894); (71863, 71895);
  (71864, 71896); (71865, 71897); (71866, 71898); (71867, 71899);
  (71868, 71900); (71869, 71901); (71870, 71902); (71871, 71903);
  (93760, 93792); (93761, 93793); (93762, 93794); (93763, 93795);
  (93764, 93796); (93765, 93797); (93766, 93798); (93767, 93799);
  (93768, 93800); (93769, 93801); (93770, 93802); (93771, 93803);
  (93772, 93804); (93773, 93805); (93774, 93806); (93775, 93807);
  (93776, 93808); (93777, 93809); (93778, 93810); (93779, 93811);
  (93780, 93812); (93781, 93813); (93782, 93814); (93783, 93815);
  (93784, 93816); (93785, 93817); (93786, 93818); (93787, 93819);
  (93788, 93820); (93789, 93821); (93790, 93822); (93791, 93823);
  (125184, 125218); (125185, 125219); (125186, 125220); (125187, 125221);
  (125188, 125222); (125189, 125223); (125190, 125224); (125191, 125225);
  (125192, 125226); (125193, 125227); (125194, 125228); (125195, 125229);
  (125196, 125230); (125197, 125231); (125198, 125232); (125199, 125233);
  (125200, 125234); (125201, 125235); (125202, 125236); (125203, 125237);
  (125204, 125238); (125205, 125239); (125206, 125240); (125207, 125241);
  (125208, 125242); (125209, 125243); (125210, 125244); (125211, 125245);
  (125212, 125246); (125213, 125247); (125214, 125248); (125215, 125249);
  (125216, 125250); (125217, 125251)
].

(** The image of [c] in a table in increasing order. *)
Fixpoint table_image (c : N) (t : list (N * N)) : N :=
  match t with
  | [] => c
  | (k, v) :: r =>
      if c <? k then c else if c =? k then v else table_image c r
  end.

Definition lower_char (c : N) : N := table_image c lower_table.

(** The full lower-case mapping: U+0130, the capital I with a dot above, is
    the one code point whose lower case has two code points, an i and the
    combining dot above. *)
Definition to_lower_full (c : N) : str :=
  if c =? 304 then [105; 775] else [lower_char c].

(** The cased code points (property Cased), as ranges in increasing
    order. *)
Definition cased_ranges : list (N * N) := [
  (65, 90); (97, 122); (170, 170); (181, 181); (186, 186); (192, 214);
  (216, 246); (248, 442); (444, 447); (452, 659); (661, 696); (704, 705);
  (736, 740); (837, 837); (880, 883); (886, 887); (890, 893); (895, 895);
  (902, 902); (904, 906); (908, 908); (910, 929); (931, 1013); (1015, 1153);
  (1162, 1327); (1329, 1366); (1376, 1416); (4256, 4293); (4295, 4295);
  (4301, 4301); (4304, 4346); (4349, 4351); (5024, 5109); (5112, 5117);
  (7296, 7304); (7312, 7354); (7357, 7359); (7424, 7615); (7680, 7957);
  (7960, 7965); (7968, 8005); (8008, 8013); (8016, 8023); (8025, 8025);
  (8027, 8027); (8029, 8029); (8031, 8061); (8064, 8116); (8118, 8124);
  (8126, 8126); (8130, 8132); (8134, 8140); (8144, 8147); (8150, 8155);
  (8160, 8172); (8178, 8180); (8182, 8188); (8305, 8305); (8319, 8319);
  (8336, 8348); (8450, 8450); (8455, 8455); (8458, 8467); (8469, 8469);
  (8473, 8477); (8484, 8484); (8486, 8486); (8488, 8488); (8490, 8493);
  (8495, 8500); (8505, 8505); (8508, 8511); (8517, 8521); (8526, 8526);
  (8544, 8575); (8579, 8580); (9398, 9449); (11264, 11492); (11499, 11502);
  (11506, 11507); (11520, 11557); (11559, 11559); (11565, 11565);
  (42560, 42605); (42624, 42653); (42786, 42887); (42891, 42894);
  (42896, 42954); (42960, 42961); (42963, 42963); (42965, 42969);
  (42997, 42998); (43000, 43002); (43824, 43866); (43868, 43880);
  (43888, 43967); (64256, 64262); (64275, 64279); (65313, 65338);
  (65345, 65370); (66560, 66639); (66736, 66771); (66776, 66811);
  (66928, 66938); (66940, 66954); (66956, 66962); (66964, 66965);
  (66967, 66977); (66979, 66993); (66995, 67001); (67003, 67004);
  (67456, 67456); (67459, 67461); (67463, 67504); (67506, 67514);
  (68736, 68786); (68800, 68850); (71840, 71903); (93760, 93823);
  (119808, 119892); (119894, 119964); (119966, 119967); (119970, 119970);
  (119973, 119974); (119977, 119980); (119982, 119993); (119995, 119995);
  (119997, 120003); (120005, 120069); (120071, 120074); (120077, 120084);
  (120086, 120092); (120094, 120121); (120123, 120126); (120128, 120132);
  (120134, 120134); (120138, 120144); (120146, 120485); (120488, 120512);
  (120514, 120538); (120540, 120570); (120572, 120596); (120598, 120628);
  (120630, 120654); (120656, 120686); (120688, 120712); (120714, 120744);
  (120746, 120770); (120772, 120779); (122624, 122633); (122635, 122654);
  (125184, 125251); (127280, 127305); (127312, 127337); (127344, 127369)
].

(** The case-ignorable code points (property Case_Ignorable), as ranges in
    increasing order. *)
Definition case_ignorable_ranges : list (N * N) := [
  (39, 39); (46, 46); (58, 58); (94, 94); (96, 96); (168, 168); (173, 173);
  (175, 175); (180, 180); (183, 184); (688, 879); (884, 885); (890, 890);
  (900, 901); (903, 903); (1155, 1161); (1369, 1369); (1375, 1375);
  (1425, 1469); (1471, 1471); (1473, 1474); (1476, 1477); (1479, 1479);
  (1524, 1524); (1536, 1541); (1552, 1562); (1564, 1564); (1600, 1600);
  (1611, 1631); (1648, 1648); (1750, 1757); (1759, 1768); (1770, 1773);
  (1807, 1807); (1809, 1809); (1840, 1866); (1958, 1968); (2027, 2037);
  (2042, 2042); (2045, 2045); (2070, 2093); (2137, 2139); (2184, 2184);
  (2192, 2193); (2200, 2207); (2249, 2306); (2362, 2362); (2364, 2364);
  (2369, 2376); (2381, 2381); (2385, 2391); (2402, 2403); (2417, 2417);
  (2433, 2433); (2492, 2492); (2497, 2500); (2509, 2509); (2530, 2531);
  (2558, 2558); (2561, 2562); (2620, 2620); (2625, 2626); (2631, 2632);
  (2635, 2637); (2641, 2641); (2672, 2673); (2677, 2677); (2689, 2690);
  (2748, 2748); (2753, 2757); (2759, 2760); (2765, 2765); (2786, 2787);
  (2810, 2815); (2817, 2817); (2876, 2876); (2879, 2879); (2881, 2884);
  (2893, 2893); (2901, 2902); (2914, 2915); (2946, 2946); (3008, 3008);
  (3021, 3021); (3072, 3072); (3076, 3076); (3132, 3132); (3134, 3136);
  (3142, 3144); (3146, 3149); (3157, 3158); (3170, 3171); (3201, 3201);
  (3260, 3260); (3263, 3263); (3270, 3270); (3276, 3277); (3298, 3299);
  (3328, 3329); (3387, 3388); (3393, 3396); (3405, 3405); (3426, 3427);
  (3457, 3457); (3530, 3530); (3538, 3540); (3542, 3542); (3633, 3633);
  (3636, 3642); (3654, 3662); (3761, 3761); (3764, 3772); (3782, 3782);
  (3784, 3789); (3864, 3865); (3893, 3893); (3895, 3895); (3897, 3897);
  (3953, 3966); (3968, 3972); (3974, 3975); (3981, 3991); (3993, 4028);
  (4038, 4038); (4141, 4144); (4146, 4151); (4153, 4154); (4157, 4158);
  (4184, 4185); (4190, 4192); (4209, 4212); (4226, 4226); (4229, 4230);
  (4237, 4237); (4253, 4253); (4348, 4348); (4957, 4959); (5906, 5908);
  (5938, 5939); (5970, 5971); (6002, 6003); (6068, 6069); (6071, 6077);
  (6086, 6086); (6089, 6099); (6103, 6103); (6109, 6109); (6155, 6159);
  (6211, 6211); (6277, 6278); (6313, 6313); (6432, 6434); (6439, 6440);
  (6450, 6450); (6457, 6459); (6679, 6680); (6683, 6683); (6742, 6742);
  (6744, 6750); (6752, 6752); (6754, 6754); (6757, 6764); (6771, 6780);
  (6783, 6783); (6823, 6823); (6832, 6862); (6912, 6915); (6964, 6964);
  (6966, 6970); (6972, 6972); (6978, 6978); (7019, 7027); (7040, 7041);
  (7074, 7077); (7080, 7081); (7083, 7085); (7142, 7142); (7144, 7145);
  (7149, 7149); (7151, 7153); (7212, 7219); (7222, 7223); (7288, 7293);
  (7376, 7378); (7380, 7392); (7394, 7400); (7405, 7405); (7412, 7412);
  (7416, 7417); (7468, 7530); (7544, 7544); (7579, 7679); (8125, 8125);
  (8127, 8129); (8141, 8143); (8157, 8159); (8173, 8175); (8189, 8190);
  (8203, 8207); (8216, 8217); (8228, 8228); (8231, 8231); (8234, 8238);
  (8288, 8292); (8294, 8303); (8305, 8305); (8319, 8319); (8336, 8348);
  (8400, 8432); (11388, 11389); (11503, 11505); (11631, 11631);
  (11647, 11647); (11744, 11775); (11823, 11823); (12293, 12293);
  (12330, 12333); (12337, 12341); (12347, 12347); (12441, 12446);
  (12540, 12542); (40981, 40981); (42232, 42237); (42508, 42508);
  (42607, 42610); (42612, 42621); (42623, 42623); (42652, 42655);
  (42736, 42737); (42752, 42785); (42864, 42864); (42888, 42890);
  (42994, 42996); (43000, 43001); (43010, 43010); (43014, 43014);
  (43019, 43019); (43045, 43046); (43052, 43052); (43204, 43205);
  (43232, 43249); (43263, 43263); (43302, 43309); (43335, 43345);
  (43392, 43394); (43443, 43443); (43446, 43449); (43452, 43453);
  (43471, 43471); (43493, 43494); (43561, 43566); (43569, 43570);
  (43573, 43574); (43587, 43587); (43596, 43596); (43632, 43632);
  (43644, 43644); (43696, 43696); (43698, 43700); (43703, 43704);
  (43710, 43711); (43713, 43713); (43741, 43741); (43756, 43757);
  (43763, 43764); (43766, 43766); (43867, 43871); (43881, 43883);
  (44005, 44005); (44008, 44008); (44013, 44013); (64286, 64286);
  (64434, 64450); (65024, 65039); (65043, 65043); (65056, 65071);
  (65106, 65106); (65109, 65109); (65279, 65279); (65287, 65287);
  (65294, 65294); (65306, 65306); (65342, 65342); (65344, 65344);
  (65392, 65392); (65438, 65439); (65507, 65507); (65529, 65531);
  (66045, 66045); (66272, 66272); (66422, 66426); (67456, 67461);
  (67463, 67504); (67506, 67514); (68097, 68099); (68101, 68102);
  (68108, 68111); (68152, 68154); (68159, 68159); (68325, 68326);
  (68900, 68903); (69291, 69292); (69446, 69456); (69506, 69509);
  (69633, 69633); (69688, 69702); (69744, 69744); (69747, 69748);
  (69759, 69761); (69811, 69814); (69817, 69818); (69821, 69821);
  (69826, 69826); (69837, 69837); (69888, 69890); (69927, 69931);
  (69933, 69940); (70003, 70003); (70016, 70017); (70070, 70078);
  (70089, 70092); (70095, 70095); (70191, 70193); (70196, 70196);
  (70198, 70199); (70206, 70206); (70367, 70367); (70371, 70378);
  (70400, 70401); (70459, 70460); (70464, 70464); (70502, 70508);
  (70512, 70516); (70712, 70719); (70722, 70724); (70726, 70726);
  (70750, 70750); (70835, 70840); (70842, 70842); (70847, 70848);
  (70850, 70851); (71090, 71093); (71100, 71101); (71103, 71104);
  (71132, 71133); (71219, 71226); (71229, 71229); (71231, 71232);
  (71339, 71339); (71341, 71341); (71344, 71349); (71351, 71351);
  (71453, 71455); (71458, 71461); (71463, 71467); (71727, 71735);
  (71737, 71738); (71995, 71996); (71998, 71998); (72003, 72003);
  (72148, 72151); (72154, 72155); (72160, 72160); (72193, 72202);
  (72243, 72248); (72251, 72254); (72263, 72263); (72273, 72278);
  (72281, 72283); (72330, 72342); (72344, 72345); (72752, 72758);
  (72760, 72765); (72767, 72767); (72850, 72871); (72874, 72880);
  (72882, 72883); (72885, 72886); (73009, 73014); (73018, 73018);
  (73020, 73021); (73023, 73029); (73031, 73031); (73104, 73105);
  (73109, 73109); (73111, 73111); (73459, 73460); (78896, 78904);
  (92912, 92916); (92976, 92982); (92992, 92995); (94031, 94031);
  (94095, 94111); (94176, 94177); (94179, 94180); (110576, 110579);
  (110581, 110587); (110589, 110590); (113821, 113822); (113824, 113827);
  (118528, 118573); (118576, 118598); (119143, 119145); (119155, 119170);
  (119173, 119179); (119210, 119213); (119362, 119364); (121344, 121398);
  (121403, 121452); (121461, 121461); (121476, 121476); (121499, 121503);
  (121505, 121519); (122880, 122886); (122888, 122904); (122907, 122913);
  (122915, 122916); (122918, 122922); (123184, 123197); (123566, 123566);
  (123628, 123631); (125136, 125142); (125252, 125259); (127995, 127999);
  (917505, 917505); (917536, 917631); (917760, 917999)
].

Fixpoint in_ranges (c : N) (t : list (N * N)) : bool :=
  match t with
  | [] => false
  | (lo, hi) :: r => if c <? lo then false else (c <=? hi) || in_ranges c r
  end.

Definition is_cased (c : N) : bool := in_ranges c cased_ranges.
Definition is_case_ignorable (c : N) : bool := in_ranges c case_ignorable_ranges.

(** The capital sigma U+03A3 becomes the final sigma U+03C2 when a cased
    code point comes before it and none comes after it, case-ignorable code
    points being skipped on both sides; otherwise it becomes U+03C3.
    [followed_by_cased r] looks at what comes after. *)
Fixpoint followed_by_cased (r : str) : bool :=
  match r with
  | [] => false
  | c :: r' => if is_case_ignorable c then followed_by_cased r' else is_cased c
  end.

(** [after_cased] tells whether the nearest code point before [s] that is
    not case-ignorable is cased. *)
Fixpoint lower_from (after_cased : bool) (s : str) : str :=
  match s with
  | [] => []
  | c :: r =>
      (if c =? 931
       then [if after_cased && negb (followed_by_cased r) then 962 else 963]
       else to_lower_full c)
      ++ lower_from (if is_case_ignorable c then after_cased else is_cased c) r
  end.

(** [s.lower()] *)
Definition lower (s : str) : str := lower_from false s.

(** [s.split()], with no argument: the maximal runs of non-whitespace.
    [w] is the word being read. *)
Fixpoint split_from (w : str) (s : str) : list str :=
  match s with
  | [] => match w with [] => [] | _ => [w] end
  | c :: r =>
      if isspace c
      then match w with [] => split_from [] r | _ => w :: split_from [] r end
      else split_from (w ++ [c]) r
  end.

Definition split_ws (s : str) : list str := split_from [] s.

(** [sep.join(l)] *)
Fixpoint join (sep : str) (l : list str) : str :=
  match l with
  | [] => []
  | [x] => x
  | x :: r => x ++ sep ++ join sep r
  end.

(** [s[:n]] *)
Definition slice_to (n : Z) (s : str) : str :=
  if (0 <=? n)%Z then take (Z.to_nat n) s
  else take (length s - Z.to_nat (- n)) s.

(** [s.startswith(p)] *)
Fixpoint startswith (p s : str) : bool :=
  match p, s with
  | [], _ => true
  | _ :: _, [] => false
  | a :: p', b :: s' => (a =? b) && startswith p' s'
  end.

(** [needle in hay] *)
Fixpoint contains (needle hay : str) : bool :=
  startswith needle hay
  || match hay with [] => false | _ :: r => contains needle r end.

(** [s.lstrip()], [s.rstrip()], [s.strip()] *)
Fixpoint lstrip (s : str) : str :=
  match s with
  | [] => []
  | c :: r => if isspace c then lstrip r else s
  end.

Definition rstrip (s : str) : str := rev (lstrip (rev s)).
Definition strip (s : str) : str := rstrip (lstrip s).

(** Truth value of a string: non-empty. *)
Definition nonempty (s : str) : bool :=
  match s with [] => false | _ => true end.

(** ** utils.py: normalize_short *)

(** The words of [s] joined by one space, in lower case, cut at
    [max_chars]: join, split, lower and a slice, as in the source. *)
Definition normalize_short (s : str) (max_chars : Z) : str :=
  slice_to max_chars (lower (join [SP] (split_ws s))).

(** ** Python values *)

#[local] Set Warnings "-register-all".

Inductive json : Type :=
| JNull                              (* None *)
| JBool (b : bool)
| JInt (z : Z)
| JFloat (lit : str)                 (* float(lit); NaN, Infinity, -Infinity *)
| JStr (s : str)
| JArr (l : list json)               (* list *)
| JObj (kv : list (str * json)).     (* dict, in insertion order, keys unique *)

(** What the code needs of floats and of [repr] of a string. *)
Class PyRuntime : Type := {
  float_bool : str -> bool;          (* bool(float(lit)) *)
  float_repr : str -> str;           (* repr(float(lit)) *)
  float_json : str -> str;           (* json.dumps(float(lit)) *)
  str_repr : str -> str              (* repr(s) *)
}.

(** [d.get(k)] on the pairs of a dict. *)
Fixpoint dict_get (k : str) (d : list (str * json)) : option json :=
  match d with
  | [] => None
  | (k', v) :: r => if bool_decide (k = k') then Some v else dict_get k r
  end.

(** [d[k] = v] *)
Fixpoint dict_set (k : str) (v : json) (d : list (str * json)) : list (str * json) :=
  match d with
  | [] => [(k, v)]
  | (k', v') :: r =>
      if bool_decide (k = k') then (k', v) :: r else (k', v') :: dict_set k v r
  end.

Definition ch (a : ascii) : N := N_of_ascii a.
Definition bsl : str := [92].  (* the backslash *)

Definition is_digit (c : N) : bool := (48 <=? c) && (c <=? 57).

Definition str_of_Z (z : Z) : str :=
  bytes_of_string (NilZero.string_of_int (Z.to_int z)).

(** ** json.loads *)

Definition is_json_ws (c : N) : bool :=
  (c =? 32) || (c =? 9) || (c =? 10) || (c =? 13).

Fixpoint skip_ws (s : str) : str :=
  match s with
  | [] => []
  | c :: r => if is_json_ws c then skip_ws r else s
  end.

Definition hex_val (c : N) : option N :=
  if is_digit c then Some (c - 48)
  else if (97 <=? c) && (c <=? 102) then Some (c - 87)
  else if (65 <=? c) && (c <=? 70) then Some (c - 55)
  else None.

Definition hex4_val (a b c d : N) : option N :=
  match hex_val a, hex_val b, hex_val c, hex_val d with
  | Some x, Some y, Some z, Some w => Some (x * 4096 + y * 256 + z * 16 + w)
  | _, _, _, _ => None
  end.

(** A character of a string literal: written as itself or as [\uXXXX]. *)
Inductive unit16 : Type :=
| Raw (c : N)
| Esc (c : N).

Definition simple_escape (e : N) : option N :=
  if (e =? 34) || (e =? 92) || (e =? ch "/") then Some e
  else if e =? ch "b" then Some 8
  else if e =? ch "f" then Some 12
  else if e =? ch "n" then Some 10
  else if e =? ch "r" then Some 13
  else if e =? ch "t" then Some 9
  else None.

(** The body of a string literal, after its opening quote, in strict mode. *)
Fixpoint scan_units (s : str) : option (list unit16 * str) :=
  match s with
  | [] => None
  | c :: r =>
      if c =? 34 then Some ([], r)
      else if c =? 92 then
        match r with
        | [] => None
        | e :: r1 =>
            if e =? ch "u" then
              match r1 with
              | a :: b :: c' :: d :: r2 =>
                  match hex4_val a b c' d with
                  | Some v =>
                      match scan_units r2 with
                      | Some (us, t) => Some (Esc v :: us, t)
                      | None => None
                      end
                  | None => None
                  end
              | _ => None
              end
            else
              match simple_escape e with
              | Some x =>
                  match scan_units r1 with
                  | Some (us, t) => Some (Raw x :: us, t)
                  | None => None
                  end
              | None => None
              end
        end
      else if c <=? 31 then None
      else
        match scan_units r with
        | Some (us, t) => Some (Raw c :: us, t)
        | None => None
        end
  end.

(** An escaped high surrogate directly followed by an escaped low surrogate
    is one code point. *)
Fixpoint join_surrogates (us : list unit16) : str :=
  match us with
  | [] => []
  | Raw c :: r => c :: join_surrogates r
  | Esc c :: r =>
      match r with
      | Esc c2 :: r2 =>
          if (55296 <=? c) && (c <=? 56319) && (56320 <=? c2) && (c2 <=? 57343)
          then (65536 + (c - 55296) * 1024 + (c2 - 56320)) :: join_surrogates r2
          else c :: join_surrogates r
      | _ => c :: join_surrogates r
      end
  end.

Definition scanstring (s : str) : option (str * str) :=
  match scan_units s with
  | Some (us, t) => Some (join_surrogates us, t)
  | None => None
  end.

Fixpoint span_digits (s : str) : str * str :=
  match s with
  | [] => ([], [])
  | c :: r =>
      if is_digit c then let '(d, t) := span_digits r in (c :: d, t) else ([], s)
  end.

Definition int_of_digits (d : str) : Z :=
  fold_left (fun a c => (a * 10 + Z.of_N (c - 48))%Z) d 0%Z.

(** A number: an optional minus sign; 0, or a digit 1-9 and more digits;
    then a fraction (a dot and digits) and an exponent (e or E, a sign,
    digits), each optional.  A number with a fraction or an exponent is a
    float.  Each scanner returns what it read and the rest. *)
Definition scan_sign (s : str) : str * str :=
  match s with
  | c :: r => if c =? ch "-" then ([c], r) else ([], s)
  | [] => ([], s)
  end.

Definition scan_int (s : str) : option (str * str) :=
  match s with
  | [] => None
  | c :: r =>
      if c =? ch "0" then Some ([c], r)
      else if is_digit c then let '(d, t) := span_digits r in Some (c :: d, t)
      else None
  end.

Definition scan_frac (s : str) : str * str :=
  match s with
  | p :: d :: t =>
      if (p =? ch ".") && is_digit d
      then let '(fd, t') := span_digits (d :: t) in (p :: fd, t')
      else ([], s)
  | _ => ([], s)
  end.

Definition scan_exp (s : str) : str * str :=
  match s with
  | e :: t =>
      if (e =? ch "e") || (e =? ch "E") then
        let '(sg, t1) :=
          match t with
          | c :: t' => if (c =? ch "+") || (c =? ch "-") then ([c], t') else ([], t)
          | [] => ([], t)
          end in
        match span_digits t1 with
        | ([], _) => ([], s)
        | (ed, t2) => (e :: sg ++ ed, t2)
        end
      else ([], s)
  | [] => ([], s)
  end.

Definition match_number (s : str) : option (json * str) :=
  let '(sign, s1) := scan_sign s in
  match scan_int s1 with
  | None => None
  | Some (ds, r1) =>
      let '(frac, r2) := scan_frac r1 in
      let '(exp, r3) := scan_exp r2 in
      match frac, exp with
      | [], [] =>
          let z := int_of_digits ds in
          Some (JInt (match sign with [] => z | _ => - z end)%Z, r3)
      | _, _ => Some (JFloat (sign ++ ds ++ frac ++ exp), r3)
      end
  end.

Inductive presult (A : Type) : Type :=
| POk (a : A)
| PErr          (* the text is not JSON *)
| PFuel.        (* the recursion budget is used up *)
Arguments POk {A} a.
Arguments PErr {A}.
Arguments PFuel {A}.

(** [scan_once]: one JSON value at the head of [s], and the rest. *)
Fixpoint scan_once (fuel : nat) (s : str) {struct fuel} : presult (json * str) :=
  match fuel with
  | O => PFuel
  | S f =>
      match s with
      | [] => PErr
      | c :: r =>
          if c =? 34 then
            match scanstring r with
            | Some (x, t) => POk (JStr x, t)
            | None => PErr
            end
          else if c =? ch "{" then
            match skip_ws r with
            | [] => PErr
            | c1 :: r1 =>
                if c1 =? ch "}" then POk (JObj [], r1)
                else parse_object f (c1 :: r1) []
            end
          else if c =? ch "[" then
            match skip_ws r with
            | [] => PErr
            | c1 :: r1 =>
                if c1 =? ch "]" then POk (JArr [], r1)
                else parse_array f (c1 :: r1) []
            end
          else if startswith (u "null") s then POk (JNull, drop 4 s)
          else if startswith (u "true") s then POk (JBool true, drop 4 s)
          else if startswith (u "false") s then POk (JBool false, drop 5 s)
          else if startswith (u "NaN") s then POk (JFloat (u "NaN"), drop 3 s)
          else if startswith (u "Infinity") s then POk (JFloat (u "Infinity"), drop 8 s)
          else if startswith (u "-Infinity") s then POk (JFloat (u "-Infinity"), drop 9 s)
          else
            match match_number s with
            | Some x => POk x
            | None => PErr
            end
      end
  end
with parse_array (fuel : nat) (s : str) (acc : list json) {struct fuel}
  : presult (json * str) :=
  match fuel with
  | O => PFuel
  | S f =>
      match scan_once f s with
      | POk (v, r) =>
          match skip_ws r with
          | [] => PErr
          | c :: r1 =>
              if c =? ch "]" then POk (JArr (acc ++ [v]), r1)
              else if c =? ch "," then parse_array f (skip_ws r1) (acc ++ [v])
              else PErr
          end
      | PErr => PErr
      | PFuel => PFuel
      end
  end
with parse_object (fuel : nat) (s : str) (acc : list (str * json)) {struct fuel}
  : presult (json * str) :=
  match fuel with
  | O => PFuel
  | S f =>
      match s with
      | [] => PErr
      | q :: r =>
          if q =? 34 then
            match scanstring r with
            | None => PErr
            | Some (k, r1) =>
                match skip_ws r1 with
                | [] => PErr
                | c :: r2 =>
                    if c =? ch ":" then
                      match scan_once f (skip_ws r2) with
                      | POk (v, r3) =>
                          match skip_ws r3 with
                          | [] => PErr
                          | c' :: r4 =>
                              if c' =? ch "}" then POk (JObj (dict_set k v acc), r4)
                              else if c' =? ch ","
                              then parse_object f (skip_ws r4) (dict_set k v acc)
                              else PErr
                          end
                      | PErr => PErr
                      | PFuel => PFuel
                      end
                    else PErr
                end
            end
          else PErr
      end
  end.

(** [json.loads(s)]; [None] when it raises. *)
Definition json_loads (s : str) : option json :=
  if startswith [65279] s then None
  else
    match scan_once (2 * length s + 2) (skip_ws s) with
    | POk (v, r) => match skip_ws r with [] => Some v | _ => None end
    | _ => None
    end.

Section Runtime.
Context `{PyRuntime}.

(** ** Truth values, str(), repr() *)

(** [bool(v)] *)
Definition truthy (v : json) : bool :=
  match v with
  | JNull => false
  | JBool b => b
  | JInt z => negb (z =? 0)%Z
  | JFloat lit => float_bool lit
  | JStr s => nonempty s
  | JArr l => match l with [] => false | _ => true end
  | JObj kv => match kv with [] => false | _ => true end
  end.

(** [a or b] *)
Definition py_or (a b : json) : json := if truthy a then a else b.

(** [repr(v)] *)
Fixpoint py_repr (v : json) : str :=
  match v with
  | JNull => u "None"
  | JBool true => u "True"
  | JBool false => u "False"
  | JInt z => str_of_Z z
  | JFloat lit => float_repr lit
  | JStr s => str_repr s
  | JArr l => u "[" ++ join (u ", ") (map py_repr l) ++ u "]"
  | JObj kv =>
      u "{" ++ join (u ", ") (map (fun p => str_repr (fst p) ++ u ": " ++ py_repr (snd p)) kv)
        ++ u "}"
  end.

(** [str(v)], also what an f-string puts for [{v}] *)
Definition py_str (v : json) : str :=
  match v with
  | JStr s => s
  | _ => py_repr v
  end.

(** ** json.dumps *)

Definition hex_digit (n : N) : N := if n <? 10 then 48 + n else 87 + n.

Definition u_escape (c : N) : str :=
  bsl ++ u "u" ++ [hex_digit (c / 4096 mod 16); hex_digit (c / 256 mod 16);
                   hex_digit (c / 16 mod 16); hex_digit (c mod 16)].

(** One character of a string under [ensure_ascii=True]. *)
Definition escape_char (c : N) : str :=
  if (32 <=? c) && (c <=? 126) && negb (c =? 92) && negb (c =? 34) then [c]
  else if c =? 92 then bsl ++ bsl
  else if c =? 34 then bsl ++ dq
  else if c =? 8 then bsl ++ u "b"
  else if c =? 12 then bsl ++ u "f"
  else if c =? 10 then bsl ++ u "n"
  else if c =? 13 then bsl ++ u "r"
  else if c =? 9 then bsl ++ u "t"
  else if 65536 <=? c
  then u_escape (55296 + (c - 65536) / 1024) ++ u_escape (56320 + (c - 65536) mod 1024)
  else u_escape c.

Definition encode_str (s : str) : str := dq ++ concat (map escape_char s) ++ dq.

(** The line break and indentation at nesting depth [level]. *)
Definition newline_indent (indent : option nat) (level : nat) : str :=
  match indent with
  | None => []
  | Some n => nl ++ repeat SP (n * level)
  end.

Definition item_separator (indent : option nat) (level : nat) : str :=
  match indent with
  | None => u ", "
  | Some _ => u "," ++ newline_indent indent level
  end.

Fixpoint dumps_at (indent : option nat) (level : nat) (v : json) : str :=
  match v with
  | JNull => u "null"
  | JBool true => u "true"
  | JBool false => u "false"
  | JInt z => str_of_Z z
  | JFloat lit => float_json lit
  | JStr s => encode_str s
  | JArr [] => u "[]"
  | JArr l =>
      u "[" ++ newline_indent indent (S level)
        ++ join (item_separator indent (S level)) (map (dumps_at indent (S level)) l)
        ++ newline_indent indent level ++ u "]"
  | JObj [] => u "{}"
  | JObj kv =>
      u "{" ++ newline_indent indent (S level)
        ++ join (item_separator indent (S level))
             (map (fun p => encode_str (fst p) ++ u ": " ++ dumps_at indent (S level) (snd p)) kv)
        ++ newline_indent indent level ++ u "}"
  end.

(** [json.dumps(v)] and [json.dumps(v, indent=n)] *)
Definition json_dumps (indent : option nat) (v : json) : str := dumps_at indent 0 v.

End Runtime.

(** ** utils.py: extract_json_substring *)

(** Membership of a character in the opening, and in the closing, brackets. *)
Definition is_open (c : N) : bool := (c =? ch "{") || (c =? ch "[").
Definition is_close (c : N) : bool := (c =? ch "}") || (c =? ch "]").

(** The [for] loop: the index of the first '{' or '['. *)
Fixpoint find_start (text : str) : option nat :=
  match text with
  | [] => None
  | c :: r => if is_open c then Some O else S <$> find_start r
  end.

(** The [while] loop at index [i], with [rest = text[i:]]. *)
Fixpoint balance (text : str) (start_idx : nat) (stack : list N) (i : nat) (rest : str)
  : option str :=
  match rest with
  | [] => None
  | c :: rest' =>
      if is_open c then balance text start_idx (c :: stack) (S i) rest'
      else if is_close c then
        match stack with
        | [] => None
        | _ :: stack' =>
            match stack' with
            | [] =>
                let candidate := take (S i - start_idx) (drop start_idx text) in
                match json_loads candidate with
                | Some _ => Some candidate
                | None => balance text start_idx stack' (S i) rest'
                end
            | _ :: _ => balance text start_idx stack' (S i) rest'
            end
        end
      else balance text start_idx stack (S i) rest'
  end.

Definition extract_json_substring (text : str) : option str :=
  match text with
  | [] => None
  | _ =>
      match find_start text with
      | None => None
      | Some start_idx => balance text start_idx [] start_idx (drop start_idx text)
      end
  end.

(** ** utils.py: extract_first_step_description *)

(** The [for] loop over the values of a dict: the first value that is a
    non-empty list whose first element is a dict gives that element. *)
Fixpoint first_listed_entry (kv : list (str * json)) : option (list (str * json)) :=
  match kv with
  | [] => None
  | (_, JArr (JObj entry :: _)) :: _ => Some entry
  | _ :: r => first_listed_entry r
  end.

Fixpoint span_nonquote (s : str) : str * str :=
  match s with
  | [] => ([], [])
  | c :: r => if c =? 34 then ([], s) else let '(g, t) := span_nonquote r in (c :: g, t)
  end.

(** The regular expression of the source matched at the head of [s]: the
    quoted word description, whitespace, a colon, whitespace, a quote, one or
    more characters other than a quote (group 1), a quote. *)
Definition match_description_at (s : str) : option str :=
  if startswith (dq ++ u "description" ++ dq) s then
    match lstrip (drop 13 s) with
    | c :: r =>
        if c =? ch ":" then
          match lstrip r with
          | q :: r' =>
              if q =? 34 then
                match span_nonquote r' with
                | ((_ :: _) as g, _ :: _) => Some g
                | _ => None
                end
              else None
          | [] => None
          end
        else None
    | [] => None
    end
  else None.

(** [re.search]: the leftmost match. *)
Fixpoint search_description (s : str) : option str :=
  match match_description_at s with
  | Some g => Some g
  | None => match s with [] => None | _ :: r => search_description r end
  end.

Section Utils.
Context `{PyRuntime}.

(** The description of [entry] if it has a true one, else [json.dumps(entry)]. *)
Definition description_or_dump (entry : list (str * json)) : json :=
  py_or (default JNull (dict_get (u "description") entry))
        (JStr (json_dumps None (JObj entry))).

Definition extract_first_step_description (planner_text : str) : json :=
  let by_regex :=
    match search_description planner_text with
    | Some g => JStr g
    | None =>
        let t := normalize_short planner_text 400 in
        if nonempty t then JStr (slice_to 350 t ++ u "...") else JNull
    end in
  match json_loads planner_text with
  | Some (JArr (JObj first :: _)) => description_or_dump first
  | Some (JObj kv) =>
      match first_listed_entry kv with
      | Some entry => description_or_dump entry
      | None => by_regex
      end
  | _ => by_regex
  end.

End Utils.

(** ** subagents.py: the registered prompts

    The values of [SUB_PROMPTS] once the module is loaded (the later
    assignments to the main and research entries are the ones in force). *)

Definition planner_prompt : str :=
  u "You are Planner-Agent. Input: an 'objective' and optional "
  ++ u "'constraints'. Output: JSON array ONLY, no extra text. Each element "
  ++ u "MUST be an object with: { 'step_id': <string>, 'description': <string>, "
  ++ u "'assigned_to': ('research-agent' | 'main-agent' | 'critic-agent'), "
  ++ u "'expected_artifact': <string> }. STRICT RULES: Do NOT echo or "
  ++ u "paraphrase the input. Do NOT add commentary. Output MUST be valid JSON "
  ++ u "parsable by Python.".

Definition research_prompt : str :=
  u "You are Research-Agent. Input: a short research task. Follow runtime "
  ++ u "preference: default is Firecrawl MCP (firecrawl.*); when 'Deep "
  ++ u "Research' is enabled you MUST call the built-in internet_search tool "
  ++ u "(Tavily) at least once. If preferred tool is unavailable, fall back to "
  ++ u "the other if present. If NO tools are available, output JSON ONLY: { "
  ++ u "'error': 'tools_unavailable' } and STOP. Otherwise, output JSON OBJECT "
  ++ u "ONLY (no prose) with EXACT keys and schema:" ++ nl
  ++ u "{" ++ nl
  ++ u "  'answer': <string, crisp synthesis>," ++ nl
  ++ u "  'key_points': [<string>]," ++ nl
  ++ u "  'method': { 'queries': [<string>], 'tools_used': [<string>], "
  ++ u "'time_window': {'from': <YYYY-MM-DD|null>, 'to': <YYYY-MM-DD|null>} }," ++ nl
  ++ u "  'evidence': [ { 'claim': <string>, 'support': [ {'sid': <'S1'..>, "
  ++ u "'quote': <string>, 'locator': <string|null>, 'confidence': <0..1>} ], "
  ++ u "'contradictions': [ {'sid': <'Sx'>, 'quote': <string>, 'locator': "
  ++ u "<string|null>} ] } ]," ++ nl
  ++ u "  'citations': [ { 'sid': <'S1'..>, 'url': <string>, 'title': <string>, "
  ++ u "'site': <string>, 'author': <string|null>, 'published': "
  ++ u "<YYYY-MM-DD|null>, 'accessed': <YYYY-MM-DD>, 'reliability': "
  ++ u "<'primary'|'secondary'|'tertiary'>, 'archive_url': <string|null> } ]," ++ nl
  ++ u "  'limitations': [<string>]," ++ nl
  ++ u "  'confidence': <0..1>" ++ nl
  ++ u "}" ++ nl
  ++ u "HARD RULES:" ++ nl
  ++ u "- Provide ≥2 independent citations for any non-trivial claim; "
  ++ u "de-duplicate by domain." ++ nl
  ++ u "- Prefer primary/authoritative sources; Wikipedia ONLY as 'tertiary' "
  ++ u "and never alone." ++ nl
  ++ u "- Include short, verbatim quotes with locators (section, page, "
  ++ u "timestamp) when possible." ++ nl
  ++ u "- Use citation IDs 'S1', 'S2', … and reference them in "
  ++ u "'support'/'contradictions'." ++ nl
  ++ u "- No apologies, no meta, no placeholders. JSON MUST be valid and "
  ++ u "minified (no trailing commas).".

Definition critic_prompt : str :=
  u "You are Critic-Agent. Input: candidate_answer + research_json. Output: "
  ++ u "JSON object ONLY with EXACT keys: { 'verdict': ('ACCEPT' | 'REVISE' | "
  ++ u "'REJECT'), 'fixes': [<string>], 'notes': <string>, 'quality_score': "
  ++ u "<0..100> }. Checks to perform BEFORE verdict: answer is supported by "
  ++ u "evidence (≥2 independent sources for key claims), all inline citations "
  ++ u "map to existing 'sid's, no Wikipedia-only support, dates present where "
  ++ u "relevant, and no orphan claims. Output MUST be valid JSON parsable by "
  ++ u "Python.".

Definition main_prompt : str :=
  u "You are Main-Agent. Input: research_json + critic report. Output: PLAIN "
  ++ u "TEXT ONLY (no JSON). Write a clear, direct explanation answering the "
  ++ u "user’s question." ++ nl
  ++ u "Rules:" ++ nl
  ++ u "- Default to explanatory prose. Only use bullets/steps if the question "
  ++ u "asks for them." ++ nl
  ++ u "- After factual claims, add bracketed citation IDs like [S1], [S2] "
  ++ u "mapping to research_json.citations (or sources)." ++ nl
  ++ u "- Do NOT echo planner JSON, critic JSON, or tool logs. No meta "
  ++ u "commentary.".

(** The lookup of a role in [SUB_PROMPTS], the empty string by default. *)
Definition SUB_PROMPTS (role_name : str) : str :=
  if bool_decide (role_name = u "planner-agent") then planner_prompt
  else if bool_decide (role_name = u "research-agent") then research_prompt
  else if bool_decide (role_name = u "critic-agent") then critic_prompt
  else if bool_decide (role_name = u "main-agent") then main_prompt
  else [].

(** ** Exceptions and effects *)

Inductive exn : Type :=
| InterruptedError (msg : str)
| AttributeError
| TypeError.

Inductive outcome (A : Type) : Type :=
| Ok (a : A)
| Raise (e : exn).
Arguments Ok {A} a.
Arguments Raise {A} e.

Inductive kind : Type := Content | Reasoning.

(** What the outside sees of a run.  The newest event is the head of a
    trace. *)
Inductive event : Type :=
| Poll (answer : bool)                  (* should_stop() was called *)
| Invoke (content : str)                (* agent.astream was called *)
| Console (text : str)                  (* a banner was printed *)
| Echo (role t : str)                   (* a fragment was printed *)
| Forward (tag t : str) (k : kind).     (* on_text(tag, t, kind) was called *)

Definition world := list event.

Definition M (A : Type) : Type := world -> outcome A * world.

Definition ret {A} (a : A) : M A := fun w => (Ok a, w).

Definition bind {A B} (m : M A) (f : A -> M B) : M B :=
  fun w =>
    match m w with
    | (Ok a, w') => f a w'
    | (Raise e, w') => (Raise e, w')
    end.

Notation "x <- m ;; k" := (bind m (fun x => k))
  (at level 100, m at next level, right associativity).
Notation "m ;;; k" := (bind m (fun _ => k))
  (at level 100, right associativity).

Definition emit (e : event) : M unit := fun w => (Ok tt, e :: w).

Definition lift {A} (o : outcome A) : M A := fun w => (o, w).

Definition when (b : bool) (m : M unit) : M unit := if b then m else ret tt.

Fixpoint foldM {A S} (f : S -> A -> M S) (l : list A) (s : S) : M S :=
  match l with
  | [] => ret s
  | a :: r => s' <- f s a ;; foldM f r s'
  end.

Definition is_poll (e : event) : bool :=
  match e with Poll _ => true | _ => false end.
Definition is_invoke (e : event) : bool :=
  match e with Invoke _ => true | _ => false end.

(** The stop predicate answers by the number of times it was asked before;
    [None] when the caller gives no predicate. *)
Definition stop_predicate := option (nat -> bool).

(** [if should_stop and should_stop(): raise InterruptedError(...)] *)
Definition poll_stop (should_stop : stop_predicate) : M unit :=
  match should_stop with
  | None => ret tt
  | Some f =>
      fun w =>
        if f (length (filter is_poll w))
        then (Raise (InterruptedError (u "Stopped by user")), Poll true :: w)
        else (Ok tt, Poll false :: w)
  end.

(** A message of a chunk: its [content] and the [reasoning_content] of its
    [additional_kwargs], when present. *)
Record message : Type := {
  content : option str;
  reasoning_content : option str
}.

(** A chunk of the stream: a dict with a [messages] entry, or anything else,
    read through its own attributes. *)
Inductive chunk : Type :=
| ChunkDict (messages : list message)
| ChunkObj (m : message).

(** The agent answers by the number of earlier invocations and the content
    of the user message. *)
Definition agent_handle := nat -> str -> list chunk.

Definition astream (agent : agent_handle) (content : str) : M (list chunk) :=
  fun w => (Ok (agent (length (filter is_invoke w)) content), Invoke content :: w).

(** The observer: it may raise. *)
Definition observer := str -> str -> kind -> outcome unit.

(** ** orchestrator.py: stream_subagent *)

Definition role_invocation (role_name : str) : str :=
  u "ROLE: " ++ role_name ++ nl
  ++ u "INSTRUCTIONS: Return only the requested output (JSON or plain "
  ++ u "text per task). DO NOT echo role text.".

Definition user_msg (role_name payload_text : str) : str :=
  role_invocation role_name ++ nl ++ u "TASK:" ++ nl ++ payload_text.

Definition truthy_text (o : option str) : bool :=
  match o with Some (_ :: _) => true | _ => false end.

(** The texts of one message and their kinds. *)
Definition texts_of_message (m : message) : list (str * kind) :=
  (if truthy_text (content m) then [(default [] (content m), Content)] else [])
  ++ (if truthy_text (reasoning_content m)
      then [(default [] (reasoning_content m), Reasoning)] else []).

Definition texts_of_chunk (c : chunk) : list (str * kind) :=
  match c with
  | ChunkDict ms => concat (map texts_of_message ms)
  | ChunkObj m => texts_of_message m
  end.

Definition tool_markers : list str :=
  [u "<|tool_call"; u "<|tool_calls_section"; u "functions.write_todos"].

Definition echo_keys : list str :=
  [dq ++ u "objective" ++ dq; dq ++ u "constraints" ++ dq; u "objective:"].

(** The regular expression of the filler: at the start, whitespace, then
    i'll research or i will research. *)
Definition filler_match (s : str) : bool :=
  let s' := lstrip s in
  startswith (u "i'll research") s' || startswith (u "i will research") s'.

(** The chain of [continue] tests of the inner loop: [true] when the text is
    dropped. *)
Definition dropped (normalized_role_invocation normalized_registered_prompt : str)
    (seen_norms : gset str) (t : str) : bool :=
  let t_norm := normalize_short t 300 in
  if existsb (fun marker => contains marker t) tool_markers then true
  else if nonempty normalized_role_invocation
          && contains normalized_role_invocation t_norm then true
  else if nonempty normalized_registered_prompt
          && contains normalized_registered_prompt t_norm then true
  else if existsb (fun key => contains key (lower t)) echo_keys then true
  else if filler_match (lower (strip t)) then true
  else if bool_decide (t_norm ∈ seen_norms) then true
  else if (length (strip t) <? 3)%nat then true
  else false.

(** [tag or role_name] *)
Definition tag_or (tag : option str) (role_name : str) : str :=
  match tag with
  | Some ((_ :: _) as t) => t
  | _ => role_name
  end.

(** The call of the observer, whose exceptions are swallowed. *)
Definition notify (on_text : observer) (tag t : str) (k : kind) : M unit :=
  emit (Forward tag t k) ;;;
  match on_text tag t k with
  | Ok _ => ret tt
  | Raise _ => ret tt
  end.

Section Stream.
Variables (role_name : str) (quiet : bool) (on_text : option observer)
          (tag : option str) (should_stop : stop_predicate).

Let normalized_role_invocation := normalize_short (role_invocation role_name) 300.
Let normalized_registered_prompt := normalize_short (SUB_PROMPTS role_name) 300.

(** The body of the inner loop, on the accumulator and the set of seen
    normal forms. *)
Definition handle_text (st : list str * gset str) (tk : str * kind)
  : M (list str * gset str) :=
  let '(collected, seen_norms) := st in
  let '(t, k) := tk in
  poll_stop should_stop ;;;
  let t_norm := normalize_short t 300 in
  if dropped normalized_role_invocation normalized_registered_prompt seen_norms t
  then ret st
  else
    match on_text with
    | Some f => notify f (tag_or tag role_name) t k
    | None => when (negb quiet) (emit (Echo role_name t))
    end ;;;
    ret (collected ++ [t], {[ t_norm ]} ∪ seen_norms).

(** The body of the outer loop. *)
Definition handle_chunk (st : list str * gset str) (c : chunk)
  : M (list str * gset str) :=
  poll_stop should_stop ;;;
  foldM handle_text (texts_of_chunk c) st.

(** The accepted fragments of one role invocation, in order. *)
Definition stream_collect (agent : agent_handle) (payload_text : str) : M (list str) :=
  when (negb quiet && negb (bool_decide (is_Some on_text)))
    (emit (Console (nl ++ u "[-> " ++ role_name ++ u "] " ++ slice_to 240 payload_text
                      ++ (if (240 <? length payload_text)%nat then u "..." else [])
                      ++ nl))) ;;;
  chunks <- astream agent (user_msg role_name payload_text) ;;
  st <- foldM handle_chunk chunks ([], ∅) ;;
  when (negb quiet && negb (bool_decide (is_Some on_text)))
    (emit (Console (nl ++ nl ++ u "[" ++ role_name ++ u "] --- END ---" ++ nl))) ;;;
  ret (fst st).

End Stream.

(** The joined fragments: the empty string joins them. *)
Definition stream_subagent (agent : agent_handle) (role_name payload_text : str)
    (quiet : bool) (on_text : option observer) (tag : option str)
    (should_stop : stop_predicate) : M str :=
  collected <- stream_collect role_name quiet on_text tag should_stop agent payload_text ;;
  ret (join [] collected).

(** ** orchestrator.py: run_conversation *)

Record conversation_result : Type := {
  user_question : str;
  planner : str;
  plan_parsed : json;
  research_raw : str;
  research_json : json;
  candidate : str;
  critic_raw : str;
  critic_json : json;
  final : str;
  warnings : list str
}.

(** The [try]/[except] chain that parses the output of a stage: the whole
    text, then the extracted substring, then [None]. *)
Definition loads_or_extract (raw : str) : json :=
  match json_loads raw with
  | Some v => v
  | None =>
      match extract_json_substring raw with
      | Some js =>
          if nonempty js
          then match json_loads js with Some v => v | None => JNull end
          else JNull
      | None => JNull
      end
  end.

(** [v.get(k, dflt)]: only a dict has the method. *)
Definition py_get (v : json) (k : str) (dflt : json) : outcome json :=
  match v with
  | JObj kv => Ok (default dflt (dict_get k kv))
  | _ => Raise AttributeError
  end.

(** [v[:3]] *)
Definition py_slice3 (v : json) : outcome json :=
  match v with
  | JArr l => Ok (JArr (take 3 l))
  | JStr s => Ok (JStr (take 3 s))
  | _ => Raise TypeError
  end.

Definition no_evidence_warning : str :=
  u "Research returned no citations/sources. Tools may be unavailable or prompts need tuning.".
Definition tavily_warning : str :=
  u "Deep Research requested, but Tavily internet_search tool was not used.".
Definition firecrawl_warning : str :=
  u "Research did not use Firecrawl tools. Check Firecrawl availability or prompts.".
Definition critic_fix_message : str :=
  u "Critic output unparsable — request a follow-up.".

Section Orchestrator.
Context `{PyRuntime}.

Definition planner_payload (user_question : str) : str :=
  json_dumps (Some 2%nat)
    (JObj [(u "objective", JStr user_question);
           (u "constraints",
             JArr [JStr (u "include 3 concrete action steps if recommending usage")])]).

(** The choice of [research_focus] from the parsed plan. *)
Definition research_focus_of (plan : json) (planner_out user_question : str)
  : outcome json :=
  let otherwise :=
    py_or (extract_first_step_description planner_out) (JStr user_question) in
  if truthy plan then
    match plan with
    | JArr (first :: _) =>
        match py_get first (u "description") JNull with
        | Ok d => Ok (py_or d (JStr (json_dumps None first)))
        | Raise e => Raise e
        end
    | JObj kv =>
        let desc :=
          match first_listed_entry kv with
          | Some entry => description_or_dump entry
          | None => JNull
          end in
        Ok (py_or (py_or desc (extract_first_step_description planner_out))
                  (JStr user_question))
    | _ => Ok otherwise
    end
  else Ok otherwise.

Definition preference_of (research_preference : str) : str :=
  if startswith (u "tav") (lower research_preference) then u "tavily" else u "firecrawl".

Definition research_instruction (research_focus : json) (pref : str) : str :=
  u "Research task (brief): " ++ py_str research_focus ++ nl ++ nl
  ++ u "Runtime preference: " ++ pref ++ u "." ++ nl
  ++ u "Return JSON ONLY as per your role schema. Include method.tools_used listing exact tool names used." ++ nl
  ++ u "Do NOT echo the planner/objective or any tool-call logs.".

(** The minimal record used when the research output gives no true value. *)
Definition research_fallback (research_out_raw : str) : json :=
  JObj [(u "answer", JStr (normalize_short research_out_raw 1000));
        (u "citations", JArr []);
        (u "method", JObj [(u "tools_used", JArr [])])].

(** The first [try] block on the research record: the lower-cased names of
    the tools, empty when anything raises or the entry is not a list. *)
Definition tools_used_of (research_json : json) : list str :=
  match py_get research_json (u "method") (JObj []) with
  | Ok m =>
      match py_get m (u "tools_used") (JArr []) with
      | Ok (JArr mu) => map (fun x => lower (py_str x)) mu
      | Ok _ => []
      | Raise _ => []
      end
  | Raise _ => []
  end.

(** [bool(r.get(a)) or bool(r.get(b)) or ...] over the four evidence fields. *)
Fixpoint any_true_field (research_json : json) (fields : list str) : outcome bool :=
  match fields with
  | [] => Ok false
  | k :: r =>
      match py_get research_json k JNull with
      | Ok v => if truthy v then Ok true else any_true_field research_json r
      | Raise e => Raise e
      end
  end.

Definition evidence_fields : list str :=
  [u "citations"; u "sources"; u "evidence"; u "evidence_table"].

Definition has_evidence (research_json : json) : outcome bool :=
  any_true_field research_json evidence_fields.

Definition tool_warnings (pref : str) (tools_used : list str) : list str :=
  if bool_decide (pref = u "tavily") then
    if existsb (fun t => contains (u "internet_search") t) tools_used
    then [] else [tavily_warning]
  else
    if existsb (fun t => contains (u "firecrawl") t) tools_used
    then [] else [firecrawl_warning].

Definition assemble_payload (research_json : json) : str :=
  u "Using the structured research JSON below, assemble a clear, concise answer to the user's question." ++ nl
  ++ u "Guidelines:" ++ nl
  ++ u "- Write a direct explanatory response (not pros/cons/checklists) unless the question explicitly asks for them." ++ nl
  ++ u "- Keep it clear and focused." ++ nl
  ++ u "- Add bracketed citation IDs like [S1], [S2] right after specific claims, using the 'citations' list if present, or map from 'sources'." ++ nl
  ++ u "- No planner JSON, no tool logs, no meta." ++ nl ++ nl
  ++ u "RESEARCH_JSON:" ++ nl ++ json_dumps (Some 2%nat) research_json.

Definition critic_payload (candidate_out : str) (research_json : json) : str :=
  json_dumps (Some 2%nat)
    (JObj [(u "candidate_answer", JStr candidate_out);
           (u "research_summary", research_json)]).

(** The record used when the critic output gives no true value. *)
Definition critic_fallback (critic_out_raw : str) : json :=
  JObj [(u "verdict", JStr (u "REVISE"));
        (u "fixes", JArr [JStr critic_fix_message]);
        (u "notes", JStr (slice_to 400 critic_out_raw))].

(** The trimmed research summary of the final payload. *)
Definition research_summary (research_json : json) : outcome json :=
  match py_get research_json (u "short_answer") JNull with
  | Raise e => Raise e
  | Ok sa =>
      match (if truthy sa then Ok sa else py_get research_json (u "answer") JNull) with
      | Raise e => Raise e
      | Ok short_answer =>
          match py_get research_json (u "sources") (JArr []) with
          | Raise e => Raise e
          | Ok srcs =>
              match py_slice3 srcs with
              | Raise e => Raise e
              | Ok s3 =>
                  let top :=
                    if truthy s3 then Ok s3
                    else
                      match py_get research_json (u "citations") (JArr []) with
                      | Ok cs => py_slice3 cs
                      | Raise e => Raise e
                      end in
                  match top with
                  | Raise e => Raise e
                  | Ok top_sources =>
                      Ok (JObj [(u "short_answer", short_answer);
                                (u "top_sources", top_sources)])
                  end
              end
          end
      end
  end.

Definition final_payload (candidate_out : str) (critic_json summary : json) : str :=
  u "Produce the final user-facing answer. Apply critic fixes. Include explicit bracketed citations [Sx] for factual claims." ++ nl
  ++ u "Do NOT reprint planner JSON or tool-call logs. Avoid checklists unless the question asks for steps." ++ nl ++ nl
  ++ u "Candidate:" ++ nl ++ candidate_out ++ nl ++ nl
  ++ u "Critic (parsed):" ++ nl ++ json_dumps (Some 2%nat) critic_json ++ nl ++ nl
  ++ u "Research (summary):" ++ nl ++ json_dumps (Some 2%nat) summary.

Definition run_conversation (agent : agent_handle) (user_question : str)
    (quiet : bool) (on_text : option observer) (research_preference : str)
    (should_stop : stop_predicate) : M conversation_result :=
  let console := negb quiet && negb (bool_decide (is_Some on_text)) in
  when console
    (emit (Console (nl ++ u "===== NEW CONVERSATION =====" ++ nl ++ u "[User] "
                      ++ user_question ++ nl))) ;;;
  (* 1) Planner *)
  planner_out <- stream_subagent agent (u "planner-agent") (planner_payload user_question)
                   quiet on_text (Some (u "planner")) should_stop ;;
  let plan := loads_or_extract planner_out in
  research_focus <- lift (research_focus_of plan planner_out user_question) ;;
  (* 2) Research *)
  let pref := preference_of research_preference in
  research_out_raw <- stream_subagent agent (u "research-agent")
                        (research_instruction research_focus pref)
                        quiet on_text (Some (u "research")) should_stop ;;
  let parsed := loads_or_extract research_out_raw in
  let research_json :=
    if truthy parsed then parsed else research_fallback research_out_raw in
  let tools_used := tools_used_of research_json in
  evidence <- lift (has_evidence research_json) ;;
  let warnings :=
    (if evidence then [] else [no_evidence_warning]) ++ tool_warnings pref tools_used in
  (* 3) Candidate assembly *)
  candidate_out <- stream_subagent agent (u "main-agent") (assemble_payload research_json)
                     quiet on_text (Some (u "reasoning")) should_stop ;;
  (* 4) Critic *)
  critic_out_raw <- stream_subagent agent (u "critic-agent")
                      (critic_payload candidate_out research_json)
                      quiet on_text (Some (u "critic")) should_stop ;;
  let critic_parsed := loads_or_extract critic_out_raw in
  let critic_json :=
    if truthy critic_parsed then critic_parsed else critic_fallback critic_out_raw in
  (* 5) Final answer assembly *)
  summary <- lift (research_summary research_json) ;;
  final_out <- stream_subagent agent (u "main-agent")
                 (final_payload candidate_out critic_json summary)
                 quiet on_text (Some (u "final")) should_stop ;;
  when console
    (emit (Console (nl ++ u "===== FINAL ANSWER =====" ++ nl)) ;;;
     emit (Console final_out) ;;;
     emit (Console (nl ++ u "===== END CONVERSATION =====" ++ nl))) ;;;
  ret {| user_question := user_question;
         planner := planner_out;
         plan_parsed := plan;
         research_raw := research_out_raw;
         research_json := research_json;
         candidate := candidate_out;
         critic_raw := critic_out_raw;
         critic_json := critic_json;
         final := final_out;
         warnings := warnings |}.

End Orchestrator.

(** ** A runtime to run examples

    Floats as their literals: zero when the mantissa has no digit other
    than 0 (exact unless the value underflows), printed as written; strings
    printed between single quotes. *)

Fixpoint mantissa (lit : str) : str :=
  match lit with
  | [] => []
  | c :: r => if (c =? ch "e") || (c =? ch "E") then [] else c :: mantissa r
  end.

Definition literal_nonzero (lit : str) : bool :=
  existsb (fun c => ((49 <=? c) && (c <=? 57)) || (c =? ch "N") || (c =? ch "I"))
          (mantissa lit).

#[export] Instance literal_runtime : PyRuntime := {|
  float_bool := literal_nonzero;
  float_repr := fun lit => lit;
  float_json := fun lit => lit;
  str_repr := fun s => u "'" ++ s ++ u "'"
|}.

(** ** Definitions used to state the properties *)

(** A word: a non-empty run of characters that are not whitespace. *)
Definition word (w : str) : Prop :=
  w <> [] /\ Forall (fun c => isspace c = false) w.

(** A code point that [lower] leaves alone wherever it stands: it is its
    own image and not U+0130.  (U+03A3 has the image U+03C3.) *)
Definition lower_fixed (c : N) : bool := (lower_char c =? c) && negb (c =? 304).

(** [s] without its last character when that is a space. *)
Fixpoint drop_trailing_space (s : str) : str :=
  match s with
  | [] => []
  | [c] => if c =? SP then [] else [c]
  | c :: r => c :: drop_trailing_space r
  end.

(** The counter of open brackets that [extract_json_substring] keeps, run
    on [s] from [depth]: the number of characters read when it first comes
    back to zero.  It counts the brackets inside string literals too. *)
Fixpoint first_close (depth : nat) (s : str) : option nat :=
  match s with
  | [] => None
  | c :: r =>
      if is_open c then S <$> first_close (S depth) r
      else if is_close c then
        match depth with
        | O => None
        | S O => Some 1%nat
        | S d => S <$> first_close d r
        end
      else S <$> first_close depth r
  end.

(** The two parsing attempts of a stage, in order: the whole text, then
    the substring that [extract_json_substring] gives. *)
Definition first_successful_parse (raw : str) : option json :=
  match json_loads raw with
  | Some v => Some v
  | None =>
      match extract_json_substring raw with
      | Some js => json_loads js
      | None => None
      end
  end.

(** The statements of [run_conversation] up to the output of the planner. *)
Definition planner_stage `{PyRuntime} (agent : agent_handle) (user_question : str)
    (quiet : bool) (on_text : option observer) (should_stop : stop_predicate) : M str :=
  when (negb quiet && negb (bool_decide (is_Some on_text)))
    (emit (Console (nl ++ u "===== NEW CONVERSATION =====" ++ nl ++ u "[User] "
                      ++ user_question ++ nl))) ;;;
  stream_subagent agent (u "planner-agent") (planner_payload user_question)
    quiet on_text (Some (u "planner")) should_stop.

(** The fragment that an event shows to the console or to the observer. *)
Definition fragment_of (e : event) : option str :=
  match e with
  | Echo _ t => Some t
  | Forward _ t _ => Some t
  | _ => None
  end.

Definition marker_free (t : str) : Prop := contains (u "<|tool_call") t = false.

Definition clean_event (e : event) : Prop :=
  match fragment_of e with
  | Some t => marker_free t
  | None => True
  end.

(** A computation only adds events, all of which satisfy [P], and a result
    satisfies [Q]. *)
Definition holds {A} (m : M A) (P : event -> Prop) (Q : A -> Prop) : Prop :=
  forall w : world,
    exists new : list event,
      snd (m w) = new ++ w
      /\ Forall P new
      /\ match fst (m w) with Ok a => Q a | Raise _ => True end.

(** The cancellation that [stream_subagent] raises. *)
Definition stopped_by_user : exn := InterruptedError (u "Stopped by user").




(** ** A scripted agent, for examples *)

(** Text with double quotes written as apostrophes, for examples. *)
Definition jtext (s : string) : str :=
  map (fun c => if c =? ch "'" then 34 else c) (u s).

Definition say (t : str) : list chunk :=
  [ChunkObj {| content := Some t; reasoning_content := None |}].

(** The agent that answers the five invocations of a conversation with the
    given streams. *)
Definition scripted (plan research draft critic final : list chunk) : agent_handle :=
  fun n _ =>
    match n with
    | 0 => plan
    | 1 => research
    | 2 => draft
    | 3 => critic
    | _ => final
    end%nat.

Definition arc_question : str := u "What is ARC-AGI?".

Definition arc_plan : str :=
  jtext "[{'step_id':'1','description':'Research ARC-AGI definition','assigned_to':'research-agent','expected_artifact':'summary'}]".

Definition arc_research : str :=
  jtext "{'answer':'A benchmark of abstract reasoning','method':{'tools_used':['firecrawl_scrape']}}".

Definition arc_agent : agent_handle :=
  scripted (say arc_plan) (say arc_research)
           (say (u "ARC-AGI is a benchmark [S1]."))
           (say (u "not json"))
           (say (u "ARC-AGI is a benchmark of abstract reasoning [S1].")).


Definition stop_from (k : nat) : stop_predicate := Some (fun n => (k <=? n)%nat).


(** The research stage answers with an empty object. *)
Definition empty_research_agent : agent_handle :=
  scripted (say arc_plan) (say (u "{ }"))
           (say (u "ARC-AGI is a benchmark [S1]."))
           (say (u "not json"))
           (say (u "ARC-AGI is a benchmark of abstract reasoning [S1].")).

(** The planner answers in prose. *)
Definition prose_planner_agent : agent_handle :=
  scripted (say (u "I could not make a plan")) (say arc_research)
           (say (u "ARC-AGI is a benchmark [S1]."))
           (say (u "not json"))
           (say (u "ARC-AGI is a benchmark of abstract reasoning [S1].")).

(** The research stage streams the same text twice, then a tool-call
    record, then its answer. *)
Definition noisy_research_agent : agent_handle :=
  scripted (say arc_plan)
           (say (u "Searching the web") ++ say (u "searching   the WEB")
            ++ say (u "<|tool_call_begin|> functions.search") ++ say arc_research)
           (say (u "ARC-AGI is a benchmark [S1]."))
           (say (u "not json"))
           (say (u "ARC-AGI is a benchmark of abstract reasoning [S1].")).

(** ** Definitions used to state further properties *)

(** [tidy prev x]: the only whitespace of [x] is single spaces, none of
    them first when [prev] says that a space came just before. *)
Fixpoint tidy (prev : bool) (x : str) : bool :=
  match x with
  | [] => true
  | c :: r =>
      if c =? SP then negb prev && tidy true r
      else negb (isspace c) && tidy false r
  end.

(** The body of the inner loop of [stream_subagent] without its effects:
    what it does to the accumulator and to the set of seen normal forms. *)
Definition accept (role_name : str) (st : list str * gset str) (tk : str * kind)
  : list str * gset str :=
  let '(collected, seen_norms) := st in
  if dropped (normalize_short (role_invocation role_name) 300)
             (normalize_short (SUB_PROMPTS role_name) 300) seen_norms (fst tk)
  then st
  else (collected ++ [fst tk], {[ normalize_short (fst tk) 300 ]} ∪ seen_norms).

(** The texts of a stream, in the order in which the loops visit them. *)
Definition stream_texts (chunks : list chunk) : list (str * kind) :=
  concat (map texts_of_chunk chunks).

(** The fragments accepted out of a stream. *)
Definition accepted_fragments (role_name : str) (chunks : list chunk) : list str :=
  fst (fold_left (accept role_name) (stream_texts chunks) ([], ∅)).

(** The events of the loops of a role invocation that is not cancelled. *)
Definition loop_event (role_name : str) (quiet : bool) (on_text : option observer)
    (tag : option str) (should_stop : stop_predicate) (e : event) : Prop :=
  match e with
  | Poll b => b = false /\ is_Some should_stop
  | Invoke _ => False
  | Console _ => False
  | Echo r _ => on_text = None /\ quiet = false /\ r = role_name
  | Forward tg _ _ => is_Some on_text /\ tg = tag_or tag role_name
  end.

(** What a run of a loop that was not cancelled did, from the state [st]
    and the trace [w] to [st'] and [w']: the state moved as [accept] says,
    and the events added are polls and the fragments shown, which are the
    accepted ones in order when anything is shown at all. *)
Definition loop_spec (role_name : str) (quiet : bool) (on_text : option observer)
    (tag : option str) (should_stop : stop_predicate)
    (tks : list (str * kind)) (st : list str * gset str) (w : world)
    (st' : list str * gset str) (w' : world) : Prop :=
  st' = fold_left (accept role_name) tks st
  /\ exists extra new,
       fst st' = fst st ++ extra
       /\ w' = new ++ w
       /\ Forall (loop_event role_name quiet on_text tag should_stop) new
       /\ rev (omap fragment_of new)
          = (if bool_decide (is_Some on_text) || negb quiet then extra else []).

(** The banners of a role invocation: printed when there is no observer and
    the run is not quiet. *)
Definition banner_event (quiet : bool) (on_text : option observer) (e : event) : Prop :=
  match e with
  | Console _ => on_text = None /\ quiet = false
  | _ => False
  end.

(** The events of a role invocation that is not cancelled. *)
Definition stream_event (role_name payload_text : str) (quiet : bool)
    (on_text : option observer) (tag : option str) (should_stop : stop_predicate)
    (e : event) : Prop :=
  match e with
  | Poll b => b = false /\ is_Some should_stop
  | Invoke c => c = user_msg role_name payload_text
  | Console _ => on_text = None /\ quiet = false
  | Echo r _ => on_text = None /\ quiet = false /\ r = role_name
  | Forward tg _ _ => is_Some on_text /\ tg = tag_or tag role_name
  end.

(** The invariant of the loops: every accepted fragment has its normal form
    in the set, and no two have the same one. *)
Definition accept_inv (st : list str * gset str) : Prop :=
  NoDup (map (fun t => normalize_short t 300) (fst st))
  /\ forall t, t ∈ fst st -> normalize_short t 300 ∈ snd st.

(** A fragment that passes the tests of the inner loop that do not depend
    on the fragments seen before. *)
Definition passes (role_name t : str) : Prop :=
  dropped (normalize_short (role_invocation role_name) 300)
          (normalize_short (SUB_PROMPTS role_name) 300) ∅ t = false
  /\ (3 <= length (strip t))%nat.

(** The text that a role invocation returns when the agent is at its
    invocation number [n] and the run is not cancelled. *)
Definition stage_output (agent : agent_handle) (n : nat) (role_name payload_text : str)
  : str :=
  join [] (accepted_fragments role_name (agent n (user_msg role_name payload_text))).

(** The number of invocations in a trace. *)
Definition invocations (w : world) : nat := length (filter is_invoke w).

(** The planner answers with a list of strings. *)
Definition scalar_plan_agent : agent_handle :=
  scripted (say (jtext "['look it up', 'write the answer']")) (say arc_research)
           (say (u "ARC-AGI is a benchmark [S1]."))
           (say (u "not json"))
           (say (u "ARC-AGI is a benchmark of abstract reasoning [S1].")).

(** An observer that always fails. *)
Definition failing_observer : observer := fun _ _ _ => Raise TypeError.

(** The research stage answers in prose. *)
Definition prose_research_agent : agent_handle :=
  scripted (say arc_plan) (say (u "Nothing useful was found"))
           (say (u "ARC-AGI is a benchmark [S1]."))
           (say (u "not json"))
           (say (u "ARC-AGI is a benchmark of abstract reasoning [S1].")).

(** The research stage names its tool with capital letters. *)
Definition capitals_research_agent : agent_handle :=
  scripted (say arc_plan)
           (say (jtext "{'answer':'A benchmark','method':{'tools_used':['Firecrawl.Scrape']}}"))
           (say (u "ARC-AGI is a benchmark [S1]."))
           (say (u "not json"))
           (say (u "ARC-AGI is a benchmark of abstract reasoning [S1].")).


(** The tag of a call of the observer. *)
Definition forward_tag (e : event) : option str :=
  match e with
  | Forward tg _ _ => Some tg
  | _ => None
  end.

(** The tags of the calls of the observer in a trace, oldest first. *)
Definition forwarded_tags (new : list event) : list str := rev (omap forward_tag new).

(** The first tag repeated as the first number says, then the second, and
    so on. *)
Fixpoint blocks (tags : list str) (ks : list nat) : list str :=
  match tags, ks with
  | t :: tags', k :: ks' => repeat t k ++ blocks tags' ks'
  | _, _ => []
  end.

(** A computation only adds events, and calls the observer with the tags
    [tags] in this order, any number of times each. *)
Definition tagged {A} (tags : list str) (m : M A) : Prop :=
  forall w : world,
    exists new ks,
      snd (m w) = new ++ w
      /\ length ks = length tags
      /\ forwarded_tags new = blocks tags ks.

(** A Unicode scalar value: a code point that is not a surrogate. *)
Definition is_scalar (c : N) : bool :=
  (c <? 55296) || ((57343 <? c) && (c <? 1114112)).

(** What [scan_units] reads back from [escape_char c]. *)
Definition units_of_char (c : N) : list unit16 :=
  if (32 <=? c) && (c <=? 126) then [Raw c]
  else if (c =? 8) || (c =? 12) || (c =? 10) || (c =? 13) || (c =? 9) then [Raw c]
  else if 65536 <=? c
  then [Esc (55296 + (c - 65536) / 1024); Esc (56320 + (c - 65536) mod 1024)]
  else [Esc c].

(** A question with accents, a line break and a character outside the
    basic plane. *)
Definition accented_question : str :=
  u "Qu'est-ce que l'IA générale ?" ++ nl ++ u "Merci 🤖".

(** * Properties *)

(** ** Checks of the library model

    Values that CPython 3.11 gives for the same inputs. *)

Example split_ws_unicode_space :
  split_ws (u "a" ++ [28] ++ u "b" ++ [133] ++ u "c d" ++ [160] ++ u "e")
  = [u "a"; u "b"; u "c"; u "d"; u "e"].
Proof. vm_compute. reflexivity. Qed.

Example normalize_short_example :
  normalize_short (u "  Ab   cD  ") 300 = u "ab cd".
Proof. vm_compute. reflexivity. Qed.

Example slice_to_negative : slice_to (-1) (u "abc") = u "ab".
Proof. vm_compute. reflexivity. Qed.

(** Lower case outside Latin-1: a letter of Latin Extended-A, the Kelvin
    sign, the sharp S, the capital I with a dot above, a Deseret letter, and
    the capital sigma: final after a cased letter at the end of a word, also
    before a full stop, and not final alone, before a letter, or after a
    digit. *)
Example lower_outside_latin1 :
  lower [256] = [257] /\ lower [8490] = [107] /\ lower [7838] = [223]
  /\ lower [304] = [105; 775] /\ lower [66560] = [66600]
  /\ lower (u "ΟΔΟΣ") = u "οδος" /\ lower (u "ΣΑΣ ΑΣ.") = u "σας ας."
  /\ lower (u "Σ") = u "σ" /\ lower (u "aΣb") = u "aσb" /\ lower (u "1Σ") = u "1σ".
Proof. vm_compute. repeat split. Qed.

(** [lower] is no map over the code points: it does not distribute over
    concatenation and can make a text longer. *)
Example lower_depends_on_context :
  lower (u "Α" ++ u "Σ") = u "ας" /\ lower (u "Α") ++ lower (u "Σ") = u "ασ"
  /\ length (lower [304]) = 2%nat.
Proof. vm_compute. repeat split. Qed.

Example json_loads_duplicate_keys :
  json_loads (jtext "{'a':1,'a':2,'b':3}")
  = Some (JObj [(u "a", JInt 2); (u "b", JInt 3)]).
Proof. vm_compute. reflexivity. Qed.

Example json_loads_numbers :
  map json_loads [u "-0"; u "01"; u "1."; u "1e5"; u "-12.50E-3"; u "NaN"; u "- 1"]
  = [Some (JInt 0); None; None; Some (JFloat (u "1e5"));
     Some (JFloat (u "-12.50E-3")); Some (JFloat (u "NaN")); None].
Proof. vm_compute. reflexivity. Qed.

Example json_loads_whitespace :
  map json_loads [u " [1 , 2 ] "; [12] ++ u "{}"; [160] ++ u "{}"; u "[1,]"; u "[1]x"]
  = [Some (JArr [JInt 1; JInt 2]); None; None; None; None].
Proof. vm_compute. reflexivity. Qed.

Example json_loads_escapes :
  map json_loads
    [dq ++ bsl ++ u "ud83d" ++ bsl ++ u "ude00" ++ dq;
     dq ++ bsl ++ u "ud83d" ++ bsl ++ u "u0041" ++ dq;
     dq ++ bsl ++ u "ud83d" ++ bsl ++ u "u00zz" ++ dq;
     dq ++ bsl ++ u "n" ++ bsl ++ u "/" ++ dq;
     dq ++ bsl ++ u "x" ++ dq;
     dq ++ [9] ++ dq]
  = [Some (JStr [128512]); Some (JStr [55357; 65]); None;
     Some (JStr [10; 47]); None; None].
Proof. vm_compute. reflexivity. Qed.

Example json_dumps_indent :
  json_dumps (Some 2%nat)
    (JObj [(u "a", JArr [JInt 1; JObj [(u "b", JNull)]]); (u "c", JArr []);
           (u "e", JStr (u "x—" ++ [127; 10; 34; 92; 47; 128512]))])
  = jtext "{
  'a': [
    1,
    {
      'b': null
    }
  ],
  'c': [],
  'e': 'x" ++ bsl ++ u "u2014" ++ bsl ++ u "u007f" ++ bsl ++ u "n" ++ bsl ++ dq
       ++ bsl ++ bsl ++ u "/" ++ bsl ++ u "ud83d" ++ bsl ++ u "ude00" ++ jtext "'
}".
Proof. vm_compute. reflexivity. Qed.

Example json_dumps_flat :
  json_dumps None (JObj [(u "a", JArr [JInt 1; JInt (-2)]); (u "d", JObj [])])
  = jtext "{'a': [1, -2], 'd': {}}".
Proof. vm_compute. reflexivity. Qed.

Example prompt_lengths :
  map (fun role => length (SUB_PROMPTS role))
      [u "planner-agent"; u "research-agent"; u "critic-agent"; u "main-agent";
       u "other"]
  = [417; 1648; 497; 441; 0]%nat.
Proof. vm_compute. reflexivity. Qed.

(** ** json.loads: the recursion budget *)

Ltac break_hyp H :=
  repeat match type of H with
         | context [if ?b then _ else _] => destruct b eqn:?
         | context [match ?x with _ => _ end] => destruct x eqn:?
         end.

Lemma skip_ws_length (s : str) : (length (skip_ws s) <= length s)%nat.
Proof.
  induction s as [|c r IH]; simpl; [lia|].
  destruct (is_json_ws c); simpl; lia.
Qed.

Lemma scan_units_shorter (n : nat) :
  forall (s : str) us t,
    (length s <= n)%nat -> scan_units s = Some (us, t) -> (length t < length s)%nat.
Proof.
  induction n as [|n IH]; intros s us t Hn Hs.
  - destruct s; [discriminate | simpl in Hn; lia].
  - destruct s as [|c r]; [discriminate|]. simpl in Hs. cbn [length] in Hn.
    break_hyp Hs; try discriminate; simplify_eq; cbn [length] in *;
      try lia;
      match goal with
      | H : scan_units ?x = Some _ |- _ => apply IH in H; cbn [length] in *; lia
      end.
Qed.

Lemma scanstring_shorter (s x t : str) :
  scanstring s = Some (x, t) -> (length t < length s)%nat.
Proof.
  unfold scanstring. destruct (scan_units s) as [[us t']|] eqn:Hs; [|discriminate].
  intros [= _ <-]. exact (scan_units_shorter _ _ _ _ (Nat.le_refl _) Hs).
Qed.

Lemma span_digits_length (s d t : str) :
  span_digits s = (d, t) -> (length t <= length s)%nat.
Proof.
  revert d t. induction s as [|c r IH]; intros d t Hs; simpl in Hs.
  - injection Hs as <- <-. simpl. lia.
  - destruct (is_digit c).
    + destruct (span_digits r) as [d' t'] eqn:Hr. injection Hs as <- <-.
      specialize (IH _ _ eq_refl). simpl. lia.
    + injection Hs as <- <-. simpl. lia.
Qed.

Lemma scan_sign_length (s x t : str) :
  scan_sign s = (x, t) -> (length t <= length s)%nat.
Proof.
  unfold scan_sign. intros Hs. break_hyp Hs; simplify_eq; cbn [length]; lia.
Qed.

Lemma scan_int_shorter (s x t : str) :
  scan_int s = Some (x, t) -> (length t < length s)%nat.
Proof.
  unfold scan_int. intros Hs. destruct s as [|c r]; [discriminate|].
  destruct (c =? ch "0"); [simplify_eq; cbn [length]; lia|].
  destruct (is_digit c); [|discriminate].
  destruct (span_digits r) as [d t'] eqn:Hr. simplify_eq.
  apply span_digits_length in Hr. cbn [length]. lia.
Qed.

Lemma scan_frac_length (s x t : str) :
  scan_frac s = (x, t) -> (length t <= length s)%nat.
Proof.
  unfold scan_frac. intros Hs.
  destruct s as [|p [|d r]]; try (simplify_eq; lia).
  destruct ((p =? ch ".") && is_digit d); [|simplify_eq; lia].
  destruct (span_digits (d :: r)) as [fd t'] eqn:Hr. simplify_eq.
  apply span_digits_length in Hr. cbn [length] in *. lia.
Qed.

Lemma scan_exp_length (s x t : str) :
  scan_exp s = (x, t) -> (length t <= length s)%nat.
Proof.
  unfold scan_exp. intros Hs.
  destruct s as [|e r]; [simplify_eq; lia|].
  destruct ((e =? ch "e") || (e =? ch "E")); [|simplify_eq; lia].
  destruct r as [|c r'].
  - simpl in Hs. simplify_eq. cbn [length]. lia.
  - destruct ((c =? ch "+") || (c =? ch "-")).
    + destruct (span_digits r') as [[|d0 ed] t2] eqn:Hr; simplify_eq;
        [lia|]. apply span_digits_length in Hr. cbn [length] in *. lia.
    + destruct (span_digits (c :: r')) as [[|d0 ed] t2] eqn:Hr; simplify_eq;
        [lia|]. apply span_digits_length in Hr. cbn [length] in *. lia.
Qed.

Lemma match_number_shorter (s : str) (v : json) (t : str) :
  match_number s = Some (v, t) -> (length t < length s)%nat.
Proof.
  unfold match_number. intros Hm.
  destruct (scan_sign s) as [sign s1] eqn:H1.
  destruct (scan_int s1) as [[ds r1]|] eqn:H2; [|discriminate].
  destruct (scan_frac r1) as [frac r2] eqn:H3.
  destruct (scan_exp r2) as [exp r3] eqn:H4.
  apply scan_sign_length in H1. apply scan_int_shorter in H2.
  apply scan_frac_length in H3. apply scan_exp_length in H4.
  assert (t = r3) as -> by (destruct frac, exp; congruence).
  lia.
Qed.

Lemma startswith_length (p s : str) :
  startswith p s = true -> (length p <= length s)%nat.
Proof.
  revert s. induction p as [|a p IH]; intros s Hs; [simpl; lia|].
  destruct s as [|b s]; [discriminate|]. simpl in Hs.
  apply andb_true_iff in Hs. destruct Hs as [_ Hs]. apply IH in Hs. simpl. lia.
Qed.

(** Every value read leaves a shorter rest. *)
Lemma scan_shorter (fuel : nat) :
  (forall s v t, scan_once fuel s = POk (v, t) -> (length t < length s)%nat)
  /\ (forall s acc v t, parse_array fuel s acc = POk (v, t) -> (length t < length s)%nat)
  /\ (forall s acc v t, parse_object fuel s acc = POk (v, t) -> (length t < length s)%nat).
Proof.
  induction fuel as [|f (IH1 & IH2 & IH3)].
  { repeat split; intros; discriminate. }
  split; [|split].
  - intros s v t Hs. destruct s as [|c r]; [discriminate|]. cbn [scan_once] in Hs.
    destruct (c =? 34).
    { destruct (scanstring r) as [[x t']|] eqn:Hx; [|discriminate]. simplify_eq.
      apply scanstring_shorter in Hx. cbn [length]. lia. }
    destruct (c =? ch "{").
    { pose proof (skip_ws_length r) as Hw.
      destruct (skip_ws r) as [|c1 r1]; [discriminate|].
      destruct (c1 =? ch "}"); [simplify_eq; cbn [length] in *; lia|].
      apply IH3 in Hs. cbn [length] in *. lia. }
    destruct (c =? ch "[").
    { pose proof (skip_ws_length r) as Hw.
      destruct (skip_ws r) as [|c1 r1]; [discriminate|].
      destruct (c1 =? ch "]"); [simplify_eq; cbn [length] in *; lia|].
      apply IH2 in Hs. cbn [length] in *. lia. }
    repeat match type of Hs with
           | context [if startswith ?p ?x then _ else _] =>
               destruct (startswith p x) eqn:?;
               [ simplify_eq;
                 match goal with
                 | H : startswith _ _ = true |- _ =>
                     apply startswith_length in H; rewrite length_drop;
                     match type of H with
                     | (length ?p <= _)%nat =>
                         let n := eval vm_compute in (length p) in
                         change (length p) with n in H
                     end; cbn [length] in *; lia
                 end | ]
           end.
    destruct (match_number (c :: r)) as [[v' t']|] eqn:Hm; [|discriminate].
    simplify_eq. apply match_number_shorter in Hm. exact Hm.
  - intros s acc v t Hs. cbn [parse_array] in Hs.
    destruct (scan_once f s) as [[v1 r]| |] eqn:H1; try discriminate.
    apply IH1 in H1. pose proof (skip_ws_length r) as Hw.
    destruct (skip_ws r) as [|c r1]; [discriminate|].
    destruct (c =? ch "]"); [simplify_eq; cbn [length] in *; lia|].
    destruct (c =? ch ","); [|discriminate].
    apply IH2 in Hs. pose proof (skip_ws_length r1). cbn [length] in *. lia.
  - intros s acc v t Hs. cbn [parse_object] in Hs.
    destruct s as [|q r]; [discriminate|].
    destruct (q =? 34); [|discriminate].
    destruct (scanstring r) as [[k r1]|] eqn:Hk; [|discriminate].
    apply scanstring_shorter in Hk. pose proof (skip_ws_length r1) as Hw1.
    destruct (skip_ws r1) as [|c r2]; [discriminate|].
    destruct (c =? ch ":"); [|discriminate].
    destruct (scan_once f (skip_ws r2)) as [[v1 r3]| |] eqn:H1; try discriminate.
    apply IH1 in H1. pose proof (skip_ws_length r2) as Hw2.
    pose proof (skip_ws_length r3) as Hw3.
    destruct (skip_ws r3) as [|c' r4]; [discriminate|].
    destruct (c' =? ch "}"); [simplify_eq; cbn [length] in *; lia|].
    destruct (c' =? ch ","); [|discriminate].
    apply IH3 in Hs. pose proof (skip_ws_length r4). cbn [length] in *. lia.
Qed.

(** With twice the length of the text and a little more, the budget is
    never used up. *)
Lemma scan_fuel_enough (fuel : nat) :
  (forall s, (2 * length s + 1 <= fuel)%nat -> scan_once fuel s <> PFuel)
  /\ (forall s acc, (2 * length s + 2 <= fuel)%nat -> parse_array fuel s acc <> PFuel)
  /\ (forall s acc, (2 * length s + 2 <= fuel)%nat -> parse_object fuel s acc <> PFuel).
Proof.
  induction fuel as [|f (IH1 & IH2 & IH3)].
  { repeat split; intros; lia. }
  split; [|split].
  - intros s Hf. destruct s as [|c r]; [discriminate|]. cbn [scan_once].
    cbn [length] in Hf.
    destruct (c =? 34); [destruct (scanstring r) as [[? ?]|]; discriminate|].
    destruct (c =? ch "{").
    { pose proof (skip_ws_length r) as Hw.
      destruct (skip_ws r) as [|c1 r1]; [discriminate|].
      destruct (c1 =? ch "}"); [discriminate|].
      apply IH3. cbn [length] in *. lia. }
    destruct (c =? ch "[").
    { pose proof (skip_ws_length r) as Hw.
      destruct (skip_ws r) as [|c1 r1]; [discriminate|].
      destruct (c1 =? ch "]"); [discriminate|].
      apply IH2. cbn [length] in *. lia. }
    repeat match goal with
           | |- context [if startswith ?p ?x then _ else _] =>
               destruct (startswith p x); [discriminate|]
           end.
    destruct (match_number (c :: r)) as [[? ?]|]; discriminate.
  - intros s acc Hf. cbn [parse_array].
    destruct (scan_once f s) as [[v1 r]| |] eqn:H1; [|discriminate|].
    + apply (proj1 (scan_shorter f)) in H1. pose proof (skip_ws_length r) as Hw.
      destruct (skip_ws r) as [|c r1]; [discriminate|].
      destruct (c =? ch "]"); [discriminate|].
      destruct (c =? ch ","); [|discriminate].
      apply IH2. pose proof (skip_ws_length r1). cbn [length] in *. lia.
    + exfalso. apply (IH1 s); [lia | exact H1].
  - intros s acc Hf. cbn [parse_object].
    destruct s as [|q r]; [discriminate|].
    destruct (q =? 34); [|discriminate].
    destruct (scanstring r) as [[k r1]|] eqn:Hk; [|discriminate].
    apply scanstring_shorter in Hk. pose proof (skip_ws_length r1) as Hw1.
    destruct (skip_ws r1) as [|c r2]; [discriminate|].
    destruct (c =? ch ":"); [|discriminate].
    pose proof (skip_ws_length r2) as Hw2.
    destruct (scan_once f (skip_ws r2)) as [[v1 r3]| |] eqn:H1; [|discriminate|].
    + apply (proj1 (scan_shorter f)) in H1.
      pose proof (skip_ws_length r3) as Hw3.
      destruct (skip_ws r3) as [|c' r4]; [discriminate|].
      destruct (c' =? ch "}"); [discriminate|].
      destruct (c' =? ch ","); [|discriminate].
      apply IH3. pose proof (skip_ws_length r4). cbn [length] in *. lia.
    + exfalso. apply (IH1 (skip_ws r2)); [cbn [length] in *; lia | exact H1].
Qed.

(** [json_loads] fails only on a text that is not JSON. *)
Lemma json_loads_budget (s : str) :
  scan_once (2 * length s + 2) (skip_ws s) <> PFuel.
Proof.
  apply (proj1 (scan_fuel_enough _)). pose proof (skip_ws_length s). lia.
Qed.

(** A larger budget does not change a result. *)
Lemma scan_stable (fuel : nat) :
  (forall s, scan_once fuel s <> PFuel -> scan_once (S fuel) s = scan_once fuel s)
  /\ (forall s acc, parse_array fuel s acc <> PFuel ->
                    parse_array (S fuel) s acc = parse_array fuel s acc)
  /\ (forall s acc, parse_object fuel s acc <> PFuel ->
                    parse_object (S fuel) s acc = parse_object fuel s acc).
Proof.
  induction fuel as [|f (IH1 & IH2 & IH3)].
  { repeat split; intros; simpl in *; congruence. }
  split; [|split].
  - intros s Hs. destruct s as [|c r]; [reflexivity|].
    cbn [scan_once] in Hs. cbn [scan_once].
    destruct (c =? 34); [reflexivity|].
    destruct (c =? ch "{").
    { destruct (skip_ws r) as [|c1 r1]; [reflexivity|].
      destruct (c1 =? ch "}"); [reflexivity|]. apply IH3. exact Hs. }
    destruct (c =? ch "[").
    { destruct (skip_ws r) as [|c1 r1]; [reflexivity|].
      destruct (c1 =? ch "]"); [reflexivity|]. apply IH2. exact Hs. }
    reflexivity.
  - intros s acc Hs. cbn [parse_array] in Hs.
    change (parse_array (S (S f)) s acc)
      with (match scan_once (S f) s with
            | POk (v, r) =>
                match skip_ws r with
                | [] => PErr
                | c :: r1 =>
                    if c =? ch "]" then POk (JArr (acc ++ [v]), r1)
                    else if c =? ch "," then parse_array (S f) (skip_ws r1) (acc ++ [v])
                    else PErr
                end
            | PErr => PErr
            | PFuel => PFuel
            end).
    cbn [parse_array].
    rewrite IH1 by (intros Hf; rewrite Hf in Hs; congruence).
    destruct (scan_once f s) as [[v r]| |]; try reflexivity.
    destruct (skip_ws r) as [|c r1]; [reflexivity|].
    destruct (c =? ch "]"); [reflexivity|].
    destruct (c =? ch ","); [|reflexivity].
    apply IH2. exact Hs.
  - intros s acc Hs. cbn [parse_object] in Hs.
    change (parse_object (S (S f)) s acc)
      with (match s with
            | [] => PErr
            | q :: r =>
                if q =? 34 then
                  match scanstring r with
                  | None => PErr
                  | Some (k, r1) =>
                      match skip_ws r1 with
                      | [] => PErr
                      | c :: r2 =>
                          if c =? ch ":" then
                            match scan_once (S f) (skip_ws r2) with
                            | POk (v, r3) =>
                                match skip_ws r3 with
                                | [] => PErr
                                | c' :: r4 =>
                                    if c' =? ch "}" then POk (JObj (dict_set k v acc), r4)
                                    else if c' =? ch ","
                                    then parse_object (S f) (skip_ws r4) (dict_set k v acc)
                                    else PErr
                                end
                            | PErr => PErr
                            | PFuel => PFuel
                            end
                          else PErr
                      end
                  end
                else PErr
            end).
    cbn [parse_object].
    destruct s as [|q r]; [reflexivity|].
    destruct (q =? 34); [|reflexivity].
    destruct (scanstring r) as [[k r1]|]; [|reflexivity].
    destruct (skip_ws r1) as [|c r2]; [reflexivity|].
    destruct (c =? ch ":"); [|reflexivity].
    rewrite IH1 by (intros Hf; rewrite Hf in Hs; congruence).
    destruct (scan_once f (skip_ws r2)) as [[v r3]| |]; try reflexivity.
    destruct (skip_ws r3) as [|c' r4]; [reflexivity|].
    destruct (c' =? ch "}"); [reflexivity|].
    destruct (c' =? ch ","); [|reflexivity].
    apply IH3. exact Hs.
Qed.

Lemma scan_once_any_budget (s : str) (k : nat) :
  scan_once (2 * length s + 1 + k) s = scan_once (2 * length s + 1) s.
Proof.
  induction k as [|k IH]; [f_equal; lia|].
  replace (2 * length s + 1 + S k)%nat with (S (2 * length s + 1 + k)) by lia.
  rewrite (proj1 (scan_stable _)); [exact IH|].
  apply (proj1 (scan_fuel_enough _)). lia.
Qed.

(** ** normalize_short *)

Lemma isspace_false_iff (c : N) :
  isspace c = false <->
  ~ (9 <= c <= 13) /\ ~ (28 <= c <= 32) /\ c <> 133 /\ c <> 160 /\ c <> 5760
  /\ ~ (8192 <= c <= 8202) /\ c <> 8232 /\ c <> 8233 /\ c <> 8239 /\ c <> 8287
  /\ c <> 12288.
Proof.
  unfold isspace.
  rewrite !orb_false_iff, !andb_false_iff, !N.leb_gt, !N.eqb_neq.
  split; intros Hc; repeat split; lia.
Qed.

Lemma isspace_SP : isspace SP = true.
Proof. reflexivity. Qed.

(** *** Lower case *)

Lemma isspace_true_cases (c : N) :
  isspace c = true ->
  In c [9; 10; 11; 12; 13; 28; 29; 30; 31; 32; 133; 160; 5760; 8192; 8193; 8194;
        8195; 8196; 8197; 8198; 8199; 8200; 8201; 8202; 8232; 8233; 8239; 8287;
        12288].
Proof.
  unfold isspace.
  rewrite !orb_true_iff, !andb_true_iff, !N.leb_le, !N.eqb_eq.
  intros Hc. cbn [In]. lia.
Qed.

(** A whitespace character is its own lower case, is neither cased nor
    case-ignorable, and is not one of the two special cases. *)
Lemma isspace_caseless (c : N) :
  isspace c = true ->
  lower_char c = c /\ c <> 931 /\ c <> 304
  /\ is_case_ignorable c = false /\ is_cased c = false.
Proof.
  intros Hc. apply isspace_true_cases in Hc.
  assert (Hall : forallb (fun c => (lower_char c =? c) && negb (c =? 931)
                                   && negb (c =? 304) && negb (is_case_ignorable c)
                                   && negb (is_cased c))
                   [9; 10; 11; 12; 13; 28; 29; 30; 31; 32; 133; 160; 5760; 8192;
                    8193; 8194; 8195; 8196; 8197; 8198; 8199; 8200; 8201; 8202;
                    8232; 8233; 8239; 8287; 12288] = true)
    by (vm_compute; reflexivity).
  rewrite List.forallb_forall in Hall. specialize (Hall c Hc).
  rewrite !andb_true_iff, !negb_true_iff, N.eqb_eq, !N.eqb_neq in Hall. tauto.
Qed.

Lemma table_image_cases (t : list (N * N)) (c : N) :
  table_image c t = c \/ In (c, table_image c t) t.
Proof.
  induction t as [|[k v] t IH]; [left; reflexivity|].
  cbn [table_image]. destruct (c <? k); [left; reflexivity|].
  destruct (N.eqb_spec c k) as [->|Hk].
  - right. left. reflexivity.
  - destruct IH as [IH|IH]; [left; exact IH | right; right; exact IH].
Qed.

(** Every image in the table is a code point that [lower] leaves alone and
    is no whitespace, and no whitespace has an image. *)
Lemma lower_table_images (c v : N) :
  In (c, v) lower_table ->
  lower_fixed v = true /\ isspace v = false /\ isspace c = false.
Proof.
  intros Hin.
  assert (Hall : forallb (fun p => lower_fixed (snd p) && negb (isspace (snd p))
                                   && negb (isspace (fst p)))
                   lower_table = true)
    by (vm_compute; reflexivity).
  rewrite List.forallb_forall in Hall. specialize (Hall _ Hin). cbn [fst snd] in Hall.
  rewrite !andb_true_iff, !negb_true_iff in Hall. tauto.
Qed.

Lemma lower_fixed_spec (c : N) :
  lower_fixed c = true <-> lower_char c = c /\ c <> 304.
Proof.
  unfold lower_fixed. rewrite andb_true_iff, negb_true_iff, N.eqb_eq, N.eqb_neq.
  reflexivity.
Qed.

Lemma lower_fixed_not_sigma (c : N) : lower_fixed c = true -> c <> 931.
Proof. intros Hc ->. vm_compute in Hc. discriminate. Qed.

Lemma to_lower_full_of_fixed (c : N) : lower_fixed c = true -> to_lower_full c = [c].
Proof.
  intros Hc. apply lower_fixed_spec in Hc. destruct Hc as [Hc H304].
  unfold to_lower_full. apply N.eqb_neq in H304. rewrite H304, Hc. reflexivity.
Qed.

Lemma to_lower_full_fixed (c : N) :
  Forall (fun d => lower_fixed d = true) (to_lower_full c).
Proof.
  unfold to_lower_full. destruct (N.eqb_spec c 304) as [->|H304].
  - repeat constructor.
  - constructor; [|constructor].
    destruct (table_image_cases lower_table c) as [Hc|Hc].
    + apply lower_fixed_spec. unfold lower_char. rewrite !Hc. auto.
    + apply lower_table_images in Hc. apply Hc.
Qed.

Lemma to_lower_full_space (c : N) : isspace c = true -> to_lower_full c = [c].
Proof.
  intros Hc. apply isspace_caseless in Hc. destruct Hc as (Hl & _ & H304 & _).
  unfold to_lower_full. apply N.eqb_neq in H304. rewrite H304, Hl. reflexivity.
Qed.

Lemma to_lower_full_nonspace (c : N) :
  isspace c = false -> Forall (fun d => isspace d = false) (to_lower_full c).
Proof.
  intros Hc. unfold to_lower_full. destruct (N.eqb_spec c 304) as [->|H304].
  - repeat constructor.
  - constructor; [|constructor].
    destruct (table_image_cases lower_table c) as [Hi|Hi].
    + unfold lower_char. rewrite Hi. exact Hc.
    + apply lower_table_images in Hi. apply Hi.
Qed.

(** What one code point becomes, given what is around it. *)
Lemma lower_from_cons (b : bool) (c : N) (r : str) :
  lower_from b (c :: r)
  = (if c =? 931
     then [if b && negb (followed_by_cased r) then 962 else 963]
     else to_lower_full c)
    ++ lower_from (if is_case_ignorable c then b else is_cased c) r.
Proof. reflexivity. Qed.

Lemma lower_from_fixed_cons (b : bool) (c : N) (r : str) :
  lower_fixed c = true ->
  lower_from b (c :: r) = c :: lower_from (if is_case_ignorable c then b else is_cased c) r.
Proof.
  intros Hc. rewrite lower_from_cons.
  pose proof (lower_fixed_not_sigma c Hc) as Hs. apply N.eqb_neq in Hs.
  rewrite Hs, (to_lower_full_of_fixed c Hc). reflexivity.
Qed.

(** [lower] changes nothing in a text of code points that it leaves alone,
    and gives only such code points. *)
Lemma lower_from_fixed (s : str) :
  Forall (fun d => lower_fixed d = true) s -> forall b, lower_from b s = s.
Proof.
  induction 1 as [|c s Hc _ IH]; intros b; [reflexivity|].
  rewrite lower_from_fixed_cons by exact Hc. rewrite IH. reflexivity.
Qed.

Lemma lower_from_gives_fixed (s : str) :
  forall b, Forall (fun d => lower_fixed d = true) (lower_from b s).
Proof.
  induction s as [|c s IH]; intros b; [constructor|].
  rewrite lower_from_cons. apply Forall_app. split; [|apply IH].
  destruct (c =? 931); [|apply to_lower_full_fixed].
  destruct (b && negb (followed_by_cased s)); repeat constructor.
Qed.

Lemma lower_gives_fixed (s : str) : Forall (fun d => lower_fixed d = true) (lower s).
Proof. apply lower_from_gives_fixed. Qed.

Lemma lower_of_fixed (s : str) :
  Forall (fun d => lower_fixed d = true) s -> lower s = s.
Proof. intros Hs. apply lower_from_fixed. exact Hs. Qed.

Lemma lower_idempotent (s : str) : lower (lower s) = lower s.
Proof. apply lower_of_fixed, lower_gives_fixed. Qed.

(** Whitespace separates: what comes after a whitespace character has no
    effect before it, and the other way round. *)
Lemma followed_by_cased_space (a r : str) (c : N) :
  isspace c = true -> followed_by_cased (a ++ c :: r) = followed_by_cased a.
Proof.
  intros Hc. induction a as [|d a IH].
  - apply isspace_caseless in Hc. destruct Hc as (_ & _ & _ & Hi & Hd).
    cbn [app followed_by_cased]. rewrite Hi. exact Hd.
  - cbn [app followed_by_cased]. rewrite IH. reflexivity.
Qed.

Lemma lower_from_space (a r : str) (c : N) :
  isspace c = true ->
  forall b, lower_from b (a ++ c :: r) = lower_from b a ++ c :: lower r.
Proof.
  intros Hc. induction a as [|d a IH]; intros b.
  - cbn [app]. rewrite lower_from_cons.
    pose proof (to_lower_full_space c Hc) as Hf.
    apply isspace_caseless in Hc. destruct Hc as (_ & Hs & _ & Hi & Hd).
    apply N.eqb_neq in Hs. rewrite Hs, Hf, Hi, Hd. reflexivity.
  - cbn [app]. rewrite !lower_from_cons, IH, (followed_by_cased_space a r c Hc).
    rewrite <- app_assoc. reflexivity.
Qed.

Lemma lower_from_space_cons (r : str) (c : N) (b : bool) :
  isspace c = true -> lower_from b (c :: r) = c :: lower r.
Proof. intros Hc. apply (lower_from_space [] r c Hc b). Qed.

Lemma lower_from_nonspace (w : str) :
  Forall (fun c => isspace c = false) w ->
  forall b, Forall (fun c => isspace c = false) (lower_from b w).
Proof.
  induction 1 as [|c w Hc _ IH]; intros b; [constructor|].
  rewrite lower_from_cons. apply Forall_app. split; [|apply IH].
  destruct (c =? 931); [|apply to_lower_full_nonspace; exact Hc].
  destruct (b && negb (followed_by_cased w)); repeat constructor.
Qed.

Lemma lower_from_nil (s : str) (b : bool) : lower_from b s = [] -> s = [].
Proof.
  destruct s as [|c s]; [reflexivity|]. rewrite lower_from_cons. intros Hs.
  apply app_eq_nil in Hs. destruct Hs as [Hs _].
  destruct (c =? 931); [discriminate|].
  unfold to_lower_full in Hs. destruct (c =? 304); discriminate.
Qed.

Lemma lower_word (w : str) : word w -> word (lower w).
Proof.
  intros [Hne Hw]. split.
  - intros Hl. apply lower_from_nil in Hl. contradiction.
  - apply lower_from_nonspace. exact Hw.
Qed.

Lemma lower_join (ws : list str) :
  lower (join [SP] ws) = join [SP] (map lower ws).
Proof.
  induction ws as [|w ws IH]; [reflexivity|].
  destruct ws as [|w' ws']; [reflexivity|].
  change (join [SP] (w :: w' :: ws')) with (w ++ SP :: join [SP] (w' :: ws')).
  unfold lower at 1. rewrite (lower_from_space w _ SP isspace_SP), IH. reflexivity.
Qed.

(** *** Splitting *)

Lemma split_from_app (w v r : str) :
  Forall (fun c => isspace c = false) v ->
  split_from w (v ++ r) = split_from (w ++ v) r.
Proof.
  intros Hv. revert w. induction Hv as [|c v Hc _ IH]; intros w; simpl.
  - rewrite app_nil_r. reflexivity.
  - rewrite Hc, IH, <- app_assoc. reflexivity.
Qed.

Lemma split_from_words (s : str) :
  forall w, Forall (fun c => isspace c = false) w ->
            Forall word (split_from w s).
Proof.
  induction s as [|c s IH]; intros w Hw; simpl.
  - destruct w; constructor; [|constructor]. split; [discriminate | exact Hw].
  - destruct (isspace c) eqn:Hc.
    + destruct w as [|c0 w'].
      * apply IH. constructor.
      * constructor; [split; [discriminate | exact Hw]|]. apply IH. constructor.
    + apply IH. apply Forall_app. split; [exact Hw|]. repeat constructor. exact Hc.
Qed.

Lemma split_ws_words (s : str) : Forall word (split_ws s).
Proof. apply split_from_words. constructor. Qed.

Lemma split_word_then (w r : str) :
  word w -> split_ws (w ++ SP :: r) = w :: split_ws r.
Proof.
  intros [Hne Hw]. unfold split_ws. rewrite split_from_app by exact Hw.
  simpl. destruct w; [congruence | reflexivity].
Qed.

Lemma split_word_end (w : str) : word w -> split_ws w = [w].
Proof.
  intros [Hne Hw]. unfold split_ws.
  rewrite <- (app_nil_r w) at 1. rewrite split_from_app by exact Hw.
  simpl. destruct w; [congruence | reflexivity].
Qed.

(** Splitting a joined list of words gives the words back, also after one
    more space. *)
Lemma split_join (ws : list str) :
  Forall word ws ->
  split_ws (join [SP] ws) = ws /\ split_ws (join [SP] ws ++ [SP]) = ws.
Proof.
  induction 1 as [|w ws Hw _ IH]; [split; reflexivity|].
  destruct ws as [|w' ws'].
  - simpl. split; [apply split_word_end; exact Hw|].
    rewrite split_word_then by exact Hw. reflexivity.
  - change (join [SP] (w :: w' :: ws')) with (w ++ SP :: join [SP] (w' :: ws')).
    destruct IH as [IH1 IH2]. split.
    + rewrite split_word_then by exact Hw. rewrite IH1. reflexivity.
    + rewrite <- app_assoc. change ((SP :: join [SP] (w' :: ws')) ++ [SP])
        with (SP :: (join [SP] (w' :: ws') ++ [SP])).
      rewrite split_word_then by exact Hw. rewrite IH2. reflexivity.
Qed.

(** *** Cutting a joined list of words *)

Lemma join_cons (w : str) (ws : list str) :
  ws <> [] -> join [SP] (w :: ws) = w ++ SP :: join [SP] ws.
Proof. destruct ws; [congruence | reflexivity]. Qed.

Lemma take_word (w : str) (k : nat) : word w -> k <> O -> word (take k w).
Proof.
  intros [Hne Hw] Hk. split.
  - destruct w; [congruence|]. destruct k; [congruence | discriminate].
  - apply Forall_take. exact Hw.
Qed.

(** A prefix of a joined list of words is a joined list of words, or one
    followed by a single space. *)
Lemma take_join_words (ws : list str) :
  Forall word ws ->
  forall k, exists ws',
      Forall word ws'
      /\ (take k (join [SP] ws) = join [SP] ws'
          \/ (ws' <> [] /\ take k (join [SP] ws) = join [SP] ws' ++ [SP])).
Proof.
  induction 1 as [|w ws Hw Hws IH]; intros k.
  { exists []. split; [constructor|]. left. apply take_nil. }
  destruct (Nat.eq_dec k O) as [->|Hk].
  { exists []. split; [constructor|]. left. apply take_0. }
  destruct ws as [|w' ws'].
  { exists [take k w]. split; [constructor; [apply take_word; assumption | constructor]|].
    left. reflexivity. }
  rewrite (join_cons w (w' :: ws')) by discriminate. rewrite take_app.
  destruct (Nat.le_gt_cases k (length w)) as [Hle|Hgt].
  - replace (k - length w)%nat with O by lia. rewrite take_0, app_nil_r.
    exists [take k w]. split; [constructor; [apply take_word; assumption | constructor]|].
    left. reflexivity.
  - rewrite take_ge by lia.
    replace (k - length w)%nat with (S (k - length w - 1)) by lia.
    rewrite firstn_cons.
    destruct (IH (k - length w - 1)%nat) as (vs & Hvs & [Ht|[Hne Ht]]); rewrite Ht.
    + destruct vs as [|v vs].
      * exists [w]. split; [constructor; [exact Hw | constructor]|]. right.
        split; [discriminate | reflexivity].
      * exists (w :: v :: vs). split; [constructor; assumption|]. left.
        rewrite (join_cons w (v :: vs)) by discriminate. reflexivity.
    + exists (w :: vs). split; [constructor; assumption|]. right.
      split; [discriminate|]. rewrite (join_cons w vs) by exact Hne.
      rewrite <- app_assoc. reflexivity.
Qed.

(** *** The trailing space *)

Lemma drop_trailing_space_snoc_space (x : str) : drop_trailing_space (x ++ [SP]) = x.
Proof.
  induction x as [|c x IH]; [reflexivity|].
  destruct x as [|c' x']; [reflexivity|].
  change (drop_trailing_space ((c :: c' :: x') ++ [SP]))
    with (c :: drop_trailing_space ((c' :: x') ++ [SP])).
  rewrite IH. reflexivity.
Qed.

Lemma drop_trailing_space_snoc_other (x : str) (c : N) :
  c <> SP -> drop_trailing_space (x ++ [c]) = x ++ [c].
Proof.
  intros Hc. induction x as [|c0 x IH].
  - simpl. apply N.eqb_neq in Hc. rewrite Hc. reflexivity.
  - destruct x as [|c' x']; [simpl in *; rewrite IH; reflexivity|].
    change (drop_trailing_space ((c0 :: c' :: x') ++ [c]))
      with (c0 :: drop_trailing_space ((c' :: x') ++ [c])).
    rewrite IH. reflexivity.
Qed.

Lemma join_words_last (ws : list str) :
  Forall word ws -> ws <> [] ->
  exists y c, join [SP] ws = y ++ [c] /\ isspace c = false.
Proof.
  induction 1 as [|w ws Hw Hws IH]; intros Hne; [congruence|].
  destruct ws as [|w' ws'].
  - destruct Hw as [Hw1 Hw2]. destruct (exists_last Hw1) as (y & c & ->).
    exists y, c. split; [reflexivity|].
    apply Forall_app in Hw2. destruct Hw2 as [_ Hc].
    inversion Hc; assumption.
  - destruct IH as (y & c & Hy & Hc); [discriminate|].
    exists (w ++ SP :: y), c. split; [|exact Hc].
    rewrite (join_cons w (w' :: ws')) by discriminate.
    rewrite Hy, <- app_assoc. reflexivity.
Qed.

Lemma drop_trailing_space_join (ws : list str) :
  Forall word ws -> drop_trailing_space (join [SP] ws) = join [SP] ws.
Proof.
  intros Hws. destruct ws as [|w ws]; [reflexivity|].
  destruct (join_words_last (w :: ws) Hws) as (y & c & -> & Hc); [discriminate|].
  apply drop_trailing_space_snoc_other. intros ->. discriminate.
Qed.

Lemma drop_trailing_space_id (x : str) :
  last x <> Some SP -> drop_trailing_space x = x.
Proof.
  destruct x as [|c0 x0] eqn:Hx; [reflexivity|]. rewrite <- Hx. intros Hl.
  assert (Hne : x <> []) by (rewrite Hx; discriminate).
  destruct (exists_last Hne) as (y & c & ->).
  rewrite last_snoc in Hl. apply drop_trailing_space_snoc_other. congruence.
Qed.

(** C2, amended: for a limit that is not negative, normalising a second
    time removes the space that the cut may have left at the end, and
    changes nothing else; so [normalize_short] is idempotent whenever its
    result does not end with a space. *)
Theorem normalize_short_twice (s : str) (n : Z) :
  (0 <= n)%Z ->
  normalize_short (normalize_short s n) n = drop_trailing_space (normalize_short s n)
  /\ (last (normalize_short s n) <> Some SP ->
      normalize_short (normalize_short s n) n = normalize_short s n).
Proof.
  intros Hn.
  assert (Hmain : normalize_short (normalize_short s n) n
                  = drop_trailing_space (normalize_short s n)).
  { unfold normalize_short, slice_to.
    apply Z.leb_le in Hn. rewrite Hn.
    set (k := Z.to_nat n).
    set (y := lower (join [SP] (split_ws s))).
    set (ws0 := map lower (split_ws s)).
    assert (Hy : y = join [SP] ws0) by apply lower_join.
    assert (Hws : Forall word ws0).
    { apply Forall_map. eapply Forall_impl; [apply split_ws_words|].
      intros w Hw. apply lower_word. exact Hw. }
    set (x := take k y).
    assert (Hfix : Forall (fun d => lower_fixed d = true) x).
    { unfold x, y. apply Forall_take, lower_gives_fixed. }
    assert (Hlow : lower x = x) by (apply lower_of_fixed; exact Hfix).
    assert (Hlen : (length x <= k)%nat).
    { unfold x. rewrite length_take. lia. }
    destruct (take_join_words ws0 Hws k) as (vs & Hvs & [Hx|[Hne Hx]]);
      rewrite <- Hy in Hx; fold x in Hx.
    - assert (Hsplit : split_ws x = vs) by (rewrite Hx; apply split_join; exact Hvs).
      rewrite Hsplit, <- Hx, Hlow, take_ge by exact Hlen.
      rewrite Hx. symmetry. apply drop_trailing_space_join. exact Hvs.
    - assert (Hsplit : split_ws x = vs) by (rewrite Hx; apply split_join; exact Hvs).
      assert (Hlow0 : lower (join [SP] vs) = join [SP] vs).
      { apply lower_of_fixed. rewrite Hx in Hfix. apply Forall_app in Hfix.
        apply Hfix. }
      rewrite Hsplit, Hlow0, Hx, drop_trailing_space_snoc_space.
      apply take_ge. rewrite Hx, length_app in Hlen. simpl in Hlen. lia. }
  split; [exact Hmain|].
  intros Hlast. rewrite Hmain. apply drop_trailing_space_id. exact Hlast.
Qed.

Lemma normalize_short_twice_witness :
  normalize_short (normalize_short (u "Ab   cD") 3) 3 = u "ab"
  /\ normalize_short (normalize_short (u "Ab   cD") 5) 5 = normalize_short (u "Ab   cD") 5.
Proof.
  split.
  - rewrite (proj1 (normalize_short_twice (u "Ab   cD") 3 ltac:(lia))).
    vm_compute. reflexivity.
  - apply (proj2 (normalize_short_twice (u "Ab   cD") 5 ltac:(lia))).
    vm_compute. discriminate.
Defined.

(** C2 as stated fails: the cut can leave a space at the end, which the
    second pass removes; and a negative limit cuts again. *)
Lemma normalize_short_not_idempotent :
  normalize_short (u "ab cd") 3 = u "ab "
  /\ normalize_short (normalize_short (u "ab cd") 3) 3 = u "ab"
  /\ normalize_short (u "abc") (-1) = u "ab"
  /\ normalize_short (normalize_short (u "abc") (-1)) (-1) = u "a".
Proof. repeat split; vm_compute; reflexivity. Qed.

(** ** extract_json_substring *)

Lemma find_start_open (text : str) (n : nat) :
  find_start text = Some n ->
  exists b r, drop n text = b :: r /\ is_open b = true.
Proof.
  revert n. induction text as [|c r IH]; intros n Hn; [discriminate|].
  simpl in Hn. destruct (is_open c) eqn:Hc.
  - injection Hn as <-. exists c, r. auto.
  - destruct (find_start r) as [m|]; [|discriminate].
    injection Hn as <-. apply (IH m eq_refl).
Qed.

Lemma find_start_none (text : str) :
  Forall (fun c => is_open c = false) text -> find_start text = None.
Proof.
  induction 1 as [|c r Hc _ IH]; [reflexivity|].
  simpl. rewrite Hc, IH. reflexivity.
Qed.

Lemma find_start_app (noise rest : str) (b : N) :
  Forall (fun c => is_open c = false) noise -> is_open b = true ->
  find_start (noise ++ b :: rest) = Some (length noise).
Proof.
  intros Hn Hb. induction Hn as [|c r Hc _ IH]; simpl.
  - rewrite Hb. reflexivity.
  - rewrite Hc, IH. reflexivity.
Qed.

(** Whatever the loop returns is a slice that starts at [start_idx], is not
    empty, and was parsed. *)
Lemma balance_sound (text : str) (start_idx : nat) (rest : str) :
  forall (stack : list N) (i : nat) (c : str),
    (start_idx <= i)%nat ->
    balance text start_idx stack i rest = Some c ->
    exists j, (start_idx <= j)%nat
              /\ c = take (S j - start_idx) (drop start_idx text)
              /\ is_Some (json_loads c).
Proof.
  induction rest as [|ch0 rest IH]; intros stack i c Hi Hb; [discriminate|].
  simpl in Hb.
  destruct (is_open ch0); [apply (IH _ (S i)) in Hb; [exact Hb | lia]|].
  destruct (is_close ch0); [|apply (IH _ (S i)) in Hb; [exact Hb | lia]].
  destruct stack as [|top stack']; [discriminate|].
  destruct stack' as [|top' stack''];
    [|apply (IH _ (S i)) in Hb; [exact Hb | lia]].
  destruct (json_loads (take (S i - start_idx) (drop start_idx text))) eqn:Hl.
  - injection Hb as <-. exists i. rewrite Hl. eauto.
  - apply (IH _ (S i)) in Hb; [exact Hb | lia].
Qed.

(** C10: a result of [extract_json_substring] parses as JSON and begins
    with an opening brace or bracket, so that parsing it again cannot
    fail. *)
Theorem extract_json_substring_parses (text c : str) :
  extract_json_substring text = Some c ->
  is_Some (json_loads c) /\ exists b r, c = b :: r /\ is_open b = true.
Proof.
  unfold extract_json_substring. intros Hx.
  destruct text as [|t0 text']; [discriminate|].
  destruct (find_start (t0 :: text')) as [n|] eqn:Hn; [|discriminate].
  apply balance_sound in Hx; [|lia].
  destruct Hx as (j & Hj & -> & Hl). split; [exact Hl|].
  destruct (find_start_open _ _ Hn) as (b & r & Hd & Hb).
  rewrite Hd. exists b, (take (j - n) r). split; [|exact Hb].
  replace (S j - n)%nat with (S (j - n)) by lia. reflexivity.
Qed.

Lemma take_drop_middle_text (noise T more : str) :
  take (length T) (drop (length noise) (noise ++ T ++ more)) = T.
Proof.
  rewrite drop_app_length. apply take_app_length.
Qed.

(** When the counter first comes back to zero at the end of [r], the loop
    reaches that point and tries the slice that ends there. *)
Lemma balance_complete (text more : str) (start_idx : nat) (r : str) :
  forall (stack : list N) (i : nat),
    stack <> [] ->
    first_close (length stack) r = Some (length r) ->
    is_Some (json_loads (take (i + length r - start_idx) (drop start_idx text))) ->
    balance text start_idx stack i (r ++ more)
    = Some (take (i + length r - start_idx) (drop start_idx text)).
Proof.
  induction r as [|c r IH]; intros stack i Hs Hf Hl; [discriminate|].
  change (length (c :: r)) with (S (length r)) in *.
  simpl in Hf |- *.
  destruct (is_open c).
  - destruct (first_close (S (length stack)) r) as [n|] eqn:Hn; [|discriminate].
    injection Hf as ->.
    replace (i + S (length r))%nat with (S i + length r)%nat in * by lia.
    apply IH; [discriminate | exact Hn | exact Hl].
  - destruct (is_close c).
    + destruct stack as [|top stack']; [congruence|].
      destruct stack' as [|top' stack''].
      * simpl in Hf. injection Hf as Hlen.
        destruct r; [|discriminate]. simpl in Hl |- *.
        replace (i + 1)%nat with (S i) in * by lia.
        destruct Hl as [v Hv]. rewrite Hv. reflexivity.
      * change (length (top :: top' :: stack'')) with (S (length (top' :: stack''))) in Hf.
        cbv iota beta in Hf.
        destruct (first_close (length (top' :: stack'')) r) as [n|] eqn:Hn;
          [|discriminate].
        injection Hf as ->.
        replace (i + S (length r))%nat with (S i + length r)%nat in * by lia.
        apply IH; [discriminate | exact Hn | exact Hl].
    + destruct (first_close (length stack) r) as [n|] eqn:Hn; [|discriminate].
      injection Hf as ->.
      replace (i + S (length r))%nat with (S i + length r)%nat in * by lia.
      apply IH; [exact Hs | exact Hn | exact Hl].
Qed.

(** C7, amended: when the well-formed JSON text [T] begins at the first
    opening bracket of the input and the bracket counter, which also counts
    the brackets inside string literals, first comes back to zero at the
    last character of [T], then [extract_json_substring] returns [T] itself
    (which parses to the value of [T]); and an input with no opening brace
    or bracket gives nothing. *)
Theorem extract_json_substring_recovers :
  (forall (noise T more : str) (v : json),
      Forall (fun c => is_open c = false) noise ->
      (exists b r, T = b :: r /\ is_open b = true) ->
      json_loads T = Some v ->
      first_close 0 T = Some (length T) ->
      extract_json_substring (noise ++ T ++ more) = Some T)
  /\ (forall text : str,
         Forall (fun c => is_open c = false) text ->
         extract_json_substring text = None).
Proof.
  split.
  - intros noise T more v Hn (b & r & -> & Hb) Hv Hf.
    unfold extract_json_substring.
    destruct (noise ++ (b :: r) ++ more) as [|x xs] eqn:Htext.
    { destruct noise; discriminate. }
    rewrite <- Htext. change ((b :: r) ++ more) with (b :: (r ++ more)).
    rewrite (find_start_app noise (r ++ more) b Hn Hb).
    rewrite drop_app_length. simpl. rewrite Hb.
    simpl in Hf. rewrite Hb in Hf.
    destruct (first_close 1 r) as [n|] eqn:Hn1; [|discriminate].
    injection Hf as ->.
    pose proof (take_drop_middle_text noise (b :: r) more) as Hmid.
    change ((b :: r) ++ more) with (b :: (r ++ more)) in Hmid.
    rewrite (balance_complete (noise ++ b :: r ++ more) more (length noise) r [b]
               (S (length noise))).
    + f_equal.
      replace (S (length noise) + length r - length noise)%nat
        with (length (b :: r)) by (simpl; lia).
      exact Hmid.
    + discriminate.
    + exact Hn1.
    + replace (S (length noise) + length r - length noise)%nat
        with (length (b :: r)) by (simpl; lia).
      rewrite Hmid, Hv. eauto.
  - intros text Ht. unfold extract_json_substring.
    destruct text; [reflexivity|]. rewrite (find_start_none _ Ht). reflexivity.
Qed.

Lemma extract_json_substring_recovers_witness :
  extract_json_substring (u "noise" ++ jtext "{'a':[1,2]}" ++ u "more noise")
  = Some (jtext "{'a':[1,2]}")
  /\ extract_json_substring (u "no brackets") = None.
Proof.
  split.
  - apply (proj1 extract_json_substring_recovers)
      with (v := JObj [(u "a", JArr [JInt 1; JInt 2])]).
    + repeat constructor.
    + eexists _, _. split; reflexivity.
    + vm_compute. reflexivity.
    + vm_compute. reflexivity.
  - apply (proj2 extract_json_substring_recovers). repeat constructor.
Defined.

(** C7 as stated fails: a brace inside a string literal of [T] makes the
    counter come back to zero too early, and nothing is returned. *)
Lemma extract_json_substring_quoted_brace :
  json_loads (jtext "{'a':'}'}") = Some (JObj [(u "a", JStr (u "}"))])
  /\ extract_json_substring (u "noise" ++ jtext "{'a':'}'}" ++ u "more noise") = None.
Proof. split; vm_compute; reflexivity. Qed.

Lemma extract_json_substring_parses_witness :
  is_Some (json_loads (u "[1, {}]"))
  /\ exists b r, u "[1, {}]" = b :: r /\ is_open b = true.
Proof.
  apply (extract_json_substring_parses (u "noise [1, {}] more [2]")).
  vm_compute. reflexivity.
Defined.

(** ** Effects: what a computation adds to the trace *)

Section Holds.
Context {A B : Type} (P : event -> Prop).

Lemma holds_ret (a : A) (Q : A -> Prop) : Q a -> holds (ret a) P Q.
Proof. intros Ha w. exists []. simpl. auto. Qed.

Lemma holds_lift (o : outcome A) : holds (lift o) P (fun _ => True).
Proof. intros w. exists []. simpl. destruct o; auto. Qed.

Lemma holds_bind (m : M A) (f : A -> M B) (Q : A -> Prop) (R : B -> Prop) :
  holds m P Q -> (forall a, Q a -> holds (f a) P R) -> holds (bind m f) P R.
Proof.
  intros Hm Hf w. unfold bind.
  destruct (Hm w) as (new1 & Hw1 & Hp1 & Hq1).
  destruct (m w) as [[a|e] w1]; simpl in *; subst w1.
  - destruct (Hf a Hq1 (new1 ++ w)) as (new2 & Hw2 & Hp2 & Hq2).
    exists (new2 ++ new1). rewrite Hw2, app_assoc.
    split; [reflexivity|]. split; [|exact Hq2].
    apply Forall_app. auto.
  - exists new1. auto.
Qed.

Lemma holds_weaken (m : M A) (Q Q' : A -> Prop) :
  holds m P Q -> (forall a, Q a -> Q' a) -> holds m P Q'.
Proof.
  intros Hm HQ w. destruct (Hm w) as (new & Hw & Hp & Hq).
  exists new. split; [exact Hw|]. split; [exact Hp|].
  destruct (fst (m w)); auto.
Qed.

End Holds.

Lemma holds_emit (P : event -> Prop) (e : event) :
  P e -> holds (emit e) P (fun _ => True).
Proof. intros He w. exists [e]. simpl. auto. Qed.

Lemma holds_when (P : event -> Prop) (b : bool) (m : M unit) :
  holds m P (fun _ => True) -> holds (when b m) P (fun _ => True).
Proof. intros Hm. destruct b; simpl; [exact Hm|]. apply holds_ret. exact I. Qed.

Lemma holds_poll_stop (P : event -> Prop) (should_stop : stop_predicate) :
  (forall b, P (Poll b)) -> holds (poll_stop should_stop) P (fun _ => True).
Proof.
  intros Hp w. destruct should_stop as [f|]; simpl.
  - destruct (f (length (filter is_poll w))); simpl.
    + exists [Poll true]. auto.
    + exists [Poll false]. auto.
  - exists []. auto.
Qed.

Lemma holds_astream (P : event -> Prop) (agent : agent_handle) (content : str) :
  P (Invoke content) -> holds (astream agent content) P (fun _ => True).
Proof. intros Hp w. exists [Invoke content]. simpl. auto. Qed.

Lemma holds_notify (P : event -> Prop) (f : observer) (tag t : str) (k : kind) :
  P (Forward tag t k) -> holds (notify f tag t k) P (fun _ => True).
Proof.
  intros Hp. unfold notify.
  apply holds_bind with (Q := fun _ => True); [apply holds_emit; exact Hp|].
  intros _ _. destruct (f tag t k); apply holds_ret; exact I.
Qed.

Lemma holds_foldM {A S} (P : event -> Prop) (I : S -> Prop) (f : S -> A -> M S)
    (l : list A) :
  (forall s a, I s -> holds (f s a) P I) ->
  forall s, I s -> holds (foldM f l s) P I.
Proof.
  intros Hf. induction l as [|a l IH]; intros s Hs; simpl.
  - apply holds_ret. exact Hs.
  - apply holds_bind with (Q := I); [apply Hf; exact Hs|].
    intros s' Hs'. apply IH. exact Hs'.
Qed.

(** ** stream_subagent: the filter *)

Lemma dropped_false_marker_free (nri nrp : str) (seen : gset str) (t : str) :
  dropped nri nrp seen t = false -> marker_free t.
Proof.
  unfold dropped, marker_free.
  destruct (existsb (fun marker => contains marker t) tool_markers) eqn:Hm;
    [discriminate|].
  intros _. unfold tool_markers in Hm. cbn [existsb] in Hm.
  apply orb_false_elim in Hm. tauto.
Qed.

Section StreamFilter.
Variables (role_name : str) (quiet : bool) (on_text : option observer)
          (tag : option str) (should_stop : stop_predicate).

Lemma handle_text_clean (st : list str * gset str) (tk : str * kind) :
  Forall marker_free (fst st) ->
  holds (handle_text role_name quiet on_text tag should_stop st tk)
        clean_event (fun st' => Forall marker_free (fst st')).
Proof.
  intros Hst. unfold handle_text. destruct st as [collected seen], tk as [t k].
  apply holds_bind with (Q := fun _ => True).
  { apply holds_poll_stop. intros b. exact I. }
  intros _ _.
  destruct (dropped _ _ seen t) eqn:Hd.
  - apply holds_ret. exact Hst.
  - apply dropped_false_marker_free in Hd.
    apply holds_bind with (Q := fun _ => True).
    + destruct on_text as [f|].
      * apply holds_notify. exact Hd.
      * apply holds_when, holds_emit. exact Hd.
    + intros _ _. apply holds_ret. simpl in *.
      apply Forall_app. auto.
Qed.

Lemma handle_chunk_clean (st : list str * gset str) (c : chunk) :
  Forall marker_free (fst st) ->
  holds (handle_chunk role_name quiet on_text tag should_stop st c)
        clean_event (fun st' => Forall marker_free (fst st')).
Proof.
  intros Hst. unfold handle_chunk.
  apply holds_bind with (Q := fun _ => True).
  { apply holds_poll_stop. intros b. exact I. }
  intros _ _.
  apply holds_foldM with (I := fun st' => Forall marker_free (fst st'));
    [|exact Hst].
  intros s a Hs. apply handle_text_clean. exact Hs.
Qed.

End StreamFilter.

(** C8: during one role invocation, no fragment that contains the marker
    of a tool call is forwarded to the observer, printed, or appended to the
    accumulator: in every run of the collector, and so of [stream_subagent],
    the events that show a fragment and the accepted fragments are free of
    the marker. *)
Theorem stream_discards_tool_call_fragments
    (role_name : str) (quiet : bool) (on_text : option observer) (tag : option str)
    (should_stop : stop_predicate) (agent : agent_handle) (payload_text : str) :
  holds (stream_collect role_name quiet on_text tag should_stop agent payload_text)
        clean_event (Forall marker_free)
  /\ holds (stream_subagent agent role_name payload_text quiet on_text tag should_stop)
           clean_event (fun _ => True).
Proof.
  assert (Hcollect :
            holds (stream_collect role_name quiet on_text tag should_stop agent
                     payload_text)
                  clean_event (Forall marker_free)).
  { unfold stream_collect.
    apply holds_bind with (Q := fun _ => True).
    { apply holds_when, holds_emit. exact I. }
    intros _ _.
    apply holds_bind with (Q := fun _ => True).
    { apply holds_astream. exact I. }
    intros chunks _.
    apply holds_bind with (Q := fun st => Forall marker_free (fst st)).
    { apply holds_foldM with (I := fun st => Forall marker_free (fst st)).
      - intros s c Hs. apply handle_chunk_clean. exact Hs.
      - constructor. }
    intros st Hst.
    apply holds_bind with (Q := fun _ => True).
    { apply holds_when, holds_emit. exact I. }
    intros _ _. apply holds_ret. exact Hst. }
  split; [exact Hcollect|].
  unfold stream_subagent.
  apply holds_bind with (Q := Forall marker_free); [exact Hcollect|].
  intros collected _. apply holds_ret. exact I.
Qed.

(** ** Cancellation *)















Section Benign.
Context `{PyRuntime}.





End Benign.




(** ** The result of a completed conversation *)

Lemma bind_Ok {A B} (m : M A) (f : A -> M B) (w w' : world) (b : B) :
  bind m f w = (Ok b, w') ->
  exists a w1, m w = (Ok a, w1) /\ f a w1 = (Ok b, w').
Proof.
  unfold bind. destruct (m w) as [[a|e] w1]; intros Hb; [|discriminate].
  exists a, w1. auto.
Qed.

Lemma lift_Ok {A} (o : outcome A) (w w' : world) (a : A) :
  lift o w = (Ok a, w') -> o = Ok a.
Proof. unfold lift. congruence. Qed.

Ltac bind_inv H x Hx :=
  let w1 := fresh "w" in
  apply bind_Ok in H; destruct H as (x & w1 & Hx & H); cbv beta in H.

Section Result.
Context `{PyRuntime}.
Variables (agent : agent_handle) (question : str) (quiet : bool)
          (on_text : option observer) (research_preference : str)
          (should_stop : stop_predicate).

(** How the fields of a returned record are computed from the raw outputs
    of the stages. *)
Lemma run_conversation_result (w w' : world) (r : conversation_result) :
  run_conversation agent question quiet on_text research_preference should_stop w
  = (Ok r, w') ->
  user_question r = question
  /\ plan_parsed r = loads_or_extract (planner r)
  /\ research_json r
     = (if truthy (loads_or_extract (research_raw r))
        then loads_or_extract (research_raw r)
        else research_fallback (research_raw r))
  /\ critic_json r
     = (if truthy (loads_or_extract (critic_raw r))
        then loads_or_extract (critic_raw r)
        else critic_fallback (critic_raw r))
  /\ exists evidence : bool,
       has_evidence (research_json r) = Ok evidence
       /\ warnings r
          = (if evidence then [] else [no_evidence_warning])
            ++ tool_warnings (preference_of research_preference)
                 (tools_used_of (research_json r)).
Proof.
  unfold run_conversation. cbv zeta. intros Hrun.
  bind_inv Hrun banner Hbanner.
  bind_inv Hrun planner_out Hplanner.
  bind_inv Hrun research_focus Hfocus.
  bind_inv Hrun research_out_raw Hresearch.
  bind_inv Hrun evidence Hevidence.
  bind_inv Hrun candidate_out Hcandidate.
  bind_inv Hrun critic_out_raw Hcritic.
  bind_inv Hrun summary Hsummary.
  bind_inv Hrun final_out Hfinal.
  bind_inv Hrun footer Hfooter.
  unfold ret in Hrun. injection Hrun as <- _. simpl.
  repeat split.
  exists evidence. split; [|reflexivity].
  apply lift_Ok in Hevidence. exact Hevidence.
Qed.

End Result.

Lemma json_loads_empty : json_loads [] = None.
Proof. reflexivity. Qed.

(** The chain of handlers computes the first successful attempt, [None]
    standing for no success. *)
Lemma loads_or_extract_attempts (raw : str) :
  loads_or_extract raw = default JNull (first_successful_parse raw).
Proof.
  unfold loads_or_extract, first_successful_parse.
  destruct (json_loads raw); [reflexivity|].
  destruct (extract_json_substring raw) as [js|]; [|reflexivity].
  destruct js as [|c js]; [rewrite json_loads_empty; reflexivity|].
  simpl. destruct (json_loads (c :: js)); reflexivity.
Qed.

(** ** Parsing fallbacks *)

Section Fallbacks.
Context `{PyRuntime}.
Variables (agent : agent_handle) (question : str) (quiet : bool)
          (on_text : option observer) (research_preference : str)
          (should_stop : stop_predicate).

(** C1, amended: in every returned record, the research and the critic
    artifact are the value of the first successful parsing attempt (the
    whole text, then the extracted substring) when that value is true in
    the sense of Python; the fallback of the stage is used when both
    attempts fail and also when the parsed value is false (null, false, 0,
    an empty string, list or object). *)
Theorem fallback_unless_true_parse (w w' : world) (r : conversation_result) :
  run_conversation agent question quiet on_text research_preference should_stop w
  = (Ok r, w') ->
  research_json r
  = match first_successful_parse (research_raw r) with
    | Some v => if truthy v then v else research_fallback (research_raw r)
    | None => research_fallback (research_raw r)
    end
  /\ critic_json r
     = match first_successful_parse (critic_raw r) with
       | Some v => if truthy v then v else critic_fallback (critic_raw r)
       | None => critic_fallback (critic_raw r)
       end.
Proof.
  intros Hrun. apply run_conversation_result in Hrun.
  destruct Hrun as (_ & _ & Hr & Hc & _).
  rewrite Hr, Hc, !loads_or_extract_attempts.
  destruct (first_successful_parse (research_raw r));
    destruct (first_successful_parse (critic_raw r)); auto.
Qed.

Lemma truthy_not_null (v : json) : truthy v = true -> v <> JNull.
Proof. intros Hv ->. discriminate. Qed.

(** C3, amended: in every returned record, the research and the critic
    artifact are never null: each is a true parsed value or the explicit
    fallback of its stage.  The parsed plan has no fallback: it is the value
    of the first successful attempt, and null when both attempts fail. *)
Theorem artifacts_parsed_or_fallback (w w' : world) (r : conversation_result) :
  run_conversation agent question quiet on_text research_preference should_stop w
  = (Ok r, w') ->
  (research_json r <> JNull
   /\ (first_successful_parse (research_raw r) = Some (research_json r)
       \/ research_json r = research_fallback (research_raw r)))
  /\ (critic_json r <> JNull
      /\ (first_successful_parse (critic_raw r) = Some (critic_json r)
          \/ critic_json r = critic_fallback (critic_raw r)))
  /\ plan_parsed r = default JNull (first_successful_parse (planner r)).
Proof.
  intros Hrun. apply run_conversation_result in Hrun.
  destruct Hrun as (_ & Hp & Hr & Hc & _).
  rewrite Hp, Hr, Hc, !loads_or_extract_attempts.
  split; [|split; [|reflexivity]].
  - destruct (first_successful_parse (research_raw r)) as [v|]; simpl.
    + destruct (truthy v) eqn:Hv; [split; [apply truthy_not_null|]; auto|].
      split; [discriminate | auto].
    + split; [discriminate | auto].
  - destruct (first_successful_parse (critic_raw r)) as [v|]; simpl.
    + destruct (truthy v) eqn:Hv; [split; [apply truthy_not_null|]; auto|].
      split; [discriminate | auto].
    + split; [discriminate | auto].
Qed.

(** C5: when the raw output of the critic is not JSON and holds no
    balanced JSON substring, the critic record has the verdict REVISE, one
    generic fix message, and for notes the first 400 characters of the raw
    output. *)
Theorem critic_unparsable_record (w w' : world) (r : conversation_result) :
  run_conversation agent question quiet on_text research_preference should_stop w
  = (Ok r, w') ->
  json_loads (critic_raw r) = None ->
  extract_json_substring (critic_raw r) = None ->
  critic_json r
  = JObj [(u "verdict", JStr (u "REVISE"));
          (u "fixes", JArr [JStr critic_fix_message]);
          (u "notes", JStr (slice_to 400 (critic_raw r)))].
Proof.
  intros Hrun Hl Hx. apply run_conversation_result in Hrun.
  destruct Hrun as (_ & _ & _ & Hc & _).
  rewrite Hc. unfold loads_or_extract. rewrite Hl, Hx. reflexivity.
Qed.

Lemma any_true_field_false (kv : list (str * json)) (fields : list str) :
  Forall (fun k => truthy (default JNull (dict_get k kv)) = false) fields ->
  any_true_field (JObj kv) fields = Ok false.
Proof.
  induction 1 as [|k fields Hk _ IH]; [reflexivity|].
  simpl. rewrite Hk. exact IH.
Qed.

(** C6: with the preference tavily and a research record whose
    method.tools_used is the single name firecrawl_scrape, the warnings
    contain the message that the Tavily internet_search tool was not used;
    and when the record has no true citations, sources, evidence or
    evidence_table either, the warnings are the evidence warning followed by
    that message. *)
Theorem tavily_warning_is_cumulative (w w' : world) (r : conversation_result)
    (kv m : list (str * json)) :
  run_conversation agent question quiet on_text research_preference should_stop w
  = (Ok r, w') ->
  research_preference = u "tavily" ->
  research_json r = JObj kv ->
  dict_get (u "method") kv = Some (JObj m) ->
  dict_get (u "tools_used") m = Some (JArr [JStr (u "firecrawl_scrape")]) ->
  In tavily_warning (warnings r)
  /\ (Forall (fun k => truthy (default JNull (dict_get k kv)) = false) evidence_fields ->
      warnings r = [no_evidence_warning; tavily_warning]).
Proof.
  intros Hrun -> Hkv Hm Ht. apply run_conversation_result in Hrun.
  destruct Hrun as (_ & _ & _ & _ & evidence & He & Hw).
  rewrite Hkv in He, Hw.
  assert (Htools : tool_warnings (preference_of (u "tavily")) (tools_used_of (JObj kv))
                   = [tavily_warning]).
  { unfold tools_used_of. simpl. rewrite Hm. simpl. rewrite Ht. reflexivity. }
  rewrite Htools in Hw. split.
  - rewrite Hw. apply in_or_app. right. left. reflexivity.
  - intros Hnone. unfold has_evidence in He.
    rewrite (any_true_field_false kv _ Hnone) in He.
    injection He as <-. exact Hw.
Qed.

End Fallbacks.

Lemma fallback_unless_true_parse_witness :
  match fst (run_conversation arc_agent arc_question true None (u "tavily") None []) with
  | Ok r =>
      research_json r
      = match first_successful_parse (research_raw r) with
        | Some v => if truthy v then v else research_fallback (research_raw r)
        | None => research_fallback (research_raw r)
        end
      /\ critic_json r
         = match first_successful_parse (critic_raw r) with
           | Some v => if truthy v then v else critic_fallback (critic_raw r)
           | None => critic_fallback (critic_raw r)
           end
  | Raise _ => False
  end.
Proof.
  destruct (run_conversation arc_agent arc_question true None (u "tavily") None [])
    as [[r|e] w'] eqn:Hrun; simpl.
  - exact (fallback_unless_true_parse _ _ _ _ _ _ _ _ _ Hrun).
  - vm_compute in Hrun. discriminate.
Defined.

(** C1 as stated fails: the research output is the empty object, which the
    first attempt parses, and the record holds the fallback instead. *)
Lemma empty_object_replaced_by_fallback :
  match fst (run_conversation empty_research_agent arc_question true None
               (u "firecrawl") None []) with
  | Ok r =>
      research_raw r = u "{ }"
      /\ json_loads (research_raw r) = Some (JObj [])
      /\ research_json r = research_fallback (u "{ }")
      /\ research_json r <> JObj []
  | Raise _ => False
  end.
Proof. vm_compute. repeat split. discriminate. Qed.

Lemma artifacts_parsed_or_fallback_witness :
  match fst (run_conversation arc_agent arc_question true None (u "tavily") None []) with
  | Ok r =>
      (research_json r <> JNull
       /\ (first_successful_parse (research_raw r) = Some (research_json r)
           \/ research_json r = research_fallback (research_raw r)))
      /\ (critic_json r <> JNull
          /\ (first_successful_parse (critic_raw r) = Some (critic_json r)
              \/ critic_json r = critic_fallback (critic_raw r)))
      /\ plan_parsed r = default JNull (first_successful_parse (planner r))
  | Raise _ => False
  end.
Proof.
  destruct (run_conversation arc_agent arc_question true None (u "tavily") None [])
    as [[r|e] w'] eqn:Hrun; simpl.
  - exact (artifacts_parsed_or_fallback _ _ _ _ _ _ _ _ _ Hrun).
  - vm_compute in Hrun. discriminate.
Defined.

(** C3 as stated fails: the planner answers in prose, both attempts fail,
    and the parsed plan of the returned record is null. *)
Lemma prose_plan_is_null :
  match fst (run_conversation prose_planner_agent arc_question true None
               (u "firecrawl") None []) with
  | Ok r => planner r = u "I could not make a plan" /\ plan_parsed r = JNull
  | Raise _ => False
  end.
Proof. vm_compute. split; reflexivity. Qed.

Lemma critic_unparsable_record_witness :
  match fst (run_conversation arc_agent arc_question true None (u "tavily") None []) with
  | Ok r =>
      critic_raw r = u "not json"
      /\ critic_json r
         = JObj [(u "verdict", JStr (u "REVISE"));
                 (u "fixes", JArr [JStr critic_fix_message]);
                 (u "notes", JStr (slice_to 400 (critic_raw r)))]
  | Raise _ => False
  end.
Proof.
  destruct (run_conversation arc_agent arc_question true None (u "tavily") None [])
    as [[r|e] w'] eqn:Hrun; simpl.
  - assert (Hraw : critic_raw r = u "not json").
    { pose proof Hrun as Hc. vm_compute in Hc. injection Hc as <- _. reflexivity. }
    split; [exact Hraw|].
    apply (critic_unparsable_record _ _ _ _ _ _ _ _ _ Hrun);
      rewrite Hraw; vm_compute; reflexivity.
  - vm_compute in Hrun. discriminate.
Defined.

Lemma tavily_warning_is_cumulative_witness :
  match fst (run_conversation arc_agent arc_question true None (u "tavily") None []) with
  | Ok r =>
      In tavily_warning (warnings r)
      /\ warnings r = [no_evidence_warning; tavily_warning]
  | Raise _ => False
  end.
Proof.
  destruct (run_conversation arc_agent arc_question true None (u "tavily") None [])
    as [[r|e] w'] eqn:Hrun; simpl.
  - assert (Hr : research_json r
                 = JObj [(u "answer", JStr (u "A benchmark of abstract reasoning"));
                         (u "method",
                           JObj [(u "tools_used", JArr [JStr (u "firecrawl_scrape")])])]).
    { pose proof Hrun as Hc. vm_compute in Hc. injection Hc as <- _. reflexivity. }
    destruct (tavily_warning_is_cumulative _ _ _ _ _ _ _ _ _ _ _ Hrun eq_refl Hr
                eq_refl eq_refl) as [Hin Hall].
    split; [exact Hin|]. apply Hall. repeat constructor.
  - vm_compute in Hrun. discriminate.
Defined.

(** ** The research payload *)








(** ** Examples of runs *)

(** Fragments with the same normal form are accepted once, and a tool-call
    record is dropped. *)
Example research_stream_is_filtered :
  fst (stream_collect (u "research-agent") true None (Some (u "research")) None
         noisy_research_agent (u "payload") [Invoke (u "planner")])
  = Ok [u "Searching the web"; arc_research].
Proof. vm_compute. reflexivity. Qed.

(** The stop predicate is only seen when it is polled: when it turns true
    after the last fragment of the research stage, the next stage is still
    invoked, and its first chunk raises the cancellation. *)
Example stop_between_stages :
  let run := run_conversation arc_agent arc_question true None (u "firecrawl")
               (stop_from 4) [] in
  fst run = Raise stopped_by_user
  /\ length (filter is_invoke (snd run)) = 3%nat
  /\ head (snd run) = Some (Poll true).
Proof. vm_compute. repeat split. Qed.

(** * Further properties *)

(** ** normalize_short: the shape of a normal form *)

Lemma tidy_nonspace (w r : str) (b : bool) :
  Forall (fun c => isspace c = false) w -> w <> [] ->
  tidy b (w ++ r) = tidy false r.
Proof.
  intros Hw. revert b. induction Hw as [|c w Hc Hw IH]; intros b Hne; [congruence|].
  simpl. assert (Hsp : (c =? SP) = false).
  { apply N.eqb_neq. intros ->. discriminate. }
  rewrite Hsp, Hc. simpl.
  destruct w as [|c' w']; [reflexivity|]. apply IH. discriminate.
Qed.

Lemma tidy_join (ws : list str) : Forall word ws -> tidy true (join [SP] ws) = true.
Proof.
  induction 1 as [|w ws [Hne Hw] _ IH]; [reflexivity|].
  destruct ws as [|w' ws'].
  - simpl. rewrite <- (app_nil_r w). rewrite tidy_nonspace by assumption. reflexivity.
  - change (join [SP] (w :: w' :: ws')) with (w ++ SP :: join [SP] (w' :: ws')).
    rewrite tidy_nonspace by assumption. simpl. exact IH.
Qed.

Lemma tidy_take (k : nat) (x : str) (b : bool) :
  tidy b x = true -> tidy b (take k x) = true.
Proof.
  revert k b. induction x as [|c x IH]; intros k b Hx; [destruct k; reflexivity|].
  destruct k as [|k]; [reflexivity|]. simpl in *.
  destruct (c =? SP).
  - apply andb_true_iff in Hx. destruct Hx as [-> Hx]. simpl. apply IH. exact Hx.
  - apply andb_true_iff in Hx. destruct Hx as [-> Hx]. simpl. apply IH. exact Hx.
Qed.

Lemma tidy_only_spaces (x : str) (b : bool) :
  tidy b x = true -> Forall (fun c => isspace c = true -> c = SP) x.
Proof.
  revert b. induction x as [|c x IH]; intros b Hx; constructor.
  - simpl in Hx. destruct (c =? SP) eqn:Hc.
    + intros _. apply N.eqb_eq. exact Hc.
    + apply andb_true_iff in Hx. destruct Hx as [Hx _].
      apply negb_true_iff in Hx. congruence.
  - simpl in Hx. destruct (c =? SP);
      apply andb_true_iff in Hx; destruct Hx as [_ Hx]; eapply IH; exact Hx.
Qed.

Lemma tidy_no_double_space (x : str) (b : bool) :
  tidy b x = true -> contains [SP; SP] x = false.
Proof.
  revert b. induction x as [|c x IH]; intros b Hx; [reflexivity|].
  cbn [contains]. apply orb_false_intro.
  - simpl in Hx. cbn [startswith]. destruct (N.eqb_spec SP c) as [<-|Hc]; [|reflexivity].
    simpl in Hx. apply andb_true_iff in Hx. destruct Hx as [_ Hx].
    destruct x as [|c' x]; [reflexivity|]. cbn [startswith].
    destruct (N.eqb_spec SP c') as [<-|Hc']; [|reflexivity].
    simpl in Hx. discriminate.
  - simpl in Hx. destruct (c =? SP);
      apply andb_true_iff in Hx; destruct Hx as [_ Hx]; eapply IH; exact Hx.
Qed.

Lemma tidy_no_leading_space (x : str) :
  tidy true x = true -> startswith [SP] x = false.
Proof.
  destruct x as [|c x]; [reflexivity|]. cbn [tidy startswith].
  destruct (N.eqb_spec SP c) as [<-|Hc]; [|reflexivity].
  rewrite N.eqb_refl. discriminate.
Qed.

(** X1: for a limit that is not negative, a result of [normalize_short] has at
    most that many characters, is in lower case, has no whitespace other than
    the space, does not begin with a space and has no two spaces in a row. *)
Theorem normalize_short_normal_form (s : str) (n : Z) :
  (0 <= n)%Z ->
  let x := normalize_short s n in
  (Z.of_nat (length x) <= n)%Z
  /\ lower x = x
  /\ Forall (fun c => isspace c = true -> c = SP) x
  /\ startswith [SP] x = false
  /\ contains [SP; SP] x = false.
Proof.
  intros Hn x. subst x. unfold normalize_short, slice_to.
  pose proof Hn as Hn'. apply Z.leb_le in Hn'. rewrite Hn'.
  set (k := Z.to_nat n).
  assert (Ht : tidy true (take k (lower (join [SP] (split_ws s)))) = true).
  { apply tidy_take. rewrite lower_join. apply tidy_join.
    apply Forall_map. eapply Forall_impl; [apply split_ws_words|].
    intros w Hw. apply lower_word. exact Hw. }
  split; [rewrite length_take; lia|].
  split; [apply lower_of_fixed, Forall_take, lower_gives_fixed|].
  split; [eapply tidy_only_spaces; exact Ht|].
  split; [apply tidy_no_leading_space; exact Ht|].
  eapply tidy_no_double_space; exact Ht.
Qed.

Lemma normalize_short_normal_form_witness :
  let x := normalize_short (u "  Hello   WORLD  again ") 12 in
  (Z.of_nat (length x) <= 12)%Z
  /\ lower x = x
  /\ Forall (fun c => isspace c = true -> c = SP) x
  /\ startswith [SP] x = false
  /\ contains [SP; SP] x = false.
Proof. apply (normalize_short_normal_form (u "  Hello   WORLD  again ") 12). lia. Defined.

(** ** normalize_short: what it ignores *)

(** Lower case and splitting commute.  [acc] is the part of a word that has
    been read, [L] what it became, and the state of [lower] after [acc] is
    the one it has on the rest. *)
Lemma split_from_lower (s : str) :
  forall (acc : str) (b : bool) (L : str),
    let st := fold_left (fun b c => if is_case_ignorable c then b else is_cased c)
                acc b in
    lower_from b (acc ++ s) = L ++ lower_from st s ->
    Forall (fun c => isspace c = false) L ->
    (L = [] <-> acc = []) ->
    (acc = [] -> b = false) ->
    split_from L (lower_from st s)
    = match split_from acc s with
      | [] => []
      | w :: ws => lower_from b w :: map lower ws
      end.
Proof.
  induction s as [|c r IH]; intros acc b L st Hl HL Hnil Hb.
  - rewrite !app_nil_r in Hl. subst L. cbn [lower_from split_from].
    destruct acc as [|a acc].
    + reflexivity.
    + destruct (lower_from b (a :: acc)) eqn:Hacc; [|reflexivity].
      apply lower_from_nil in Hacc. discriminate.
  - cbn [split_from]. destruct (isspace c) eqn:Hc.
    + assert (Hrest : split_from [] (lower r) = map lower (split_from [] r)).
      { specialize (IH [] false [] eq_refl (List.Forall_nil _)
                      (conj (fun _ => eq_refl) (fun _ => eq_refl)) (fun _ => eq_refl)).
        cbn [fold_left] in IH. unfold lower at 1. rewrite IH.
        destruct (split_from [] r); reflexivity. }
      rewrite (lower_from_space_cons r c st Hc). cbn [split_from].
      rewrite Hc.
      rewrite (lower_from_space acc r c Hc b), (lower_from_space_cons r c st Hc) in Hl.
      apply app_inv_tail in Hl. subst L.
      destruct acc as [|a acc].
      * cbn [lower_from]. rewrite Hrest, (Hb eq_refl).
        destruct (split_from [] r); reflexivity.
      * destruct (lower_from b (a :: acc)) eqn:Hacc.
        { apply lower_from_nil in Hacc. discriminate. }
        rewrite Hrest. reflexivity.
    + rewrite lower_from_cons. rewrite lower_from_cons in Hl.
      set (out := if c =? 931
                  then [if st && negb (followed_by_cased r) then 962 else 963]
                  else to_lower_full c) in *.
      assert (Hout : Forall (fun d => isspace d = false) out).
      { unfold out. destruct (c =? 931); [|apply to_lower_full_nonspace; exact Hc].
        destruct (st && negb (followed_by_cased r)); repeat constructor. }
      assert (Hne : out <> []).
      { unfold out. destruct (c =? 931); [destruct (st && _); discriminate|].
        unfold to_lower_full. destruct (c =? 304); discriminate. }
      rewrite split_from_app by exact Hout.
      specialize (IH (acc ++ [c]) b (L ++ out)). cbn zeta in IH.
      rewrite fold_left_app in IH. cbn [fold_left] in IH. fold st in IH.
      apply IH.
      * rewrite <- !app_assoc. exact Hl.
      * apply Forall_app. split; assumption.
      * split; intros H0.
        -- apply app_eq_nil in H0. destruct H0 as [_ H0]. contradiction.
        -- destruct acc; discriminate.
      * intros H0. destruct acc; discriminate.
Qed.

Lemma split_ws_lower (s : str) : split_ws (lower s) = map lower (split_ws s).
Proof.
  unfold split_ws.
  pose proof (split_from_lower s [] false [] eq_refl (List.Forall_nil _)
                (conj (fun _ => eq_refl) (fun _ => eq_refl)) (fun _ => eq_refl)) as Hs.
  cbn [fold_left] in Hs. unfold lower at 1. rewrite Hs.
  destruct (split_from [] s); reflexivity.
Qed.

Lemma split_from_blank (ws : str) :
  Forall (fun c => isspace c = true) ws ->
  forall w, split_from w ws = match w with [] => [] | _ => [w] end.
Proof.
  induction 1 as [|c ws Hc _ IH]; intros w; [reflexivity|].
  cbn [split_from]. rewrite Hc, (IH []). destruct w; reflexivity.
Qed.

Lemma split_from_blank_then (ws r : str) :
  Forall (fun c => isspace c = true) ws -> ws <> [] ->
  forall w, split_from w (ws ++ r)
            = match w with [] => split_from [] r | _ => w :: split_from [] r end.
Proof.
  induction 1 as [|c ws Hc Hws IH]; intros Hne w; [congruence|].
  cbn [app split_from]. rewrite Hc.
  destruct ws as [|c' ws'].
  - reflexivity.
  - rewrite (IH ltac:(discriminate) []). reflexivity.
Qed.

Lemma split_from_lstrip (s : str) : split_from [] (lstrip s) = split_from [] s.
Proof.
  induction s as [|c s IH]; [reflexivity|].
  cbn [lstrip split_from]. destruct (isspace c) eqn:Hc; [exact IH|].
  cbn [split_from]. rewrite Hc. reflexivity.
Qed.

Lemma split_from_ext (a r1 r2 : str) :
  (forall w, split_from w r1 = split_from w r2) ->
  forall w, split_from w (a ++ r1) = split_from w (a ++ r2).
Proof.
  intros Hr. induction a as [|c a IH]; intros w; [apply Hr|].
  cbn [app split_from]. destruct (isspace c); [|apply IH].
  destruct w; rewrite (IH []); reflexivity.
Qed.

Lemma lstrip_blank_prefix (s : str) :
  exists pre, s = pre ++ lstrip s /\ Forall (fun c => isspace c = true) pre.
Proof.
  induction s as [|c s (pre & Hs & Hpre)].
  - exists []. split; [reflexivity | constructor].
  - cbn [lstrip]. destruct (isspace c) eqn:Hc.
    + exists (c :: pre). split; [cbn [app]; congruence | constructor; assumption].
    + exists []. split; [reflexivity | constructor].
Qed.

Lemma rstrip_blank_suffix (s : str) :
  exists post, s = rstrip s ++ post /\ Forall (fun c => isspace c = true) post.
Proof.
  unfold rstrip. destruct (lstrip_blank_prefix (rev s)) as (pre & Hs & Hpre).
  exists (rev pre). split.
  - rewrite <- rev_app_distr, <- Hs, rev_involutive. reflexivity.
  - apply Forall_rev. exact Hpre.
Qed.

Lemma split_ws_rstrip (s : str) : split_ws (rstrip s) = split_ws s.
Proof.
  destruct (rstrip_blank_suffix s) as (post & Hs & Hpost).
  unfold split_ws. rewrite Hs at 2.
  rewrite <- (app_nil_r (rstrip s)) at 1.
  apply split_from_ext. intros w. rewrite (split_from_blank post Hpost). reflexivity.
Qed.

Lemma split_ws_strip (s : str) : split_ws (strip s) = split_ws s.
Proof.
  unfold strip. rewrite split_ws_rstrip. apply split_from_lstrip.
Qed.

(** X2: [normalize_short] ignores the case of the letters and the whitespace
    around the text: the lower-cased text and the stripped text have the
    normal form of the text. *)
Theorem normalize_short_ignores_case_and_margins (s : str) (n : Z) :
  normalize_short (lower s) n = normalize_short s n
  /\ normalize_short (strip s) n = normalize_short s n.
Proof.
  unfold normalize_short. split.
  - rewrite split_ws_lower, <- lower_join, lower_idempotent. reflexivity.
  - rewrite split_ws_strip. reflexivity.
Qed.

(** X3: [normalize_short] does not tell a run of whitespace from a single
    space: replacing a non-empty run of whitespace characters by one space
    leaves the normal form unchanged. *)
Theorem normalize_short_ignores_spacing (a ws b : str) (n : Z) :
  Forall (fun c => isspace c = true) ws -> ws <> [] ->
  normalize_short (a ++ ws ++ b) n = normalize_short (a ++ [SP] ++ b) n.
Proof.
  intros Hws Hne. unfold normalize_short, split_ws. f_equal. f_equal. f_equal.
  apply split_from_ext. intros w.
  rewrite (split_from_blank_then ws b Hws Hne).
  rewrite (split_from_blank_then [SP] b); [reflexivity | | discriminate].
  repeat constructor.
Qed.

Lemma normalize_short_ignores_spacing_witness :
  normalize_short (u "tool" ++ [9; 10; 160] ++ u "output") 300
  = normalize_short (u "tool" ++ [SP] ++ u "output") 300.
Proof.
  apply (normalize_short_ignores_spacing (u "tool") [9; 10; 160] (u "output") 300).
  - repeat constructor.
  - discriminate.
Defined.

(** ** extract_json_substring: where the result lies in the text *)

Lemma find_start_prefix (text : str) (n : nat) :
  find_start text = Some n ->
  Forall (fun c => is_open c = false) (take n text).
Proof.
  revert n. induction text as [|c r IH]; intros n Hn; [discriminate|].
  simpl in Hn. destruct (is_open c) eqn:Hc.
  - injection Hn as <-. constructor.
  - destruct (find_start r) as [m|]; [|discriminate].
    injection Hn as <-. cbn [take]. constructor; [exact Hc | apply IH; reflexivity].
Qed.

Lemma drop_cons_inv (text : str) (i : nat) (c : N) (rest : str) :
  drop i text = c :: rest ->
  text !! i = Some c /\ drop (S i) text = rest /\ (i < length text)%nat.
Proof.
  intros Hd.
  assert (Hl : text !! i = Some c).
  { pose proof (lookup_drop text i 0) as Hl. rewrite Hd, Nat.add_0_r in Hl.
    symmetry. exact Hl. }
  split; [exact Hl|]. split.
  - pose proof (drop_drop text 1 i) as Hdd. rewrite Hd in Hdd.
    replace (i + 1)%nat with (S i) in Hdd by lia. symmetry. exact Hdd.
  - eapply lookup_lt_Some. exact Hl.
Qed.

(** The slice that the loop returns ends at a closing bracket of the
    text. *)
Lemma balance_sound_at (text : str) (start_idx : nat) (rest : str) :
  forall (stack : list N) (i : nat) (c : str),
    (start_idx <= i)%nat ->
    drop i text = rest ->
    balance text start_idx stack i rest = Some c ->
    exists j e, (i <= j < length text)%nat
                /\ c = take (S j - start_idx) (drop start_idx text)
                /\ text !! j = Some e /\ is_close e = true.
Proof.
  induction rest as [|ch0 rest IH]; intros stack i c Hi Hd Hb; [discriminate|].
  destruct (drop_cons_inv _ _ _ _ Hd) as (Hl & Hd' & Hlen).
  assert (Hnext : forall stack', balance text start_idx stack' (S i) rest = Some c ->
                    exists j e, (i <= j < length text)%nat
                                /\ c = take (S j - start_idx) (drop start_idx text)
                                /\ text !! j = Some e /\ is_close e = true).
  { intros stack' Hb'. apply IH in Hb'; [|lia|exact Hd'].
    destruct Hb' as (j & e & Hj & Hrest). exists j, e. split; [lia | exact Hrest]. }
  simpl in Hb.
  destruct (is_open ch0); [eapply Hnext; exact Hb|].
  destruct (is_close ch0) eqn:Hclose; [|eapply Hnext; exact Hb].
  destruct stack as [|top stack']; [discriminate|].
  destruct stack' as [|top' stack'']; [|eapply Hnext; exact Hb].
  destruct (json_loads (take (S i - start_idx) (drop start_idx text))) eqn:Hj.
  - injection Hb as <-. exists i, ch0. repeat split; [lia | exact Hlen | exact Hl | exact Hclose].
  - eapply Hnext; exact Hb.
Qed.

(** X4: a result of [extract_json_substring] is a contiguous part of the text:
    nothing before it is an opening brace or bracket, and it ends with a
    closing brace or bracket. *)
Theorem extract_json_substring_is_slice (text c : str) :
  extract_json_substring text = Some c ->
  exists pre post,
    text = pre ++ c ++ post
    /\ Forall (fun x => is_open x = false) pre
    /\ exists e, last c = Some e /\ is_close e = true.
Proof.
  unfold extract_json_substring. intros Hx.
  destruct text as [|t0 text']; [discriminate|].
  destruct (find_start (t0 :: text')) as [n|] eqn:Hn; [|discriminate].
  set (text := t0 :: text') in *.
  apply balance_sound_at in Hx; [|lia|reflexivity].
  destruct Hx as (j & e & Hj & -> & Hl & He).
  exists (take n text), (drop (S j - n) (drop n text)).
  split; [rewrite take_drop, take_drop; reflexivity|].
  split; [apply find_start_prefix; exact Hn|].
  exists e. split; [|exact He].
  rewrite last_lookup, length_take, length_drop.
  replace (Init.Nat.pred (Nat.min (S j - n) (length text - n))) with (j - n)%nat by lia.
  rewrite lookup_take_lt by lia. rewrite lookup_drop.
  replace (n + (j - n))%nat with j by lia. exact Hl.
Qed.

Lemma extract_json_substring_is_slice_witness :
  exists pre post,
    u "plan: [1, {}] and [2]" = pre ++ u "[1, {}]" ++ post
    /\ Forall (fun x => is_open x = false) pre
    /\ exists e, last (u "[1, {}]") = Some e /\ is_close e = true.
Proof.
  apply (extract_json_substring_is_slice (u "plan: [1, {}] and [2]")).
  vm_compute. reflexivity.
Defined.

(** ** extract_json_substring: stable on its own result *)

(** The loop run on the slice it returned follows the same steps. *)
Lemma balance_replay (text : str) (start_idx : nat) (rest : str) :
  forall (stack : list N) (i : nat) (c : str),
    (start_idx <= i)%nat ->
    drop i text = rest ->
    balance text start_idx stack i rest = Some c ->
    balance c 0 stack (i - start_idx) (drop (i - start_idx) c) = Some c.
Proof.
  induction rest as [|ch0 rest IH]; intros stack i c Hi Hd Hb; [discriminate|].
  destruct (balance_sound_at _ _ _ _ _ _ Hi Hd Hb) as (j & e & Hj & Hc & _ & _).
  destruct (drop_cons_inv _ _ _ _ Hd) as (Hl & Hd' & Hlen).
  assert (Hclen : length c = (S j - start_idx)%nat).
  { rewrite Hc, length_take, length_drop. lia. }
  assert (Hci : c !! (i - start_idx)%nat = Some ch0).
  { unfold str in *. rewrite Hc, lookup_take_lt by lia. rewrite lookup_drop.
    replace (start_idx + (i - start_idx))%nat with i by lia. exact Hl. }
  rewrite (drop_S _ _ _ Hci).
  assert (Hnext : forall stack', balance text start_idx stack' (S i) rest = Some c ->
                    balance c 0 stack' (S (i - start_idx)) (drop (S (i - start_idx)) c)
                    = Some c).
  { intros stack' Hb'. apply IH in Hb'; [|lia|exact Hd'].
    replace (S i - start_idx)%nat with (S (i - start_idx)) in Hb' by lia. exact Hb'. }
  simpl in Hb. cbn [balance].
  destruct (is_open ch0); [apply Hnext; exact Hb|].
  destruct (is_close ch0); [|apply Hnext; exact Hb].
  destruct stack as [|top stack']; [discriminate|].
  destruct stack' as [|top' stack'']; [|apply Hnext; exact Hb].
  assert (Hcand : take (S (i - start_idx) - 0) (drop 0 c)
                  = take (S i - start_idx) (drop start_idx text)).
  { rewrite drop_0, Hc, take_take. f_equal. lia. }
  rewrite Hcand.
  destruct (json_loads (take (S i - start_idx) (drop start_idx text))) eqn:Hparse.
  - exact Hb.
  - apply Hnext. exact Hb.
Qed.

Lemma extract_at_open (b : N) (t : str) :
  is_open b = true ->
  extract_json_substring (b :: t) = balance (b :: t) 0 [] 0 (b :: t).
Proof.
  intros Hb. unfold extract_json_substring. cbn [find_start]. rewrite Hb. reflexivity.
Qed.

(** X5: [extract_json_substring] is stable on its results: applied to a text
    that it returned, it returns that text. *)
Theorem extract_json_substring_stable (text c : str) :
  extract_json_substring text = Some c -> extract_json_substring c = Some c.
Proof.
  unfold extract_json_substring at 1. intros Hx.
  destruct text as [|t0 text']; [discriminate|].
  destruct (find_start (t0 :: text')) as [n|] eqn:Hn; [|discriminate].
  set (text := t0 :: text') in *.
  destruct (find_start_open _ _ Hn) as (b & r & Hd & Hb).
  pose proof (balance_sound_at _ _ _ _ _ _ (Nat.le_refl n) eq_refl Hx)
    as (j & e & Hj & Hc & _ & _).
  pose proof (balance_replay _ _ _ _ _ _ (Nat.le_refl n) eq_refl Hx) as Hreplay.
  rewrite Nat.sub_diag in Hreplay.
  assert (Hhead : c = b :: take (j - n) r).
  { rewrite Hc, Hd. replace (S j - n)%nat with (S (j - n)) by lia. reflexivity. }
  rewrite Hhead, (extract_at_open _ _ Hb), <- Hhead. exact Hreplay.
Qed.

Lemma extract_json_substring_stable_witness :
  extract_json_substring (u "[1, {}]") = Some (u "[1, {}]").
Proof.
  apply (extract_json_substring_stable (u "plan: [1, {}] and [2]")).
  vm_compute. reflexivity.
Defined.

(** ** extract_first_step_description: blank text and nothing else gives nothing *)

Lemma isspace_true_range (c : N) : isspace c = true -> c < 33 \/ 132 < c.
Proof.
  intros Hc. destruct (N.lt_ge_cases c 33) as [Hlt|Hge]; [left; exact Hlt|].
  destruct (N.lt_ge_cases 132 c) as [Hlt'|Hge']; [right; exact Hlt'|].
  assert (Hf : isspace c = false) by (apply isspace_false_iff; lia).
  congruence.
Qed.

Lemma startswith_head_differs (a c : N) (p r : str) :
  a <> c -> startswith (a :: p) (c :: r) = false.
Proof. intros Hac. cbn [startswith]. apply N.eqb_neq in Hac. rewrite Hac. reflexivity. Qed.

(** No JSON value begins with a character outside U+0021..U+0084. *)
Lemma scan_once_outside (f : nat) (c : N) (r : str) :
  c < 33 \/ 132 < c -> scan_once (S f) (c :: r) = PErr.
Proof.
  intros Hc. cbn [scan_once].
  assert (H34 : (c =? 34) = false) by (apply N.eqb_neq; lia).
  assert (Hob : (c =? ch "{") = false) by (apply N.eqb_neq; vm_compute (ch _); lia).
  assert (Hos : (c =? ch "[") = false) by (apply N.eqb_neq; vm_compute (ch _); lia).
  rewrite H34, Hob, Hos.
  change (u "null") with [110; 117; 108; 108].
  change (u "true") with [116; 114; 117; 101].
  change (u "false") with [102; 97; 108; 115; 101].
  change (u "NaN") with [78; 97; 78].
  change (u "Infinity") with [73; 110; 102; 105; 110; 105; 116; 121].
  change (u "-Infinity") with [45; 73; 110; 102; 105; 110; 105; 116; 121].
  rewrite !startswith_head_differs by lia.
  unfold match_number, scan_sign.
  assert (Hm : (c =? ch "-") = false) by (apply N.eqb_neq; vm_compute (ch _); lia).
  rewrite Hm. unfold scan_int.
  assert (Hz : (c =? ch "0") = false) by (apply N.eqb_neq; vm_compute (ch _); lia).
  assert (Hd : is_digit c = false).
  { unfold is_digit. apply andb_false_iff. rewrite !N.leb_gt. lia. }
  rewrite Hz, Hd. reflexivity.
Qed.

Lemma skip_ws_blank (s : str) :
  Forall (fun c => isspace c = true) s -> Forall (fun c => isspace c = true) (skip_ws s).
Proof.
  induction 1 as [|c s Hc Hs IH]; [constructor|].
  cbn [skip_ws]. destruct (is_json_ws c); [exact IH | constructor; assumption].
Qed.

Lemma json_loads_blank (s : str) :
  Forall (fun c => isspace c = true) s -> json_loads s = None.
Proof.
  intros Hs. unfold json_loads. destruct (startswith [65279] s); [reflexivity|].
  replace (2 * length s + 2)%nat with (S (2 * length s + 1)) by lia.
  pose proof (skip_ws_blank s Hs) as Hk.
  destruct (skip_ws s) as [|c r]; [reflexivity|].
  rewrite scan_once_outside; [reflexivity|].
  apply isspace_true_range. inversion Hk; assumption.
Qed.

Lemma search_description_blank (s : str) :
  Forall (fun c => isspace c = true) s -> search_description s = None.
Proof.
  assert (Hat : forall t, Forall (fun c => isspace c = true) t ->
                          match_description_at t = None).
  { intros t Ht. unfold match_description_at.
    destruct t as [|c t]; [reflexivity|].
    change (dq ++ u "description" ++ dq) with (34 :: u "description" ++ dq).
    rewrite startswith_head_differs; [reflexivity|].
    inversion Ht as [|? ? Hc _]; subst. intros <-. discriminate. }
  induction 1 as [|c s Hc Hs IH].
  - reflexivity.
  - cbn [search_description]. rewrite Hat by (constructor; assumption). exact IH.
Qed.

Lemma search_description_nonempty (s g : str) :
  search_description s = Some g -> g <> [].
Proof.
  assert (Hat : forall t, match_description_at t = Some g -> g <> []).
  { intros t. unfold match_description_at.
    destruct (startswith _ t); [|discriminate].
    destruct (lstrip (drop 13 t)) as [|c r]; [discriminate|].
    destruct (c =? ch ":"); [|discriminate].
    destruct (lstrip r) as [|q r']; [discriminate|].
    destruct (q =? 34); [|discriminate].
    destruct (span_nonquote r') as [[|g0 g'] [|t0 t']]; try discriminate.
    intros [= <-]. discriminate. }
  induction s as [|c s IH]; cbn [search_description].
  - destruct (match_description_at []) eqn:Hm; [|discriminate].
    intros [= ->]. eapply Hat. exact Hm.
  - destruct (match_description_at (c :: s)) eqn:Hm; [|exact IH].
    intros [= ->]. eapply Hat. exact Hm.
Qed.

Lemma split_from_nil_blank (s : str) :
  forall w, split_from w s = [] -> w = [] /\ Forall (fun c => isspace c = true) s.
Proof.
  induction s as [|c s IH]; intros w Hs.
  - destruct w; [split; [reflexivity | constructor] | discriminate].
  - cbn [split_from] in Hs. destruct (isspace c) eqn:Hc.
    + destruct w as [|c0 w]; [|discriminate].
      split; [reflexivity|]. constructor; [exact Hc|]. apply (IH [] Hs).
    + apply IH in Hs. destruct Hs as [Hw _]. destruct w; discriminate.
Qed.

Lemma join_words_nil (ws : list str) : Forall word ws -> join [SP] ws = [] -> ws = [].
Proof.
  intros Hws Hj. destruct ws as [|w ws]; [reflexivity|].
  inversion Hws as [|? ? [Hne _] _]; subst.
  destruct ws; cbn [join] in Hj.
  - congruence.
  - destruct w; [congruence | discriminate].
Qed.

(** The normal form is empty exactly when the text is blank. *)
Lemma normalize_short_nil_iff (s : str) (k : nat) :
  normalize_short s (Z.of_nat (S k)) = []
  <-> Forall (fun c => isspace c = true) s.
Proof.
  unfold normalize_short, slice_to.
  replace (0 <=? Z.of_nat (S k))%Z with true by (symmetry; apply Z.leb_le; lia).
  rewrite Nat2Z.id. split.
  - intros Ht.
    assert (Hj : join [SP] (split_ws s) = []).
    { destruct (lower (join [SP] (split_ws s))) eqn:Hl; [|discriminate].
      apply lower_from_nil in Hl. exact Hl. }
    apply join_words_nil in Hj; [|apply split_ws_words].
    apply (split_from_nil_blank s []). exact Hj.
  - intros Hs. unfold split_ws. rewrite (split_from_blank s Hs). reflexivity.
Qed.

Section FirstStep.
Context `{PyRuntime}.

Lemma description_or_dump_truthy (entry : list (str * json)) :
  truthy (description_or_dump entry) = true.
Proof.
  unfold description_or_dump, py_or.
  destruct (truthy (default JNull (dict_get (u "description") entry))) eqn:Hd;
    [exact Hd|].
  destruct entry as [|[k v] entry]; reflexivity.
Qed.

(** The three ways to a result: an entry of the parsed text, or the regular
    expression and the cut normal form. *)
Lemma extract_first_step_description_cases (text : str) :
  (is_Some (json_loads text)
   /\ exists entry, extract_first_step_description text = description_or_dump entry)
  \/ extract_first_step_description text
     = match search_description text with
       | Some g => JStr g
       | None =>
           let t := normalize_short text 400 in
           if nonempty t then JStr (slice_to 350 t ++ u "...") else JNull
       end.
Proof.
  unfold extract_first_step_description.
  destruct (json_loads text) as [v|]; [|right; reflexivity].
  destruct v as [| | | | |l|kv]; try (right; reflexivity).
  - destruct l as [|first l]; [right; reflexivity|].
    destruct first; try (right; reflexivity).
    left. split; [eexists; reflexivity|]. eexists. reflexivity.
  - destruct (first_listed_entry kv) as [entry|]; [|right; reflexivity].
    left. split; [eexists; reflexivity|]. eexists. reflexivity.
Qed.

Lemma first_step_blank (text : str) :
  (extract_first_step_description text = JNull
   <-> Forall (fun c => isspace c = true) text)
  /\ (truthy (extract_first_step_description text) = false
      -> extract_first_step_description text = JNull).
Proof.
  destruct (extract_first_step_description_cases text)
    as [[Hparse [entry He]]|He]; rewrite He.
  - pose proof (description_or_dump_truthy entry) as Ht. split.
    + split.
      * intros Hn. rewrite Hn in Ht. discriminate.
      * intros Hb. rewrite (json_loads_blank text Hb) in Hparse.
        destruct Hparse as [? ?]. discriminate.
    + rewrite Ht. discriminate.
  - destruct (search_description text) as [g|] eqn:Hs.
    + pose proof (search_description_nonempty _ _ Hs) as Hg. split.
      * split; [discriminate|].
        intros Hb. rewrite (search_description_blank text Hb) in Hs. discriminate.
      * destruct g; [congruence | discriminate].
    + cbv zeta.
      pose proof (normalize_short_nil_iff text 399) as Hn.
      change (Z.of_nat 400) with 400%Z in Hn.
      destruct (normalize_short text 400) as [|c t] eqn:Ht; cbn [nonempty].
      * split; [|reflexivity]. split; [intros _; apply Hn; reflexivity | reflexivity].
      * split.
        -- split; [discriminate|]. intros Hb. apply Hn in Hb. discriminate.
        -- cbn [truthy]. destruct (slice_to 350 (c :: t) ++ u "...") eqn:Hx; [|discriminate].
           apply app_eq_nil in Hx. destruct Hx as [_ Hx]. discriminate.
Qed.

(** X6: [extract_first_step_description] returns None exactly when the planner
    text is empty or all whitespace, and every other result is a true value.
    *)
Theorem extract_first_step_description_blank (text : str) :
  (extract_first_step_description text = JNull
   <-> Forall (fun c => isspace c = true) text)
  /\ (truthy (extract_first_step_description text) = false
      -> extract_first_step_description text = JNull).
Proof. exact (first_step_blank text). Qed.

End FirstStep.

(** ** stream_subagent: the loops as a function of the stream *)

Lemma poll_stop_Ok (should_stop : stop_predicate) (w w' : world) (x : unit) :
  poll_stop should_stop w = (Ok x, w') ->
  (should_stop = None /\ w' = w) \/ (is_Some should_stop /\ w' = Poll false :: w).
Proof.
  destruct should_stop as [f|]; simpl.
  - destruct (f (length (filter is_poll w))); [discriminate|].
    intros [= _ <-]. right. split; [eexists; reflexivity | reflexivity].
  - unfold ret. intros [= _ <-]. left. auto.
Qed.

Lemma notify_runs (f : observer) (tag t : str) (k : kind) (w : world) :
  notify f tag t k w = (Ok tt, Forward tag t k :: w).
Proof. unfold notify, bind, emit. destruct (f tag t k); reflexivity. Qed.

Lemma dropped_false_inv (nri nrp : str) (seen : gset str) (t : str) :
  dropped nri nrp seen t = false ->
  (normalize_short t 300 ∉ seen)
  /\ (3 <= length (strip t))%nat
  /\ dropped nri nrp ∅ t = false.
Proof.
  unfold dropped.
  destruct (existsb _ tool_markers); [discriminate|].
  destruct (nonempty nri && contains nri _); [discriminate|].
  destruct (nonempty nrp && contains nrp _); [discriminate|].
  destruct (existsb _ echo_keys); [discriminate|].
  destruct (filler_match _); [discriminate|].
  destruct (bool_decide (normalize_short t 300 ∈ seen)) eqn:Hs; [discriminate|].
  destruct (length (strip t) <? 3)%nat eqn:Hl; [discriminate|].
  intros _. apply bool_decide_eq_false in Hs. apply Nat.ltb_ge in Hl.
  split; [exact Hs|]. split; [exact Hl|].
  rewrite bool_decide_eq_false_2 by set_solver. reflexivity.
Qed.

Section Loops.
Variables (role_name : str) (quiet : bool) (on_text : option observer)
          (tag : option str) (should_stop : stop_predicate).

Local Abbreviation spec := (loop_spec role_name quiet on_text tag should_stop).

Lemma loop_spec_nil (st : list str * gset str) (w : world) : spec [] st w st w.
Proof.
  split; [reflexivity|]. exists [], []. rewrite app_nil_r.
  split; [reflexivity|]. split; [reflexivity|]. split; [constructor|].
  destruct (_ || _); reflexivity.
Qed.

Lemma loop_spec_app (a b : list (str * kind)) (st0 st1 st2 : list str * gset str)
    (w0 w1 w2 : world) :
  spec a st0 w0 st1 w1 -> spec b st1 w1 st2 w2 -> spec (a ++ b) st0 w0 st2 w2.
Proof.
  intros (Ha & e1 & n1 & He1 & Hn1 & Hf1 & Hs1) (Hb & e2 & n2 & He2 & Hn2 & Hf2 & Hs2).
  split; [rewrite fold_left_app, <- Ha; exact Hb|].
  exists (e1 ++ e2), (n2 ++ n1).
  split; [rewrite He2, He1, app_assoc; reflexivity|].
  split; [rewrite Hn2, Hn1, app_assoc; reflexivity|].
  split; [apply Forall_app; auto|].
  rewrite omap_app, rev_app_distr, Hs1, Hs2. destruct (_ || _); reflexivity.
Qed.

(** A poll that does not stop the run adds nothing to what a loop did. *)
Lemma loop_spec_poll (tks : list (str * kind)) (st st' : list str * gset str)
    (w w1 w' : world) (x : unit) :
  poll_stop should_stop w = (Ok x, w1) ->
  spec tks st w1 st' w' -> spec tks st w st' w'.
Proof.
  intros Hp (Hst & extra & new & He & Hn & Hf & Hs).
  split; [exact Hst|].
  apply poll_stop_Ok in Hp. destruct Hp as [[_ ->]|[Hsome ->]].
  - exists extra, new. auto.
  - exists extra, (new ++ [Poll false]).
    split; [exact He|]. split; [rewrite Hn, <- app_assoc; reflexivity|].
    split.
    + apply Forall_app. split; [exact Hf|]. constructor; [|constructor].
      split; [reflexivity | exact Hsome].
    + rewrite omap_app. cbn [omap fragment_of]. rewrite app_nil_r. exact Hs.
Qed.

Lemma handle_text_Ok (st st' : list str * gset str) (tk : str * kind) (w w' : world) :
  handle_text role_name quiet on_text tag should_stop st tk w = (Ok st', w') ->
  spec [tk] st w st' w'.
Proof.
  unfold handle_text. destruct st as [collected seen], tk as [t k]. intros Hrun.
  bind_inv Hrun x Hpoll. apply (loop_spec_poll _ _ _ _ _ _ x Hpoll).
  unfold loop_spec, accept. cbn [fold_left fst].
  destruct (dropped _ _ seen t) eqn:Hd.
  - unfold ret in Hrun. injection Hrun as <- <-. split; [reflexivity|].
    exists [], []. rewrite app_nil_r.
    split; [reflexivity|]. split; [reflexivity|]. split; [constructor|].
    destruct (_ || _); reflexivity.
  - bind_inv Hrun y Hshow. unfold ret in Hrun. injection Hrun as <- <-.
    split; [reflexivity|]. exists [t].
    unfold loop_event. destruct on_text as [f|].
    + rewrite notify_runs in Hshow. injection Hshow as _ <-.
      exists [Forward (tag_or tag role_name) t k].
      split; [reflexivity|]. split; [reflexivity|]. split; [|reflexivity].
      constructor; [|constructor]. split; [eexists; reflexivity | reflexivity].
    + destruct quiet; simpl in Hshow.
      * unfold ret in Hshow. injection Hshow as _ <-. exists [].
        split; [reflexivity|]. split; [reflexivity|]. split; [constructor | reflexivity].
      * unfold emit in Hshow. injection Hshow as _ <-.
        exists [Echo role_name t].
        split; [reflexivity|]. split; [reflexivity|]. split; [|reflexivity].
        constructor; [|constructor]. auto.
Qed.

Lemma handle_text_loop_Ok (tks : list (str * kind)) :
  forall (st st' : list str * gset str) (w w' : world),
    foldM (handle_text role_name quiet on_text tag should_stop) tks st w = (Ok st', w') ->
    spec tks st w st' w'.
Proof.
  induction tks as [|tk tks IH]; intros st st' w w' Hrun.
  - unfold foldM, ret in Hrun. injection Hrun as <- <-. apply loop_spec_nil.
  - cbn [foldM] in Hrun. bind_inv Hrun st1 Hstep.
    apply handle_text_Ok in Hstep. apply IH in Hrun.
    apply (loop_spec_app [tk] tks _ _ _ _ _ _ Hstep Hrun).
Qed.

Lemma handle_chunk_loop_Ok (chunks : list chunk) :
  forall (st st' : list str * gset str) (w w' : world),
    foldM (handle_chunk role_name quiet on_text tag should_stop) chunks st w
    = (Ok st', w') ->
    spec (stream_texts chunks) st w st' w'.
Proof.
  induction chunks as [|c chunks IH]; intros st st' w w' Hrun.
  - unfold foldM, ret in Hrun. injection Hrun as <- <-. apply loop_spec_nil.
  - cbn [foldM] in Hrun. bind_inv Hrun st1 Hstep.
    unfold handle_chunk in Hstep. bind_inv Hstep x Hpoll.
    apply handle_text_loop_Ok in Hstep. apply IH in Hrun.
    unfold stream_texts. cbn [map concat].
    eapply loop_spec_app; [|exact Hrun].
    eapply loop_spec_poll; [exact Hpoll | exact Hstep].
Qed.

(** A role invocation that is not cancelled: its result is a function of
    the stream, and the trace grows by the banner, the invocation, the
    events of the loops and the banner of the end. *)
Lemma stream_collect_Ok (agent : agent_handle) (payload_text : str) (w w' : world)
    (collected : list str) :
  stream_collect role_name quiet on_text tag should_stop agent payload_text w
  = (Ok collected, w') ->
  collected
  = accepted_fragments role_name
      (agent (length (filter is_invoke w)) (user_msg role_name payload_text))
  /\ exists ending loop banner,
       w' = ending ++ loop ++ Invoke (user_msg role_name payload_text) :: banner ++ w
       /\ Forall (banner_event quiet on_text) ending
       /\ Forall (banner_event quiet on_text) banner
       /\ Forall (loop_event role_name quiet on_text tag should_stop) loop
       /\ rev (omap fragment_of loop)
          = (if bool_decide (is_Some on_text) || negb quiet then collected else []).
Proof.
  unfold stream_collect. intros Hrun.
  bind_inv Hrun x Hbanner. bind_inv Hrun chunks Hstream.
  bind_inv Hrun st Hloop. bind_inv Hrun y Hend.
  unfold ret in Hrun. injection Hrun as <- <-.
  assert (Hconsole : forall (t : str) (u0 u1 : world) (z : unit),
             when (negb quiet && negb (bool_decide (is_Some on_text)))
                  (emit (Console t)) u0 = (Ok z, u1) ->
             exists b, u1 = b ++ u0 /\ Forall (banner_event quiet on_text) b).
  { intros t u0 u1 z. destruct quiet; simpl.
    - unfold ret. intros [= _ <-]. exists []. split; [reflexivity | constructor].
    - destruct on_text as [f|]; simpl.
      + unfold ret. intros [= _ <-]. exists []. split; [reflexivity | constructor].
      + unfold emit. intros [= _ <-]. exists [Console t].
        split; [reflexivity|]. constructor; [|constructor]. split; reflexivity. }
  apply Hconsole in Hbanner. destruct Hbanner as (banner & -> & Hb).
  apply Hconsole in Hend. destruct Hend as (ending & -> & He).
  unfold astream in Hstream. injection Hstream as <- <-.
  apply handle_chunk_loop_Ok in Hloop.
  destruct Hloop as (Hst & extra & loop & Hextra & -> & Hf & Hs).
  cbn [fst app] in Hextra.
  assert (Hcount : length (filter is_invoke (banner ++ w : world))
                   = length (filter is_invoke w)).
  { unfold world. rewrite filter_app, length_app.
    replace (filter is_invoke banner) with (@nil event); [reflexivity|].
    clear -Hb. induction Hb as [|e b He _ IH]; [reflexivity|].
    destruct e; try contradiction. cbn. exact IH. }
  split.
  - unfold accepted_fragments. rewrite Hst, Hcount. reflexivity.
  - exists ending, loop, banner. rewrite <- Hextra in Hs. auto 6.
Qed.

End Loops.

(** ** stream_subagent: what the filter keeps *)

Section Accept.
Variable role_name : str.

Lemma accept_keeps_inv (st : list str * gset str) (tk : str * kind) :
  accept_inv st -> accept_inv (accept role_name st tk).
Proof.
  destruct st as [collected seen], tk as [t k]. intros [Hnd Hin].
  unfold accept. cbn [fst snd] in *.
  destruct (dropped _ _ seen t) eqn:Hd; [split; assumption|].
  apply dropped_false_inv in Hd. destruct Hd as (Hnew & _ & _).
  split; cbn [fst snd].
  - rewrite map_app. cbn [map]. apply NoDup_app. split; [exact Hnd|].
    split; [|apply NoDup_singleton].
    intros x Hx Hx'. apply list_elem_of_singleton in Hx'. subst x.
    apply list_elem_of_fmap in Hx. destruct Hx as (t0 & Heq & Ht0).
    apply Hin in Ht0. rewrite <- Heq in Ht0. contradiction.
  - intros t0 Ht0. apply elem_of_app in Ht0. destruct Ht0 as [Ht0|Ht0].
    + apply elem_of_union_r, Hin, Ht0.
    + apply list_elem_of_singleton in Ht0. subst t0.
      apply elem_of_union_l, elem_of_singleton. reflexivity.
Qed.

Lemma accept_fold_inv (tks : list (str * kind)) :
  forall st, accept_inv st -> accept_inv (fold_left (accept role_name) tks st).
Proof.
  induction tks as [|tk tks IH]; intros st Hst; [exact Hst|].
  cbn [fold_left]. apply IH, accept_keeps_inv, Hst.
Qed.

Lemma accept_fold_extra (tks : list (str * kind)) :
  forall st, exists extra,
    fst (fold_left (accept role_name) tks st) = fst st ++ extra
    /\ sublist extra (map fst tks)
    /\ Forall (passes role_name) extra.
Proof.
  induction tks as [|[t k] tks IH]; intros st.
  - exists []. rewrite app_nil_r. split; [reflexivity|]. split; constructor.
  - cbn [fold_left map fst]. destruct (IH (accept role_name st (t, k)))
      as (extra & He & Hsub & Hall).
    destruct st as [collected seen]. unfold accept in He |- *. cbn [fst] in *.
    destruct (dropped _ _ seen t) eqn:Hd.
    + exists extra. split; [exact He|]. split; [|exact Hall].
      apply sublist_cons. exact Hsub.
    + exists (t :: extra). cbn [fst] in He. rewrite <- app_assoc in He.
      split; [exact He|]. split; [apply sublist_skip; exact Hsub|].
      constructor; [|exact Hall].
      apply dropped_false_inv in Hd. destruct Hd as (_ & Hlen & Hpass).
      split; assumption.
Qed.

End Accept.

(** A role invocation that is not cancelled returns the accepted fragments
    of the stream joined, and adds one invocation to the trace. *)
Lemma stream_subagent_Ok (agent : agent_handle) (role_name payload_text : str)
    (quiet : bool) (on_text : option observer) (tag : option str)
    (should_stop : stop_predicate) (w w' : world) (r : str) :
  stream_subagent agent role_name payload_text quiet on_text tag should_stop w
  = (Ok r, w') ->
  r = join [] (accepted_fragments role_name
                 (agent (length (filter is_invoke w)) (user_msg role_name payload_text)))
  /\ exists new,
       w' = new ++ w
       /\ Forall (stream_event role_name payload_text quiet on_text tag should_stop) new
       /\ filter is_invoke new = [Invoke (user_msg role_name payload_text)].
Proof.
  unfold stream_subagent. intros Hrun. bind_inv Hrun collected Hc.
  unfold ret in Hrun. injection Hrun as <- <-.
  apply stream_collect_Ok in Hc.
  destruct Hc as (-> & ending & loop & banner & -> & He & Hb & Hl & _).
  split; [reflexivity|].
  exists (ending ++ loop ++ Invoke (user_msg role_name payload_text) :: banner).
  split; [rewrite <- !app_assoc; reflexivity|].
  assert (Hbanner : forall b, Forall (banner_event quiet on_text) b ->
            Forall (stream_event role_name payload_text quiet on_text tag should_stop) b
            /\ filter is_invoke b = []).
  { induction 1 as [|e b Hx _ [IH1 IH2]]; [split; [constructor | reflexivity]|].
    destruct e; try contradiction. split; [constructor; assumption | exact IH2]. }
  assert (Hloop : Forall (stream_event role_name payload_text quiet on_text tag
                            should_stop) loop
                  /\ filter is_invoke loop = []).
  { clear -Hl. induction Hl as [|e l Hx _ [IH1 IH2]]; [split; [constructor | reflexivity]|].
    destruct e; try contradiction; (split; [constructor; assumption | exact IH2]). }
  destruct (Hbanner _ He) as [He1 He2], (Hbanner _ Hb) as [Hb1 Hb2], Hloop as [Hl1 Hl2].
  split.
  - apply Forall_app. split; [exact He1|]. apply Forall_app. split; [exact Hl1|].
    constructor; [reflexivity | exact Hb1].
  - rewrite !filter_app, He2, Hl2. cbn [app]. rewrite filter_cons_True by exact I.
    rewrite Hb2. reflexivity.
Qed.

Section StreamProperties.
Variables (agent : agent_handle) (role_name payload_text : str) (quiet : bool)
          (on_text : option observer) (tag : option str) (should_stop : stop_predicate).

(** X7: the fragments accepted by one role invocation have pairwise different
    normal forms (the first 300 characters that [normalize_short] gives): a
    fragment that repeats an accepted one up to case and spacing is not
    accepted again. *)
Theorem stream_accepts_each_normal_form_once (w w' : world) (collected : list str) :
  stream_collect role_name quiet on_text tag should_stop agent payload_text w
  = (Ok collected, w') ->
  NoDup (map (fun t => normalize_short t 300) collected).
Proof.
  intros Hrun. apply stream_collect_Ok in Hrun. destruct Hrun as [-> _].
  unfold accepted_fragments. apply accept_fold_inv.
  split; [constructor|]. intros t Ht. apply elem_of_nil in Ht. contradiction.
Qed.

(** X8: the fragments accepted by one role invocation are, in the order of the
    stream, some of the texts that the agent streamed for this invocation;
    each of them passes the tests of the filter that do not depend on the
    earlier fragments, and has at least three characters once stripped. *)
Theorem stream_accepts_in_order (w w' : world) (collected : list str) :
  stream_collect role_name quiet on_text tag should_stop agent payload_text w
  = (Ok collected, w') ->
  sublist collected
    (map fst (stream_texts (agent (length (filter is_invoke w))
                               (user_msg role_name payload_text))))
  /\ Forall (passes role_name) collected.
Proof.
  intros Hrun. apply stream_collect_Ok in Hrun. destruct Hrun as [-> _].
  unfold accepted_fragments.
  destruct (accept_fold_extra role_name
              (stream_texts (agent (length (filter is_invoke w))
                                   (user_msg role_name payload_text))) ([], ∅))
    as (extra & -> & Hsub & Hall).
  split; assumption.
Qed.

(** X9: one role invocation shows what it accepts: when it is not cancelled,
    the fragments forwarded to the observer, or printed when there is no
    observer and the run is not quiet, are the accepted fragments, in order
    and once each; the observer gets them under the tag (the role name when
    there is no tag) and nothing is printed then; a quiet run without observer
    shows nothing. *)
Theorem stream_shows_what_it_accepts (w w' : world) (collected : list str) :
  stream_collect role_name quiet on_text tag should_stop agent payload_text w
  = (Ok collected, w') ->
  exists new,
    w' = new ++ w
    /\ rev (omap fragment_of new)
       = (if bool_decide (is_Some on_text) || negb quiet then collected else [])
    /\ Forall (stream_event role_name payload_text quiet on_text tag should_stop) new.
Proof.
  intros Hrun.
  assert (Hsub : stream_subagent agent role_name payload_text quiet on_text tag
                   should_stop w = (Ok (join [] collected), w')).
  { unfold stream_subagent, bind. rewrite Hrun. reflexivity. }
  apply stream_subagent_Ok in Hsub. destruct Hsub as (_ & new & Hw & Hev & _).
  apply stream_collect_Ok in Hrun.
  destruct Hrun as (_ & ending & loop & banner & Hw' & He & Hb & _ & Hs).
  exists new. split; [exact Hw|]. split; [|exact Hev].
  assert (Hnew : new = ending ++ loop ++ Invoke (user_msg role_name payload_text)
                         :: banner).
  { rewrite Hw in Hw'. apply (app_inv_tail w). rewrite Hw', <- !app_assoc. reflexivity. }
  assert (Hnone : forall b, Forall (banner_event quiet on_text) b ->
                            omap fragment_of b = []).
  { induction 1 as [|e b Hx _ IH]; [reflexivity|].
    destruct e; try contradiction. exact IH. }
  rewrite Hnew, !omap_app, (Hnone _ He).
  change (omap fragment_of (Invoke (user_msg role_name payload_text) :: banner))
    with (omap fragment_of banner).
  rewrite (Hnone _ Hb), app_nil_r. exact Hs.
Qed.

End StreamProperties.

Lemma stream_accepts_each_normal_form_once_witness :
  NoDup (map (fun t => normalize_short t 300) [u "Searching the web"; arc_research]).
Proof.
  apply (stream_accepts_each_normal_form_once noisy_research_agent (u "research-agent")
           (u "payload") true None (Some (u "research")) None [Invoke (u "planner")]
           (snd (stream_collect (u "research-agent") true None (Some (u "research")) None
                   noisy_research_agent (u "payload") [Invoke (u "planner")]))).
  vm_compute. reflexivity.
Defined.

Lemma stream_accepts_in_order_witness :
  sublist [u "Searching the web"; arc_research]
    (map fst (stream_texts (noisy_research_agent
                              (length (filter is_invoke [Invoke (u "planner")]))
                              (user_msg (u "research-agent") (u "payload")))))
  /\ Forall (passes (u "research-agent")) [u "Searching the web"; arc_research].
Proof.
  apply (stream_accepts_in_order noisy_research_agent (u "research-agent")
           (u "payload") true None (Some (u "research")) None [Invoke (u "planner")]
           (snd (stream_collect (u "research-agent") true None (Some (u "research")) None
                   noisy_research_agent (u "payload") [Invoke (u "planner")]))).
  vm_compute. reflexivity.
Defined.

Lemma stream_shows_what_it_accepts_witness :
  exists new,
    snd (stream_collect (u "research-agent") false (Some failing_observer)
           (Some (u "research")) None noisy_research_agent (u "payload")
           [Invoke (u "planner")])
    = new ++ [Invoke (u "planner")]
    /\ rev (omap fragment_of new) = [u "Searching the web"; arc_research]
    /\ Forall (stream_event (u "research-agent") (u "payload") false
                 (Some failing_observer) (Some (u "research")) None) new.
Proof.
  apply (stream_shows_what_it_accepts noisy_research_agent (u "research-agent")
           (u "payload") false (Some failing_observer)
           (Some (u "research")) None [Invoke (u "planner")]).
  vm_compute. reflexivity.
Defined.

(** ** stream_subagent: what the result does not depend on *)

(** X10: the text that a role invocation returns does not depend on the quiet
    flag, on the observer (which may raise), on the tag, or on a stop
    predicate that does not fire: two invocations that are not cancelled, of
    the same role with the same payload and at the same invocation number of
    the agent, return the same text. *)
Theorem stream_result_ignores_presentation
    (agent : agent_handle) (role_name payload_text : str)
    (quiet1 quiet2 : bool) (on_text1 on_text2 : option observer)
    (tag1 tag2 : option str) (should_stop1 should_stop2 : stop_predicate)
    (w1 w1' w2 w2' : world) (r1 r2 : str) :
  stream_subagent agent role_name payload_text quiet1 on_text1 tag1 should_stop1 w1
  = (Ok r1, w1') ->
  stream_subagent agent role_name payload_text quiet2 on_text2 tag2 should_stop2 w2
  = (Ok r2, w2') ->
  length (filter is_invoke w1) = length (filter is_invoke w2) ->
  r1 = r2.
Proof.
  intros H1 H2 Hn.
  apply stream_subagent_Ok in H1. apply stream_subagent_Ok in H2.
  destruct H1 as [-> _], H2 as [-> _]. rewrite Hn. reflexivity.
Qed.

Lemma stream_result_ignores_presentation_witness :
  fst (stream_subagent noisy_research_agent (u "research-agent") (u "payload")
         true None None None [Invoke (u "planner")])
  = fst (stream_subagent noisy_research_agent (u "research-agent") (u "payload")
           false (Some failing_observer) (Some (u "research")) (stop_from 100)
           [Console (u "banner"); Invoke (u "other")]).
Proof.
  destruct (stream_subagent noisy_research_agent (u "research-agent") (u "payload")
              true None None None [Invoke (u "planner")])
    as [[r1|e1] w1'] eqn:Hrun1;
    [|vm_compute in Hrun1; discriminate].
  destruct (stream_subagent noisy_research_agent (u "research-agent") (u "payload")
              false (Some failing_observer) (Some (u "research")) (stop_from 100)
              [Console (u "banner"); Invoke (u "other")])
    as [[r2|e2] w2'] eqn:Hrun2;
    [|vm_compute in Hrun2; discriminate].
  simpl. f_equal.
  apply (stream_result_ignores_presentation _ _ _ _ _ _ _ _ _ _ _ _ _ _ _ _ _
           Hrun1 Hrun2).
  reflexivity.
Defined.

(** ** run_conversation: the five invocations *)

Lemma invocations_app (a b : list event) :
  invocations (a ++ b) = (length (filter is_invoke a) + invocations b)%nat.
Proof. unfold invocations, world. rewrite filter_app, length_app. reflexivity. Qed.

Lemma lift_world {A} (o : outcome A) (w w' : world) (a : A) :
  lift o w = (Ok a, w') -> o = Ok a /\ w' = w.
Proof. unfold lift. intros [= -> <-]. auto. Qed.

(** A role invocation that is not cancelled, as a stage of a
    conversation. *)
Lemma stage_Ok (agent : agent_handle) (role_name payload_text : str)
    (quiet : bool) (on_text : option observer) (tag : option str)
    (should_stop : stop_predicate) (w w' : world) (r : str) :
  stream_subagent agent role_name payload_text quiet on_text tag should_stop w
  = (Ok r, w') ->
  r = stage_output agent (invocations w) role_name payload_text
  /\ exists new,
       w' = new ++ w
       /\ filter is_invoke new = [Invoke (user_msg role_name payload_text)].
Proof.
  intros Hrun. apply stream_subagent_Ok in Hrun.
  destruct Hrun as (-> & new & -> & _ & Hi).
  split; [reflexivity|]. exists new. auto.
Qed.

Lemma banner_Ok (b : bool) (m : M unit) (w w' : world) (x : unit) :
  (forall u0 u1 y, m u0 = (Ok y, u1) ->
                   exists new, u1 = new ++ u0 /\ filter is_invoke new = []) ->
  when b m w = (Ok x, w') ->
  exists new, w' = new ++ w /\ filter is_invoke new = [].
Proof.
  intros Hm. destruct b; simpl; [apply Hm|].
  unfold ret. intros [= _ <-]. exists []. auto.
Qed.

Lemma emit_Ok (e : event) (w w' : world) (x : unit) :
  emit e w = (Ok x, w') -> w' = e :: w.
Proof. unfold emit. intros [= _ <-]. reflexivity. Qed.

Section Invocations.
Context `{PyRuntime}.
Variables (agent : agent_handle) (question : str) (quiet : bool)
          (on_text : option observer) (research_preference : str)
          (should_stop : stop_predicate).

(** The stages of a completed conversation: each output is the stage output
    of the agent at the next invocation number, and the trace grows by the
    five invocations. *)
Lemma run_conversation_stages (w w' : world) (r : conversation_result) :
  run_conversation agent question quiet on_text research_preference should_stop w
  = (Ok r, w') ->
  exists focus summary new,
    research_focus_of (plan_parsed r) (planner r) question = Ok focus
    /\ research_summary (research_json r) = Ok summary
    /\ planner r
       = stage_output agent (invocations w) (u "planner-agent") (planner_payload question)
    /\ research_raw r
       = stage_output agent (1 + invocations w) (u "research-agent")
           (research_instruction focus (preference_of research_preference))
    /\ candidate r
       = stage_output agent (2 + invocations w) (u "main-agent")
           (assemble_payload (research_json r))
    /\ critic_raw r
       = stage_output agent (3 + invocations w) (u "critic-agent")
           (critic_payload (candidate r) (research_json r))
    /\ final r
       = stage_output agent (4 + invocations w) (u "main-agent")
           (final_payload (candidate r) (critic_json r) summary)
    /\ w' = new ++ w
    /\ rev (filter is_invoke new)
       = [Invoke (user_msg (u "planner-agent") (planner_payload question));
          Invoke (user_msg (u "research-agent")
                    (research_instruction focus (preference_of research_preference)));
          Invoke (user_msg (u "main-agent") (assemble_payload (research_json r)));
          Invoke (user_msg (u "critic-agent")
                    (critic_payload (candidate r) (research_json r)));
          Invoke (user_msg (u "main-agent")
                    (final_payload (candidate r) (critic_json r) summary))].
Proof.
  unfold run_conversation. cbv zeta. intros Hrun.
  bind_inv Hrun banner Hbanner.
  bind_inv Hrun planner_out Hplanner.
  bind_inv Hrun research_focus Hfocus.
  bind_inv Hrun research_out_raw Hresearch.
  bind_inv Hrun evidence Hevidence.
  bind_inv Hrun candidate_out Hcandidate.
  bind_inv Hrun critic_out_raw Hcritic.
  bind_inv Hrun summary Hsummary.
  bind_inv Hrun final_out Hfinal.
  bind_inv Hrun footer Hfooter.
  unfold ret in Hrun. injection Hrun as <- <-. cbn [plan_parsed planner research_json
    research_raw candidate critic_raw critic_json final].
  apply banner_Ok in Hbanner;
    [|intros u0 u1 y Hy; apply emit_Ok in Hy; subst u1; eexists [_];
      split; reflexivity].
  destruct Hbanner as (b0 & -> & Hb0).
  apply stage_Ok in Hplanner. destruct Hplanner as (Hp & n1 & -> & Hn1).
  apply lift_world in Hfocus. destruct Hfocus as [Hfocus ->].
  apply stage_Ok in Hresearch. destruct Hresearch as (Hr & n2 & -> & Hn2).
  apply lift_world in Hevidence. destruct Hevidence as [Hevidence ->].
  apply stage_Ok in Hcandidate. destruct Hcandidate as (Hc & n3 & -> & Hn3).
  apply stage_Ok in Hcritic. destruct Hcritic as (Hk & n4 & -> & Hn4).
  apply lift_world in Hsummary. destruct Hsummary as [Hsummary ->].
  apply stage_Ok in Hfinal. destruct Hfinal as (Hf & n5 & -> & Hn5).
  apply banner_Ok in Hfooter.
  2:{ intros u0 u1 y Hy. bind_inv Hy y1 Hy1. bind_inv Hy y2 Hy2.
      apply emit_Ok in Hy1, Hy2, Hy. subst.
      eexists [_; _; _]. split; reflexivity. }
  destruct Hfooter as (b1 & -> & Hb1).
  rewrite invocations_app, Hb0 in Hp.
  rewrite !invocations_app, Hn1, Hb0 in Hr.
  rewrite !invocations_app, Hn2, Hn1, Hb0 in Hc.
  rewrite !invocations_app, Hn3, Hn2, Hn1, Hb0 in Hk.
  rewrite !invocations_app, Hn4, Hn3, Hn2, Hn1, Hb0 in Hf.
  cbn [length Nat.add] in Hp, Hr, Hc, Hk, Hf.
  exists research_focus, summary, (b1 ++ n5 ++ n4 ++ n3 ++ n2 ++ n1 ++ b0).
  split; [exact Hfocus|]. split; [exact Hsummary|].
  split; [exact Hp|]. split; [exact Hr|]. split; [exact Hc|]. split; [exact Hk|].
  split; [exact Hf|].
  split; [rewrite <- !app_assoc; reflexivity|].
  rewrite !filter_app, Hb0, Hb1, Hn1, Hn2, Hn3, Hn4, Hn5. reflexivity.
Qed.

End Invocations.

Section Conversation.
Context `{PyRuntime}.
Variables (agent : agent_handle) (question : str).

(** X12: a completed conversation invokes the agent exactly five times, in the
    order planner, research, main, critic, main, each time with the envelope
    of the role and the payload built from the question and from the outputs
    kept in the returned record. *)
Theorem run_conversation_invocations
    (quiet : bool) (on_text : option observer) (research_preference : str)
    (should_stop : stop_predicate) (w w' : world) (r : conversation_result) :
  run_conversation agent question quiet on_text research_preference should_stop w
  = (Ok r, w') ->
  exists focus summary new,
    w' = new ++ w
    /\ research_focus_of (plan_parsed r) (planner r) question = Ok focus
    /\ research_summary (research_json r) = Ok summary
    /\ rev (filter is_invoke new)
       = [Invoke (user_msg (u "planner-agent") (planner_payload question));
          Invoke (user_msg (u "research-agent")
                    (research_instruction focus (preference_of research_preference)));
          Invoke (user_msg (u "main-agent") (assemble_payload (research_json r)));
          Invoke (user_msg (u "critic-agent")
                    (critic_payload (candidate r) (research_json r)));
          Invoke (user_msg (u "main-agent")
                    (final_payload (candidate r) (critic_json r) summary))].
Proof.
  intros Hrun. apply run_conversation_stages in Hrun.
  destruct Hrun as (focus & summary & new & Hf & Hs & _ & _ & _ & _ & _ & Hw & Hi).
  exists focus, summary, new. auto.
Qed.

(** X13: the record that a conversation returns does not depend on the quiet
    flag, on the observer (which may raise) or on a stop predicate that does
    not fire: two completed conversations on the same question with the same
    preference, started at the same invocation number of the agent, return the
    same record. *)
Theorem run_conversation_ignores_presentation
    (research_preference : str)
    (quiet1 quiet2 : bool) (on_text1 on_text2 : option observer)
    (should_stop1 should_stop2 : stop_predicate)
    (w1 w1' w2 w2' : world) (r1 r2 : conversation_result) :
  run_conversation agent question quiet1 on_text1 research_preference should_stop1 w1
  = (Ok r1, w1') ->
  run_conversation agent question quiet2 on_text2 research_preference should_stop2 w2
  = (Ok r2, w2') ->
  length (filter is_invoke w1) = length (filter is_invoke w2) ->
  r1 = r2.
Proof.
  intros H1 H2 Hn.
  pose proof (run_conversation_result _ _ _ _ _ _ _ _ _ H1)
    as (Hq1 & Hp1 & Hr1 & Hc1 & e1 & He1 & Hw1).
  pose proof (run_conversation_result _ _ _ _ _ _ _ _ _ H2)
    as (Hq2 & Hp2 & Hr2 & Hc2 & e2 & He2 & Hw2).
  apply run_conversation_stages in H1, H2.
  destruct H1 as (f1 & s1 & n1 & Hf1 & Hs1 & Hpl1 & Hrr1 & Hca1 & Hcr1 & Hfi1 & _).
  destruct H2 as (f2 & s2 & n2 & Hf2 & Hs2 & Hpl2 & Hrr2 & Hca2 & Hcr2 & Hfi2 & _).
  change (invocations w1 = invocations w2) in Hn.
  rewrite Hn in Hpl1, Hrr1, Hca1, Hcr1, Hfi1.
  assert (Epl : planner r1 = planner r2) by (rewrite Hpl1, Hpl2; reflexivity).
  assert (Epp : plan_parsed r1 = plan_parsed r2) by (rewrite Hp1, Hp2, Epl; reflexivity).
  rewrite Epp, Epl, Hf2 in Hf1. injection Hf1 as <-.
  assert (Err : research_raw r1 = research_raw r2) by (rewrite Hrr1, Hrr2; reflexivity).
  assert (Erj : research_json r1 = research_json r2) by (rewrite Hr1, Hr2, Err; reflexivity).
  assert (Eca : candidate r1 = candidate r2) by (rewrite Hca1, Hca2, Erj; reflexivity).
  assert (Ecr : critic_raw r1 = critic_raw r2)
    by (rewrite Hcr1, Hcr2, Eca, Erj; reflexivity).
  assert (Ecj : critic_json r1 = critic_json r2) by (rewrite Hc1, Hc2, Ecr; reflexivity).
  rewrite Erj, Hs2 in Hs1. injection Hs1 as <-.
  assert (Efi : final r1 = final r2) by (rewrite Hfi1, Hfi2, Eca, Ecj; reflexivity).
  rewrite Erj, He2 in He1. injection He1 as <-.
  assert (Ew : warnings r1 = warnings r2) by (rewrite Hw1, Hw2, Erj; reflexivity).
  assert (Eq : user_question r1 = user_question r2) by (rewrite Hq1, Hq2; reflexivity).
  clear - Eq Epl Epp Err Erj Eca Ecr Ecj Efi Ew.
  destruct r1, r2. simpl in *. congruence.
Qed.

(** X14: in every returned record the research artifact is a dict with at
    least one key. *)
Theorem research_json_is_a_nonempty_dict
    (quiet : bool) (on_text : option observer) (research_preference : str)
    (should_stop : stop_predicate) (w w' : world) (r : conversation_result) :
  run_conversation agent question quiet on_text research_preference should_stop w
  = (Ok r, w') ->
  exists k v kv, research_json r = JObj ((k, v) :: kv).
Proof.
  intros Hrun. apply run_conversation_result in Hrun.
  destruct Hrun as (_ & _ & Hr & _ & evidence & He & _).
  destruct (research_json r) as [| | | | | |kv] eqn:Hj; try discriminate.
  destruct kv as [|[k v] kv]; [|eauto].
  destruct (truthy (loads_or_extract (research_raw r))) eqn:Ht.
  - rewrite <- Hr in Ht. discriminate.
  - discriminate.
Qed.

(** X15: when the research output gives no true parsed value, the record holds
    the minimal fallback and exactly two warnings: the one about missing
    evidence, then the one about the tool of the preference in force (Tavily
    when the preference starts with tav in any case, Firecrawl otherwise). *)
Theorem unparsed_research_gives_two_warnings
    (quiet : bool) (on_text : option observer) (research_preference : str)
    (should_stop : stop_predicate) (w w' : world) (r : conversation_result) :
  run_conversation agent question quiet on_text research_preference should_stop w
  = (Ok r, w') ->
  truthy (loads_or_extract (research_raw r)) = false ->
  research_json r = research_fallback (research_raw r)
  /\ warnings r
     = [no_evidence_warning;
        if startswith (u "tav") (lower research_preference)
        then tavily_warning else firecrawl_warning].
Proof.
  intros Hrun Ht. apply run_conversation_result in Hrun.
  destruct Hrun as (_ & _ & Hr & _ & evidence & He & Hw).
  rewrite Ht in Hr. split; [exact Hr|].
  rewrite Hw. rewrite Hr in He |- *.
  assert (evidence = false) as ->.
  { cbv in He. congruence. }
  unfold preference_of.
  destruct (startswith (u "tav") (lower research_preference)); reflexivity.
Qed.

(** X16: the tool policy compares names in lower case: when method.tools_used
    of the research record lists a string that contains, in any mix of cases,
    the name of the tool of the preference in force (internet_search under
    tavily, firecrawl otherwise), the only warning that the record can hold is
    the one about missing evidence. *)
Theorem tool_names_match_in_any_case
    (quiet : bool) (on_text : option observer) (research_preference : str)
    (should_stop : stop_predicate) (w w' : world) (r : conversation_result)
    (kv m : list (str * json)) (l : list json) (s : str) :
  run_conversation agent question quiet on_text research_preference should_stop w
  = (Ok r, w') ->
  research_json r = JObj kv ->
  dict_get (u "method") kv = Some (JObj m) ->
  dict_get (u "tools_used") m = Some (JArr l) ->
  In (JStr s) l ->
  contains (if startswith (u "tav") (lower research_preference)
            then u "internet_search" else u "firecrawl") (lower s) = true ->
  Forall (fun x => x = no_evidence_warning) (warnings r).
Proof.
  intros Hrun Hkv Hm Hl Hin Hs. apply run_conversation_result in Hrun.
  destruct Hrun as (_ & _ & _ & _ & evidence & _ & Hw).
  rewrite Hw, Hkv. apply Forall_app. split.
  { destruct evidence; repeat constructor. }
  assert (Hused : In (lower s) (tools_used_of (JObj kv))).
  { unfold tools_used_of. simpl. rewrite Hm. simpl. rewrite Hl.
    apply (in_map (fun x => lower (py_str x)) l (JStr s)). exact Hin. }
  unfold tool_warnings, preference_of.
  destruct (startswith (u "tav") (lower research_preference)).
  - rewrite bool_decide_eq_true_2 by reflexivity.
    replace (existsb _ _) with true; [constructor|].
    symmetry. apply existsb_exists. exists (lower s). auto.
  - rewrite bool_decide_eq_false_2 by discriminate.
    replace (existsb _ _) with true; [constructor|].
    symmetry. apply existsb_exists. exists (lower s). auto.
Qed.

(** X17: a plan that parses as a non-empty list whose first element is not a
    dict aborts the conversation: the AttributeError of the lookup of its
    description is raised right after the planner stage, and no other stage is
    invoked. *)
Theorem plan_of_scalars_aborts
    (quiet : bool) (on_text : option observer) (research_preference : str)
    (should_stop : stop_predicate) (w w1 : world) (planner_out : str)
    (first : json) (rest : list json) :
  planner_stage agent question quiet on_text should_stop w = (Ok planner_out, w1) ->
  loads_or_extract planner_out = JArr (first :: rest) ->
  (forall kv, first <> JObj kv) ->
  run_conversation agent question quiet on_text research_preference should_stop w
  = (Raise AttributeError, w1).
Proof.
  intros Hstage Hplan Hfirst.
  unfold planner_stage in Hstage. apply bind_Ok in Hstage.
  destruct Hstage as (banner & w0 & Hbanner & Hstream).
  unfold run_conversation. cbv zeta.
  unfold bind at 1. rewrite Hbanner.
  unfold bind at 1. rewrite Hstream.
  unfold bind at 1. unfold lift at 1. rewrite Hplan.
  unfold research_focus_of. cbn [truthy].
  destruct first; try reflexivity. exfalso. eapply Hfirst. reflexivity.
Qed.

End Conversation.

(** X18: the research focus is a true value, so never an empty text, as soon
    as the question is not empty or the output of the planner has a character
    that is not whitespace. *)
Theorem research_focus_is_not_empty `{PyRuntime}
    (plan : json) (planner_out user_question : str) (d : json) :
  research_focus_of plan planner_out user_question = Ok d ->
  user_question <> [] \/ Exists (fun c => isspace c = false) planner_out ->
  truthy d = true.
Proof.
  intros Hd Hsome.
  assert (Hor : forall a b, truthy b = true -> truthy (py_or a b) = true).
  { intros a b Hb. unfold py_or. destruct (truthy a) eqn:Ha; assumption. }
  assert (Hol : forall a b, truthy a = true -> truthy (py_or a b) = true).
  { intros a b Ha. unfold py_or. rewrite Ha. exact Ha. }
  assert (Hotherwise :
            truthy (py_or (extract_first_step_description planner_out)
                          (JStr user_question)) = true).
  { destruct Hsome as [Hq|Hp].
    - apply Hor. destruct user_question; [congruence | reflexivity].
    - apply Hol.
      destruct (truthy (extract_first_step_description planner_out)) eqn:Ht;
        [reflexivity|].
      apply (first_step_blank planner_out) in Ht.
      apply (first_step_blank planner_out) in Ht.
      apply List.Exists_exists in Hp. destruct Hp as (c & Hin & Hc).
      rewrite List.Forall_forall in Ht. apply Ht in Hin. congruence. }
  unfold research_focus_of in Hd.
  destruct (truthy plan) eqn:Hplan; [|injection Hd as <-; exact Hotherwise].
  destruct plan as [| | | | |l|kv]; try (injection Hd as <-; exact Hotherwise).
  - destruct l as [|first l]; [discriminate|].
    destruct first; try discriminate. simpl in Hd. injection Hd as <-.
    apply Hor. destruct kv; reflexivity.
  - injection Hd as <-.
    destruct (first_listed_entry kv) as [entry|].
    + apply Hol, Hol, description_or_dump_truthy.
    + unfold py_or at 2. cbn [truthy]. exact Hotherwise.
Qed.

Lemma run_conversation_invocations_witness :
  match run_conversation arc_agent arc_question true None (u "tavily") None [] with
  | (Ok r, w') =>
      exists focus summary new,
        w' = new ++ []
        /\ research_focus_of (plan_parsed r) (planner r) arc_question = Ok focus
        /\ research_summary (research_json r) = Ok summary
        /\ rev (filter is_invoke new)
           = [Invoke (user_msg (u "planner-agent") (planner_payload arc_question));
              Invoke (user_msg (u "research-agent")
                        (research_instruction focus (preference_of (u "tavily"))));
              Invoke (user_msg (u "main-agent") (assemble_payload (research_json r)));
              Invoke (user_msg (u "critic-agent")
                        (critic_payload (candidate r) (research_json r)));
              Invoke (user_msg (u "main-agent")
                        (final_payload (candidate r) (critic_json r) summary))]
  | (Raise _, _) => False
  end.
Proof.
  destruct (run_conversation arc_agent arc_question true None (u "tavily") None [])
    as [[r|e] w'] eqn:Hrun.
  - exact (run_conversation_invocations _ _ _ _ _ _ _ _ _ Hrun).
  - vm_compute in Hrun. discriminate.
Defined.

Lemma run_conversation_ignores_presentation_witness :
  match fst (run_conversation arc_agent arc_question true None (u "tavily") None []),
        fst (run_conversation arc_agent arc_question false (Some failing_observer)
               (u "tavily") (stop_from 1000) [Console (u "earlier output")]) with
  | Ok r1, Ok r2 => r1 = r2
  | _, _ => False
  end.
Proof.
  destruct (run_conversation arc_agent arc_question true None (u "tavily") None [])
    as [[r1|e1] w1'] eqn:Hrun1;
    [|vm_compute in Hrun1; discriminate].
  destruct (run_conversation arc_agent arc_question false (Some failing_observer)
              (u "tavily") (stop_from 1000) [Console (u "earlier output")])
    as [[r2|e2] w2'] eqn:Hrun2;
    [|vm_compute in Hrun2; discriminate].
  simpl. apply (run_conversation_ignores_presentation _ _ _ _ _ _ _ _ _ _ _ _ _ _ _
                  Hrun1 Hrun2).
  reflexivity.
Defined.

Lemma research_json_is_a_nonempty_dict_witness :
  match fst (run_conversation arc_agent arc_question true None (u "tavily") None []) with
  | Ok r => exists k v kv, research_json r = JObj ((k, v) :: kv)
  | Raise _ => False
  end.
Proof.
  destruct (run_conversation arc_agent arc_question true None (u "tavily") None [])
    as [[r|e] w'] eqn:Hrun; cbn [fst].
  - exact (research_json_is_a_nonempty_dict _ _ _ _ _ _ _ _ _ Hrun).
  - vm_compute in Hrun. discriminate.
Defined.

Lemma unparsed_research_gives_two_warnings_witness :
  match fst (run_conversation prose_research_agent arc_question true None
               (u "firecrawl") None []) with
  | Ok r =>
      research_json r = research_fallback (research_raw r)
      /\ warnings r
         = [no_evidence_warning;
            if startswith (u "tav") (lower (u "firecrawl"))
            then tavily_warning else firecrawl_warning]
  | Raise _ => False
  end.
Proof.
  destruct (run_conversation prose_research_agent arc_question true None
              (u "firecrawl") None [])
    as [[r|e] w'] eqn:Hrun; cbn [fst].
  - assert (Hraw : research_raw r = u "Nothing useful was found").
    { pose proof Hrun as Hc. vm_compute in Hc. injection Hc as <- _. reflexivity. }
    apply (unparsed_research_gives_two_warnings _ _ _ _ _ _ _ _ _ Hrun).
    rewrite Hraw. vm_compute. reflexivity.
  - vm_compute in Hrun. discriminate.
Defined.

Lemma tool_names_match_in_any_case_witness :
  match fst (run_conversation capitals_research_agent arc_question true None
               (u "firecrawl") None []) with
  | Ok r => Forall (fun x => x = no_evidence_warning) (warnings r)
  | Raise _ => False
  end.
Proof.
  destruct (run_conversation capitals_research_agent arc_question true None
              (u "firecrawl") None [])
    as [[r|e] w'] eqn:Hrun; cbn [fst].
  - assert (Hr : research_json r
                 = JObj [(u "answer", JStr (u "A benchmark"));
                         (u "method",
                           JObj [(u "tools_used", JArr [JStr (u "Firecrawl.Scrape")])])]).
    { pose proof Hrun as Hc. vm_compute in Hc. injection Hc as <- _. reflexivity. }
    apply (tool_names_match_in_any_case _ _ _ _ _ _ _ _ _ _ _ _ (u "Firecrawl.Scrape")
             Hrun Hr eq_refl eq_refl).
    + left. reflexivity.
    + vm_compute. reflexivity.
  - vm_compute in Hrun. discriminate.
Defined.

Lemma plan_of_scalars_aborts_witness :
  run_conversation scalar_plan_agent arc_question true None (u "firecrawl") None []
  = (Raise AttributeError,
     snd (planner_stage scalar_plan_agent arc_question true None None [])).
Proof.
  apply (plan_of_scalars_aborts scalar_plan_agent arc_question true None (u "firecrawl")
           None [] _ (jtext "['look it up', 'write the answer']")
           (JStr (u "look it up")) [JStr (u "write the answer")]).
  - vm_compute. reflexivity.
  - vm_compute. reflexivity.
  - intros kv. discriminate.
Defined.

Lemma research_focus_is_not_empty_witness :
  truthy (JStr (u "no plan, sorry...")) = true.
Proof.
  apply (research_focus_is_not_empty JNull (u "No plan, sorry") []).
  - vm_compute. reflexivity.
  - right. apply Exists_cons_hd. reflexivity.
Defined.

(** ** run_conversation without a stop predicate *)

(** The events of a role invocation, whatever its outcome. *)
Lemma holds_stream_subagent (P : event -> Prop) (agent : agent_handle)
    (role_name payload_text : str) (quiet : bool) (on_text : option observer)
    (tag : option str) (should_stop : stop_predicate) :
  (is_Some should_stop -> forall b, P (Poll b)) ->
  (forall c, P (Invoke c)) ->
  (forall t, P (Console t)) ->
  (forall t, on_text = None -> P (Echo role_name t)) ->
  (forall t k, is_Some on_text -> P (Forward (tag_or tag role_name) t k)) ->
  holds (stream_subagent agent role_name payload_text quiet on_text tag should_stop)
        P (fun _ => True).
Proof.
  intros Hpoll Hinvoke Hconsole Hecho Hforward.
  assert (Hp : holds (poll_stop should_stop) P (fun _ => True)).
  { destruct should_stop as [g|].
    - apply holds_poll_stop. apply Hpoll. eexists. reflexivity.
    - apply holds_ret. exact I. }
  unfold stream_subagent, stream_collect.
  apply holds_bind with (Q := fun _ => True); [|intros; apply holds_ret; exact I].
  apply holds_bind with (Q := fun _ => True).
  { apply holds_when, holds_emit, Hconsole. }
  intros _ _. apply holds_bind with (Q := fun _ => True).
  { apply holds_astream, Hinvoke. }
  intros chunks _. apply holds_bind with (Q := fun _ => True).
  { apply holds_foldM with (I := fun _ => True); [|exact I].
    intros st c _. unfold handle_chunk.
    apply holds_bind with (Q := fun _ => True); [exact Hp|].
    intros _ _. apply holds_foldM with (I := fun _ => True); [|exact I].
    intros [collected seen] [t k] _. unfold handle_text.
    apply holds_bind with (Q := fun _ => True); [exact Hp|].
    intros _ _. destruct (dropped _ _ seen t); [apply holds_ret; exact I|].
    apply holds_bind with (Q := fun _ => True); [|intros; apply holds_ret; exact I].
    destruct on_text as [f|].
    - apply holds_notify, Hforward. eexists. reflexivity.
    - apply holds_when, holds_emit, Hecho. reflexivity. }
  intros st _. apply holds_bind with (Q := fun _ => True).
  { apply holds_when, holds_emit, Hconsole. }
  intros _ _. apply holds_ret. exact I.
Qed.

(** ** stream_subagent: the observer cannot fail an invocation *)

Lemma bind_ext {A B} (m1 m2 : M A) (k1 k2 : A -> M B) (w : world) :
  m1 w = m2 w -> (forall a w', k1 a w' = k2 a w') -> bind m1 k1 w = bind m2 k2 w.
Proof.
  intros Hm Hk. unfold bind. rewrite Hm.
  destruct (m2 w) as [[a|e] w']; [apply Hk | reflexivity].
Qed.

Lemma foldM_ext {A S} (f g : S -> A -> M S) :
  (forall s a w, f s a w = g s a w) ->
  forall l s w, foldM f l s w = foldM g l s w.
Proof.
  intros Hfg. induction l as [|a l IH]; intros s w; [reflexivity|].
  cbn [foldM]. apply bind_ext; [apply Hfg | intros s' w'; apply IH].
Qed.

Lemma handle_text_any_observer (role_name : str) (quiet : bool) (f g : observer)
    (tag : option str) (should_stop : stop_predicate)
    (st : list str * gset str) (tk : str * kind) (w : world) :
  handle_text role_name quiet (Some f) tag should_stop st tk w
  = handle_text role_name quiet (Some g) tag should_stop st tk w.
Proof.
  unfold handle_text. destruct st as [collected seen], tk as [t k].
  apply bind_ext; [reflexivity|]. intros _ w1.
  destruct (dropped _ _ seen t); [reflexivity|].
  apply bind_ext; [|reflexivity].
  rewrite !notify_runs. reflexivity.
Qed.

(** X11: an exception of the observer (an instance of Exception, which the
    handler around the call catches) never escapes a role invocation and
    changes nothing in it: with any two observers, whatever they raise, the
    invocation has the same outcome and leaves the same events (the polls,
    the call of the agent, the calls of the observer).  And without a stop
    predicate a role invocation never polls. *)
Theorem observer_cannot_fail_a_stream
    (agent : agent_handle) (role_name payload_text : str) (quiet : bool)
    (f g : observer) (on_text : option observer) (tag : option str)
    (should_stop : stop_predicate) (w : world) :
  stream_subagent agent role_name payload_text quiet (Some f) tag should_stop w
  = stream_subagent agent role_name payload_text quiet (Some g) tag should_stop w
  /\ exists new,
       snd (stream_subagent agent role_name payload_text quiet on_text tag None w)
       = new ++ w
       /\ Forall (fun e => is_poll e = false) new.
Proof.
  split.
  - unfold stream_subagent, stream_collect.
    apply bind_ext; [|reflexivity].
    apply bind_ext; [reflexivity|]. intros _ w1.
    apply bind_ext; [reflexivity|]. intros chunks w2.
    apply bind_ext; [|reflexivity].
    apply foldM_ext. intros st c w3. unfold handle_chunk.
    apply bind_ext; [reflexivity|]. intros _ w4.
    apply foldM_ext. intros st' tk w5. apply handle_text_any_observer.
  - destruct (holds_stream_subagent (fun e => is_poll e = false) agent role_name
                payload_text quiet on_text tag None) with (w := w)
      as (new & Hw & Hnew & _); try (intros; reflexivity).
    + intros [p Hp]. discriminate.
    + exists new. split; assumption.
Qed.

Section NoStop.
Context `{PyRuntime}.



End NoStop.

(** ** The observer sees the stages in order *)

Lemma blocks_app (ts1 ts2 : list str) (ks1 ks2 : list nat) :
  length ks1 = length ts1 ->
  blocks (ts1 ++ ts2) (ks1 ++ ks2) = blocks ts1 ks1 ++ blocks ts2 ks2.
Proof.
  revert ks1. induction ts1 as [|t ts1 IH]; intros [|k ks1] Hlen; try discriminate.
  - reflexivity.
  - cbn [app blocks length] in *. rewrite IH by lia. rewrite app_assoc. reflexivity.
Qed.

Lemma blocks_zeros (ts : list str) : blocks ts (repeat O (length ts)) = [].
Proof. induction ts as [|t ts IH]; [reflexivity | exact IH]. Qed.

Lemma forwarded_tags_app (n2 n1 : list event) :
  forwarded_tags (n2 ++ n1) = forwarded_tags n1 ++ forwarded_tags n2.
Proof. unfold forwarded_tags. rewrite omap_app, rev_app_distr. reflexivity. Qed.

Lemma tagged_bind {A B} (ts1 ts2 : list str) (m : M A) (f : A -> M B) :
  tagged ts1 m -> (forall a, tagged ts2 (f a)) -> tagged (ts1 ++ ts2) (bind m f).
Proof.
  intros Hm Hf w. unfold bind.
  destruct (Hm w) as (n1 & ks1 & Hw1 & Hl1 & Ht1).
  destruct (m w) as [[a|e] w1]; simpl in Hw1; subst w1.
  - destruct (Hf a (n1 ++ w)) as (n2 & ks2 & Hw2 & Hl2 & Ht2).
    exists (n2 ++ n1), (ks1 ++ ks2). rewrite Hw2, app_assoc.
    split; [reflexivity|]. split; [rewrite !length_app; lia|].
    rewrite forwarded_tags_app, blocks_app, Ht1, Ht2 by exact Hl1. reflexivity.
  - exists n1, (ks1 ++ repeat O (length ts2)). split; [reflexivity|].
    split; [rewrite !length_app, repeat_length; lia|].
    rewrite blocks_app, blocks_zeros, app_nil_r by exact Hl1. exact Ht1.
Qed.

Lemma omap_cons {A B} (f : A -> option B) (x : A) (l : list A) :
  omap f (x :: l)
  = match f x with Some y => y :: omap f l | None => omap f l end.
Proof. reflexivity. Qed.

Lemma tagged_silent {A} (m : M A) (Q : A -> Prop) :
  holds m (fun e => forward_tag e = None) Q -> tagged [] m.
Proof.
  intros Hm w. destruct (Hm w) as (new & Hw & Hnew & _).
  exists new, []. split; [exact Hw|]. split; [reflexivity|].
  unfold forwarded_tags. replace (omap forward_tag new) with (@nil str); [reflexivity|].
  clear -Hnew. induction Hnew as [|e new He _ IH]; [reflexivity|].
  rewrite omap_cons, He. exact IH.
Qed.

Lemma rev_repeat_same {A} (x : A) (k : nat) : rev (repeat x k) = repeat x k.
Proof.
  induction k as [|k IH]; [reflexivity|].
  cbn [repeat rev]. rewrite IH. symmetry. apply repeat_cons.
Qed.

Lemma tagged_stream_subagent (agent : agent_handle) (role_name payload_text : str)
    (quiet : bool) (on_text : option observer) (tag : option str)
    (should_stop : stop_predicate) :
  tagged [tag_or tag role_name]
    (stream_subagent agent role_name payload_text quiet on_text tag should_stop).
Proof.
  intros w.
  destruct (holds_stream_subagent
              (fun e => forward_tag e = None
                        \/ forward_tag e = Some (tag_or tag role_name))
              agent role_name payload_text quiet on_text tag should_stop) with (w := w)
    as (new & Hw & Hnew & _); try (intros; left; reflexivity).
  { intros; right; reflexivity. }
  assert (Hrep : exists k, omap forward_tag new = repeat (tag_or tag role_name) k).
  { clear -Hnew. induction Hnew as [|e new He _ [k IH]]; [exists O; reflexivity|].
    rewrite omap_cons. destruct He as [->| ->]; [exists k; exact IH|].
    exists (S k). cbn [repeat]. rewrite IH. reflexivity. }
  destruct Hrep as [k Hk]. exists new, [k]. split; [exact Hw|]. split; [reflexivity|].
  unfold forwarded_tags. rewrite Hk, rev_repeat_same. cbn [blocks].
  rewrite app_nil_r. reflexivity.
Qed.

(** X20: the observer sees the stages in order: whatever the outcome of a
    conversation, the tags of the calls of the observer are, in the order of
    the calls, planner any number of times, then research, then reasoning,
    then critic, then final. *)
Theorem observer_sees_stages_in_order `{PyRuntime}
    (agent : agent_handle) (question : str) (quiet : bool) (on_text : option observer)
    (research_preference : str) (should_stop : stop_predicate) (w : world) :
  exists new k1 k2 k3 k4 k5,
    snd (run_conversation agent question quiet on_text research_preference
           should_stop w) = new ++ w
    /\ forwarded_tags new
       = repeat (u "planner") k1 ++ repeat (u "research") k2
         ++ repeat (u "reasoning") k3 ++ repeat (u "critic") k4
         ++ repeat (u "final") k5.
Proof.
  assert (Hsilent : forall (b : bool) (t : str), tagged [] (when b (emit (Console t)))).
  { intros b t. apply tagged_silent with (Q := fun _ => True).
    apply holds_when, holds_emit. reflexivity. }
  assert (Hlift : forall (A : Type) (o : outcome A), tagged [] (lift o)).
  { intros A o. apply tagged_silent with (Q := fun _ => True). apply holds_lift. }
  assert (Hrun : tagged [u "planner"; u "research"; u "reasoning"; u "critic"; u "final"]
                   (run_conversation agent question quiet on_text research_preference
                      should_stop)).
  { unfold run_conversation. cbv zeta.
    apply (tagged_bind [] [_; _; _; _; _]); [apply Hsilent|]. intros _.
    apply (tagged_bind [_] [_; _; _; _]);
      [apply (tagged_stream_subagent _ _ _ _ _ (Some (u "planner")))|]. intros planner_out.
    apply (tagged_bind [] [_; _; _; _]); [apply Hlift|]. intros focus.
    apply (tagged_bind [_] [_; _; _]);
      [apply (tagged_stream_subagent _ _ _ _ _ (Some (u "research")))|]. intros raw.
    apply (tagged_bind [] [_; _; _]); [apply Hlift|]. intros evidence.
    apply (tagged_bind [_] [_; _]);
      [apply (tagged_stream_subagent _ _ _ _ _ (Some (u "reasoning")))|]. intros cand.
    apply (tagged_bind [_] [_]);
      [apply (tagged_stream_subagent _ _ _ _ _ (Some (u "critic")))|]. intros critic.
    apply (tagged_bind [] [_]); [apply Hlift|]. intros summary.
    apply (tagged_bind [_] []);
      [apply (tagged_stream_subagent _ _ _ _ _ (Some (u "final")))|]. intros final_out.
    apply (tagged_bind [] []).
    - apply tagged_silent with (Q := fun _ => True).
      apply holds_when.
      apply holds_bind with (Q := fun _ => True); [apply holds_emit; reflexivity|].
      intros _ _.
      apply holds_bind with (Q := fun _ => True); [apply holds_emit; reflexivity|].
      intros _ _. apply holds_emit. reflexivity.
    - intros _. apply tagged_silent with (Q := fun _ => True). apply holds_ret. exact I. }
  destruct (Hrun w) as (new & ks & Hw & Hlen & Hts).
  destruct ks as [|k1 [|k2 [|k3 [|k4 [|k5 [|k6 ks]]]]]]; try discriminate.
  exists new, k1, k2, k3, k4, k5. split; [exact Hw|].
  rewrite Hts. cbn [blocks]. rewrite app_nil_r. reflexivity.
Qed.

(** ** The test for an echo of the registered prompt *)

Lemma startswith_same_length (p s : str) :
  startswith p s = true -> length s = length p -> s = p.
Proof.
  revert s. induction p as [|a p IH]; intros [|b s] Hs Hlen; try discriminate.
  - reflexivity.
  - cbn [startswith] in Hs. apply andb_true_iff in Hs. destruct Hs as [Hab Hs].
    apply N.eqb_eq in Hab. subst b. f_equal. apply IH; [exact Hs|].
    cbn [length] in Hlen. lia.
Qed.

Lemma contains_length (needle hay : str) :
  contains needle hay = true -> (length needle <= length hay)%nat.
Proof.
  induction hay as [|c hay IH]; cbn [contains]; intros Hc.
  - rewrite orb_false_r in Hc. apply startswith_length in Hc. exact Hc.
  - apply orb_true_iff in Hc. destruct Hc as [Hc|Hc].
    + apply startswith_length in Hc. exact Hc.
    + apply IH in Hc. cbn [length]. lia.
Qed.

Lemma contains_same_length (needle hay : str) :
  contains needle hay = true -> (length hay <= length needle)%nat -> hay = needle.
Proof.
  intros Hc Hlen. destruct hay as [|c hay]; cbn [contains] in Hc.
  - rewrite orb_false_r in Hc. apply startswith_same_length; [exact Hc|].
    apply startswith_length in Hc. lia.
  - apply orb_true_iff in Hc. destruct Hc as [Hc|Hc].
    + apply startswith_same_length; [exact Hc|].
      apply startswith_length in Hc. lia.
    + apply contains_length in Hc. cbn [length] in Hlen. lia.
Qed.

Lemma startswith_refl (s : str) : startswith s s = true.
Proof. induction s as [|c s IH]; [reflexivity|]. cbn [startswith]. rewrite N.eqb_refl. exact IH. Qed.

Lemma contains_refl (s : str) : contains s s = true.
Proof. destruct s; cbn [contains]; rewrite startswith_refl; reflexivity. Qed.

(** X21: for the four registered roles the normal form of the registered
    prompt fills the 300 characters, so the test for an echo of the prompt is
    a test of equality: it drops a fragment exactly when the normal form of
    the fragment, cut at 300 characters, is that of the prompt. *)
Theorem prompt_echo_test_is_equality (role_name t : str) :
  In role_name [u "planner-agent"; u "research-agent"; u "critic-agent"; u "main-agent"] ->
  let nrp := normalize_short (SUB_PROMPTS role_name) 300 in
  nonempty nrp && contains nrp (normalize_short t 300) = true
  <-> normalize_short t 300 = nrp.
Proof.
  intros Hrole nrp.
  assert (Hlen : length nrp = 300%nat).
  { subst nrp. cbn [In] in Hrole.
    destruct Hrole as [<-|[<-|[<-|[<-|[]]]]]; vm_compute; reflexivity. }
  assert (Ht : (length (normalize_short t 300) <= 300)%nat).
  { unfold normalize_short, slice_to. cbn. rewrite length_take. lia. }
  split.
  - intros Hc. apply andb_true_iff in Hc. destruct Hc as [_ Hc].
    apply contains_same_length; [exact Hc | lia].
  - intros ->. rewrite contains_refl, andb_true_r.
    destruct nrp; [discriminate | reflexivity].
Qed.

Lemma prompt_echo_test_is_equality_witness :
  let nrp := normalize_short (SUB_PROMPTS (u "research-agent")) 300 in
  nonempty nrp && contains nrp (normalize_short (u "Sure! " ++ research_prompt) 300) = true
  <-> normalize_short (u "Sure! " ++ research_prompt) 300 = nrp.
Proof.
  apply (prompt_echo_test_is_equality (u "research-agent") (u "Sure! " ++ research_prompt)).
  right. left. reflexivity.
Defined.

(** ** json.dumps then json.loads: strings, and the payload of the planner *)

Lemma hex_val_digit (n : N) : n < 16 -> hex_val (hex_digit n) = Some n.
Proof.
  intros Hn. unfold hex_val, hex_digit, is_digit.
  destruct (N.ltb_spec n 10) as [Hlt|Hge].
  - replace ((48 <=? 48 + n) && (48 + n <=? 57)) with true.
    + f_equal. lia.
    + symmetry. apply andb_true_iff. rewrite !N.leb_le. lia.
  - replace ((48 <=? 87 + n) && (87 + n <=? 57)) with false.
    + replace ((97 <=? 87 + n) && (87 + n <=? 102)) with true.
      * f_equal. lia.
      * symmetry. apply andb_true_iff. rewrite !N.leb_le. lia.
    + symmetry. apply andb_false_iff. right. apply N.leb_gt. lia.
Qed.

Lemma hex_digits_value (v : N) :
  v < 65536 ->
  (v / 4096 mod 16) * 4096 + (v / 256 mod 16) * 256 + (v / 16 mod 16) * 16 + v mod 16 = v.
Proof.
  intros Hv.
  pose proof (N.div_mod' v 16) as H0.
  pose proof (N.div_mod' (v / 16) 16) as H1.
  pose proof (N.div_mod' (v / 256) 16) as H2.
  pose proof (N.div_mod' (v / 4096) 16) as H3.
  rewrite (N.Div0.div_div v 16 16) in H1.
  rewrite (N.Div0.div_div v 256 16) in H2.
  rewrite (N.Div0.div_div v 4096 16) in H3.
  change (16 * 16) with 256 in H1. change (256 * 16) with 4096 in H2.
  change (4096 * 16) with 65536 in H3.
  rewrite (N.div_small v 65536) in H3 by exact Hv.
  lia.
Qed.

Lemma surrogate_value (c : N) :
  65536 <= c < 1114112 ->
  (c - 65536) / 1024 < 1024 /\ (c - 65536) mod 1024 < 1024
  /\ 65536 + (c - 65536) / 1024 * 1024 + (c - 65536) mod 1024 = c.
Proof.
  intros Hc. pose proof (N.div_mod' (c - 65536) 1024) as H0.
  pose proof (N.mod_lt (c - 65536) 1024 ltac:(lia)) as H1.
  split; [|split; [exact H1 | lia]].
  apply N.Div0.div_lt_upper_bound; lia.
Qed.

(** An escape written by [u_escape] is read back as its value. *)
Lemma scan_units_u_escape (v : N) (r : str) (us : list unit16) (t : str) :
  v < 65536 ->
  scan_units r = Some (us, t) ->
  scan_units (u_escape v ++ r) = Some (Esc v :: us, t).
Proof.
  intros Hv Hr. unfold u_escape.
  change (bsl ++ u "u" ++ [hex_digit (v / 4096 mod 16); hex_digit (v / 256 mod 16);
                           hex_digit (v / 16 mod 16); hex_digit (v mod 16)])
    with [92; 117; hex_digit (v / 4096 mod 16); hex_digit (v / 256 mod 16);
          hex_digit (v / 16 mod 16); hex_digit (v mod 16)].
  cbn [app scan_units].
  change (92 =? 34) with false. change (92 =? 92) with true.
  change (117 =? ch "u") with true. cbv iota.
  unfold hex4_val.
  rewrite !hex_val_digit by (apply N.mod_lt; lia).
  rewrite hex_digits_value by exact Hv. rewrite Hr. reflexivity.
Qed.

Lemma scan_units_escape_char (c : N) (r : str) (us : list unit16) (t : str) :
  c < 1114112 ->
  scan_units r = Some (us, t) ->
  scan_units (escape_char c ++ r) = Some (units_of_char c ++ us, t).
Proof.
  intros Hc Hr. unfold escape_char, units_of_char.
  destruct ((32 <=? c) && (c <=? 126)) eqn:Hprint.
  - apply andb_true_iff in Hprint. destruct Hprint as [H32 H126].
    apply N.leb_le in H32, H126.
    destruct (N.eqb_spec c 92) as [->|H92].
    { cbn [negb andb]. change (92 =? 34) with false. cbv iota.
      change (92 =? 92) with true. cbv iota.
      change ((bsl ++ bsl) ++ r) with (92 :: 92 :: r). cbn [scan_units].
      change (92 =? 34) with false. change (92 =? 92) with true.
      change (92 =? ch "u") with false. cbv iota.
      change (simple_escape 92) with (Some 92). cbv iota. rewrite Hr. reflexivity. }
    destruct (N.eqb_spec c 34) as [->|H34].
    { cbn [negb andb]. cbv iota.
      change ((bsl ++ dq) ++ r) with (92 :: 34 :: r). cbn [scan_units].
      change (92 =? 34) with false. change (92 =? 92) with true.
      change (34 =? ch "u") with false. cbv iota.
      change (simple_escape 34) with (Some 34). cbv iota. rewrite Hr. reflexivity. }
    cbn [negb andb app scan_units].
    apply N.eqb_neq in H92, H34. rewrite H34, H92.
    replace (c <=? 31) with false by (symmetry; apply N.leb_gt; lia).
    rewrite Hr. reflexivity.
  - cbn [andb].
    assert (Hout : c < 32 \/ 126 < c).
    { apply andb_false_iff in Hprint. rewrite !N.leb_gt in Hprint. lia. }
    replace (c =? 92) with false by (symmetry; apply N.eqb_neq; lia).
    replace (c =? 34) with false by (symmetry; apply N.eqb_neq; lia).
    destruct (N.eqb_spec c 8) as [->|H8].
    { cbn [orb]. change ((bsl ++ u "b") ++ r) with (92 :: ch "b" :: r).
      cbn [scan_units]. change (92 =? 34) with false. change (92 =? 92) with true.
      change (ch "b" =? ch "u") with false. cbv iota.
      change (simple_escape (ch "b")) with (Some 8). cbv iota. rewrite Hr. reflexivity. }
    destruct (N.eqb_spec c 12) as [->|H12].
    { cbn [orb]. change ((bsl ++ u "f") ++ r) with (92 :: ch "f" :: r).
      cbn [scan_units]. change (92 =? 34) with false. change (92 =? 92) with true.
      change (ch "f" =? ch "u") with false. cbv iota.
      change (simple_escape (ch "f")) with (Some 12). cbv iota. rewrite Hr. reflexivity. }
    destruct (N.eqb_spec c 10) as [->|H10].
    { cbn [orb]. change ((bsl ++ u "n") ++ r) with (92 :: ch "n" :: r).
      cbn [scan_units]. change (92 =? 34) with false. change (92 =? 92) with true.
      change (ch "n" =? ch "u") with false. cbv iota.
      change (simple_escape (ch "n")) with (Some 10). cbv iota. rewrite Hr. reflexivity. }
    destruct (N.eqb_spec c 13) as [->|H13].
    { cbn [orb]. change ((bsl ++ u "r") ++ r) with (92 :: ch "r" :: r).
      cbn [scan_units]. change (92 =? 34) with false. change (92 =? 92) with true.
      change (ch "r" =? ch "u") with false. cbv iota.
      change (simple_escape (ch "r")) with (Some 13). cbv iota. rewrite Hr. reflexivity. }
    destruct (N.eqb_spec c 9) as [->|H9].
    { cbn [orb]. change ((bsl ++ u "t") ++ r) with (92 :: ch "t" :: r).
      cbn [scan_units]. change (92 =? 34) with false. change (92 =? 92) with true.
      change (ch "t" =? ch "u") with false. cbv iota.
      change (simple_escape (ch "t")) with (Some 9). cbv iota. rewrite Hr. reflexivity. }
    cbn [orb].
    destruct (N.leb_spec 65536 c) as [Hbig|Hsmall].
    + destruct (surrogate_value c ltac:(lia)) as (Hhi & Hlo & _).
      rewrite <- app_assoc.
      rewrite (scan_units_u_escape (55296 + (c - 65536) / 1024)
                 (u_escape (56320 + (c - 65536) mod 1024) ++ r)
                 (Esc (56320 + (c - 65536) mod 1024) :: us) t); [reflexivity | lia |].
      apply scan_units_u_escape; [lia | exact Hr].
    + apply scan_units_u_escape; [lia | exact Hr].
Qed.

Lemma join_surrogates_char (c : N) (us : list unit16) :
  is_scalar c = true ->
  join_surrogates (units_of_char c ++ us) = c :: join_surrogates us.
Proof.
  intros Hc. unfold is_scalar in Hc. unfold units_of_char.
  destruct ((32 <=? c) && (c <=? 126)); [reflexivity|].
  destruct ((c =? 8) || (c =? 12) || (c =? 10) || (c =? 13) || (c =? 9)); [reflexivity|].
  destruct (N.leb_spec 65536 c) as [Hbig|Hsmall].
  - assert (Hlt : c < 1114112).
    { apply orb_true_iff in Hc. destruct Hc as [Hc|Hc].
      - apply N.ltb_lt in Hc. lia.
      - apply andb_true_iff in Hc. destruct Hc as [_ Hc]. apply N.ltb_lt in Hc. exact Hc. }
    destruct (surrogate_value c ltac:(lia)) as (Hhi & Hlo & Hval).
    cbn [app join_surrogates].
    replace ((55296 <=? 55296 + (c - 65536) / 1024)
             && (55296 + (c - 65536) / 1024 <=? 56319)
             && (56320 <=? 56320 + (c - 65536) mod 1024)
             && (56320 + (c - 65536) mod 1024 <=? 57343)) with true.
    + f_equal. clear Hc.
      set (a := (c - 65536) / 1024) in *. set (b := (c - 65536) mod 1024) in *.
      clearbody a b. lia.
    + symmetry. rewrite !andb_true_iff, !N.leb_le. clear Hc.
      set (a := (c - 65536) / 1024) in *. set (b := (c - 65536) mod 1024) in *.
      clearbody a b. lia.
  - assert (Hns : c < 55296 \/ 57343 < c).
    { apply orb_true_iff in Hc. destruct Hc as [Hc|Hc].
      - apply N.ltb_lt in Hc. lia.
      - apply andb_true_iff in Hc. destruct Hc as [Hc _]. apply N.ltb_lt in Hc. lia. }
    cbn [app join_surrogates].
    destruct us as [|[c2|c2] us']; try reflexivity.
    replace ((55296 <=? c) && (c <=? 56319)) with false; [reflexivity|].
    symmetry. apply andb_false_iff. rewrite !N.leb_gt. lia.
Qed.

Lemma is_scalar_bound (c : N) : is_scalar c = true -> c < 1114112.
Proof.
  unfold is_scalar. intros Hc. apply orb_true_iff in Hc. destruct Hc as [Hc|Hc].
  - apply N.ltb_lt in Hc. lia.
  - apply andb_true_iff in Hc. destruct Hc as [_ Hc]. apply N.ltb_lt in Hc. exact Hc.
Qed.

(** The body of an encoded string, up to its closing quote, reads back as
    the string. *)
Lemma scanstring_encoded (s rest : str) :
  Forall (fun c => is_scalar c = true) s ->
  scanstring (concat (map escape_char s) ++ dq ++ rest) = Some (s, rest).
Proof.
  intros Hs. unfold scanstring.
  assert (Hunits : scan_units (concat (map escape_char s) ++ dq ++ rest)
                   = Some (concat (map units_of_char s), rest)
                   /\ join_surrogates (concat (map units_of_char s)) = s).
  { induction Hs as [|c s Hc _ [IH1 IH2]].
    - split; reflexivity.
    - cbn [map concat]. split.
      + rewrite <- app_assoc. apply scan_units_escape_char; [|exact IH1].
        apply is_scalar_bound. exact Hc.
      + rewrite join_surrogates_char by exact Hc. rewrite IH2. reflexivity. }
  destruct Hunits as [-> ->]. reflexivity.
Qed.

Lemma scan_once_more (f k : nat) (s : str) (x : json * str) :
  scan_once f s = POk x -> scan_once (f + k) s = POk x.
Proof.
  intros Hs. induction k as [|k IH].
  - rewrite Nat.add_0_r. exact Hs.
  - replace (f + S k)%nat with (S (f + k)) by lia.
    rewrite (proj1 (scan_stable _)); [exact IH|]. rewrite IH. discriminate.
Qed.

(** The steps of the scanner on an object whose keys are followed by a
    colon and whose members are separated by commas. *)
Lemma string_step (f : nat) (s x t : str) :
  scanstring s = Some (x, t) -> scan_once (S f) (34 :: s) = POk (JStr x, t).
Proof. intros Hs. cbn [scan_once]. change (34 =? 34) with true. cbv iota. rewrite Hs. reflexivity. Qed.

Lemma obj_open_step (f : nat) (r : str) (c1 : N) (r1 : str) :
  skip_ws r = c1 :: r1 -> (c1 =? ch "}") = false ->
  scan_once (S f) (ch "{" :: r) = parse_object f (c1 :: r1) [].
Proof.
  intros Hr Hc. cbn [scan_once].
  change (ch "{" =? 34) with false. change (ch "{" =? ch "{") with true. cbv iota.
  rewrite Hr, Hc. reflexivity.
Qed.

Lemma obj_member_step (f : nat) (r k r1 r2 : str) (v : json) (r3 r4 : str)
    (acc : list (str * json)) :
  scanstring r = Some (k, r1) ->
  skip_ws r1 = ch ":" :: r2 ->
  scan_once f (skip_ws r2) = POk (v, r3) ->
  skip_ws r3 = ch "," :: r4 ->
  parse_object (S f) (34 :: r) acc = parse_object f (skip_ws r4) (dict_set k v acc).
Proof.
  intros Hk Hc Hv Hn. cbn [parse_object]. change (34 =? 34) with true. cbv iota.
  rewrite Hk, Hc. change (ch ":" =? ch ":") with true. cbv iota.
  rewrite Hv, Hn. change (ch "," =? ch "}") with false.
  change (ch "," =? ch ",") with true. reflexivity.
Qed.

Lemma forallb_scalar (s : str) :
  forallb is_scalar s = true -> Forall (fun c => is_scalar c = true) s.
Proof. intros Hs. apply List.Forall_forall. apply forallb_forall. exact Hs. Qed.

Section Payload.
Context `{PyRuntime}.

Lemma planner_payload_shape (q : str) :
  planner_payload q
  = u "{" ++ nl ++ u "  " ++ dq
    ++ concat (map escape_char (u "objective")) ++ dq
    ++ u ": " ++ dq
    ++ concat (map escape_char q) ++ dq
    ++ u "," ++ nl ++ u "  " ++ dq
    ++ concat (map escape_char (u "constraints")) ++ dq
    ++ u ": [" ++ nl ++ u "    " ++ dq
    ++ concat (map escape_char
                 (u "include 3 concrete action steps if recommending usage"))
    ++ dq ++ nl ++ u "  ]" ++ nl ++ u "}".
Proof.
  unfold planner_payload, json_dumps.
  cbn [dumps_at map fst snd join].
  unfold encode_str at 2.
  generalize (concat (map escape_char q)). intros X.
  rewrite <- !app_assoc. reflexivity.
Qed.

(** X22: the payload of the planner is well-formed JSON that carries the
    question unchanged: for a question made of Unicode scalar values, parsing
    the payload gives the object with the question as objective and the one
    constraint. *)
Theorem planner_payload_parses_back (q : str) :
  Forall (fun c => is_scalar c = true) q ->
  json_loads (planner_payload q)
  = Some (JObj [(u "objective", JStr q);
                (u "constraints",
                  JArr [JStr (u "include 3 concrete action steps if recommending usage")])]).
Proof.
  intros Hq.
  pose proof (fun rest => scanstring_encoded q rest Hq) as HX.
  rewrite planner_payload_shape. revert HX.
  generalize (concat (map escape_char q)). intros X HX.
  set (T3 := u "," ++ _).
  set (R1 := u ": " ++ dq ++ X ++ dq ++ T3).
  set (E1 := concat (map escape_char (u "objective")) ++ dq ++ R1).
  unfold json_loads.
  replace (startswith [65279] (u "{" ++ nl ++ u "  " ++ dq ++ E1)) with false
    by reflexivity.
  change (skip_ws (u "{" ++ nl ++ u "  " ++ dq ++ E1))
    with (ch "{" :: nl ++ u "  " ++ dq ++ E1).
  assert (Hlen : (3 <= length (u "{" ++ nl ++ u "  " ++ dq ++ E1))%nat).
  { apply (startswith_length [123; 10; 32]). reflexivity. }
  replace (2 * length (u "{" ++ nl ++ u "  " ++ dq ++ E1) + 2)%nat
    with (8 + (2 * length (u "{" ++ nl ++ u "  " ++ dq ++ E1) + 2 - 8))%nat by lia.
  rewrite (scan_once_more 8 _ _
             (JObj [(u "objective", JStr q);
                    (u "constraints",
                      JArr [JStr (u "include 3 concrete action steps if recommending usage")])],
              [])); [reflexivity|].
  rewrite (obj_open_step 7 (nl ++ u "  " ++ dq ++ E1) 34 E1) by reflexivity.
  unfold E1.
  rewrite (obj_member_step 6 _ (u "objective") R1 (SP :: dq ++ X ++ dq ++ T3)
             (JStr q) T3
             (nl ++ u "  " ++ dq ++ concat (map escape_char (u "constraints")) ++ dq
              ++ u ": [" ++ nl ++ u "    " ++ dq
              ++ concat (map escape_char
                           (u "include 3 concrete action steps if recommending usage"))
              ++ dq ++ nl ++ u "  ]" ++ nl ++ u "}") []).
  - generalize (JStr q). intros v. vm_compute. reflexivity.
  - apply scanstring_encoded. apply forallb_scalar. vm_compute. reflexivity.
  - reflexivity.
  - change (skip_ws (SP :: dq ++ X ++ dq ++ T3)) with (34 :: X ++ dq ++ T3).
    apply string_step. apply HX.
  - reflexivity.
Qed.

End Payload.

Lemma planner_payload_parses_back_witness :
  json_loads (planner_payload accented_question)
  = Some (JObj [(u "objective", JStr accented_question);
                (u "constraints",
                  JArr [JStr (u "include 3 concrete action steps if recommending usage")])]).
Proof.
  apply planner_payload_parses_back. apply forallb_scalar. vm_compute. reflexivity.
Defined.

(** ** stream_subagent: how often the stop predicate is polled *)

Section Polls.
Variables (role_name : str) (quiet : bool) (on_text : option observer)
          (tag : option str) (f : nat -> bool).

Lemma polls_app (a b : list event) :
  length (filter is_poll (a ++ b))
  = (length (filter is_poll a) + length (filter is_poll b))%nat.
Proof. rewrite filter_app, length_app. reflexivity. Qed.

Lemma poll_stop_one (w w' : world) (x : unit) :
  poll_stop (Some f) w = (Ok x, w') -> w' = Poll false :: w.
Proof.
  intros Hp. apply poll_stop_Ok in Hp. destruct Hp as [[Hn _]|[_ ->]]; [discriminate|].
  reflexivity.
Qed.

Lemma handle_text_polls (st st' : list str * gset str) (tk : str * kind) (w w' : world) :
  handle_text role_name quiet on_text tag (Some f) st tk w = (Ok st', w') ->
  exists new, w' = new ++ w /\ length (filter is_poll new) = 1%nat.
Proof.
  unfold handle_text. destruct st as [collected seen], tk as [t k]. intros Hrun.
  bind_inv Hrun x Hpoll. apply poll_stop_one in Hpoll. subst.
  destruct (dropped _ _ seen t).
  - unfold ret in Hrun. injection Hrun as _ <-. exists [Poll false]. auto.
  - bind_inv Hrun y Hshow. unfold ret in Hrun. injection Hrun as _ <-.
    destruct on_text as [g|].
    + rewrite notify_runs in Hshow. injection Hshow as _ <-.
      exists [Forward (tag_or tag role_name) t k; Poll false]. auto.
    + destruct quiet; simpl in Hshow.
      * unfold ret in Hshow. injection Hshow as _ <-. exists [Poll false]. auto.
      * unfold emit in Hshow. injection Hshow as _ <-.
        exists [Echo role_name t; Poll false]. auto.
Qed.

Lemma handle_text_loop_polls (tks : list (str * kind)) :
  forall (st st' : list str * gset str) (w w' : world),
    foldM (handle_text role_name quiet on_text tag (Some f)) tks st w = (Ok st', w') ->
    exists new, w' = new ++ w /\ length (filter is_poll new) = length tks.
Proof.
  induction tks as [|tk tks IH]; intros st st' w w' Hrun.
  - unfold foldM, ret in Hrun. injection Hrun as _ <-. exists []. auto.
  - cbn [foldM] in Hrun. bind_inv Hrun st1 Hstep.
    apply handle_text_polls in Hstep. destruct Hstep as (n1 & -> & H1).
    apply IH in Hrun. destruct Hrun as (n2 & -> & H2).
    exists (n2 ++ n1). split; [rewrite app_assoc; reflexivity|].
    rewrite polls_app, H1, H2. cbn [length]. lia.
Qed.

Lemma handle_chunk_loop_polls (chunks : list chunk) :
  forall (st st' : list str * gset str) (w w' : world),
    foldM (handle_chunk role_name quiet on_text tag (Some f)) chunks st w
    = (Ok st', w') ->
    exists new,
      w' = new ++ w
      /\ length (filter is_poll new)
         = (length chunks + length (stream_texts chunks))%nat.
Proof.
  induction chunks as [|c chunks IH]; intros st st' w w' Hrun.
  - unfold foldM, ret in Hrun. injection Hrun as _ <-. exists []. auto.
  - cbn [foldM] in Hrun. bind_inv Hrun st1 Hstep.
    unfold handle_chunk in Hstep. bind_inv Hstep x Hpoll.
    apply poll_stop_one in Hpoll. subst.
    apply handle_text_loop_polls in Hstep. destruct Hstep as (n1 & -> & H1).
    apply IH in Hrun. destruct Hrun as (n2 & -> & H2).
    exists (n2 ++ n1 ++ [Poll false]).
    split; [rewrite <- !app_assoc; reflexivity|].
    rewrite !polls_app, H1, H2. unfold stream_texts. cbn [map concat length].
    rewrite length_app. change (length (filter is_poll [Poll false])) with 1%nat. lia.
Qed.

(** X23: with a stop predicate, an invocation that is not cancelled polls
    the predicate once for each chunk of the stream and once for each text
    of a chunk, whether the text is then kept or dropped. *)
Theorem stream_polls_each_chunk_and_text
    (agent : agent_handle) (payload_text : str) (w w' : world) (collected : list str) :
  stream_collect role_name quiet on_text tag (Some f) agent payload_text w
  = (Ok collected, w') ->
  exists new,
    w' = new ++ w
    /\ let chunks := agent (length (filter is_invoke w)) (user_msg role_name payload_text) in
       length (filter is_poll new) = (length chunks + length (stream_texts chunks))%nat.
Proof.
  unfold stream_collect. intros Hrun.
  bind_inv Hrun x Hbanner. bind_inv Hrun chunks Hstream.
  bind_inv Hrun st Hloop. bind_inv Hrun y Hend.
  unfold ret in Hrun. injection Hrun as _ <-.
  assert (Hconsole : forall (t : str) (u0 u1 : world) (z : unit),
             when (negb quiet && negb (bool_decide (is_Some on_text)))
                  (emit (Console t)) u0 = (Ok z, u1) ->
             exists b, u1 = b ++ u0 /\ filter is_poll b = [] /\ filter is_invoke b = []).
  { intros t u0 u1 z. destruct (negb quiet && negb (bool_decide (is_Some on_text))); simpl.
    - unfold emit. intros [= _ <-]. exists [Console t]. auto.
    - unfold ret. intros [= _ <-]. exists []. auto. }
  apply Hconsole in Hbanner. destruct Hbanner as (banner & -> & Hb & Hbi).
  apply Hconsole in Hend. destruct Hend as (ending & -> & He & _).
  unfold astream in Hstream. injection Hstream as <- <-.
  apply handle_chunk_loop_polls in Hloop. destruct Hloop as (loop & -> & Hl).
  exists (ending ++ loop ++ Invoke (user_msg role_name payload_text) :: banner).
  split; [rewrite <- !app_assoc; reflexivity|].
  cbv zeta.
  assert (Hcount : length (filter is_invoke (banner ++ w : world))
                   = length (filter is_invoke w)).
  { unfold world. rewrite filter_app, length_app, Hbi. reflexivity. }
  rewrite Hcount in Hl.
  rewrite !polls_app, He, Hl.
  change (filter is_poll (Invoke (user_msg role_name payload_text) :: banner))
    with (filter is_poll banner).
  rewrite Hb. cbn [length]. lia.
Qed.

End Polls.

Lemma stream_polls_each_chunk_and_text_witness :
  exists new,
    snd (stream_collect (u "research-agent") true None (Some (u "research"))
           (stop_from 100) noisy_research_agent (u "payload") [Invoke (u "planner")])
    = new ++ [Invoke (u "planner")]
    /\ let chunks := noisy_research_agent
                       (length (filter is_invoke [Invoke (u "planner")]))
                       (user_msg (u "research-agent") (u "payload")) in
       length (filter is_poll new) = (length chunks + length (stream_texts chunks))%nat.
Proof.
  apply (stream_polls_each_chunk_and_text (u "research-agent") true None
           (Some (u "research")) (fun n => (100 <=? n)%nat) noisy_research_agent
           (u "payload") [Invoke (u "planner")] _
           [u "Searching the web"; arc_research]).
  vm_compute. reflexivity.
Defined.

(** ** stream_subagent: echoes that the filter always drops *)

Lemma split_from_space_sep (a b : str) (c : N) :
  isspace c = true ->
  forall w, split_from w (a ++ c :: b) = split_from w a ++ split_ws b.
Proof.
  intros Hc. induction a as [|x a IH]; intros w.
  - cbn [app split_from]. rewrite Hc. destruct w; reflexivity.
  - cbn [app split_from]. destruct (isspace x).
    + destruct w; rewrite (IH []); reflexivity.
    + apply IH.
Qed.

Lemma join_app_prefix (sep : str) (l1 l2 : list str) :
  exists rest, join sep (l1 ++ l2) = join sep l1 ++ rest.
Proof.
  induction l1 as [|x l1 [rest IH]].
  - exists (join sep l2). reflexivity.
  - destruct l1 as [|y l1].
    + destruct l2 as [|z l2].
      * exists []. cbn. rewrite app_nil_r. reflexivity.
      * exists (sep ++ join sep (z :: l2)). reflexivity.
    + exists rest.
      change (join sep ((x :: y :: l1) ++ l2))
        with (x ++ sep ++ join sep ((y :: l1) ++ l2)).
      rewrite IH.
      change (join sep (x :: y :: l1)) with (x ++ sep ++ join sep (y :: l1)).
      rewrite <- !app_assoc. reflexivity.
Qed.

Lemma startswith_app (p r : str) : startswith p (p ++ r) = true.
Proof.
  induction p as [|c p IH]; [reflexivity|].
  cbn [app startswith]. rewrite N.eqb_refl. exact IH.
Qed.

Lemma contains_of_startswith (p s : str) : startswith p s = true -> contains p s = true.
Proof. intros Hs. destruct s; cbn [contains]; rewrite Hs; reflexivity. Qed.

Lemma contains_app_r (k pre s : str) : contains k s = true -> contains k (pre ++ s) = true.
Proof.
  intros Hs. induction pre as [|c pre IH]; [exact Hs|].
  cbn [app contains]. rewrite IH. apply orb_true_r.
Qed.

(** The normal form of a text that goes on after whitespace begins with
    the normal form of the text. *)
Lemma normalize_short_prefix (a b : str) (c : N) (n : nat) :
  isspace c = true ->
  startswith (normalize_short a (Z.of_nat n)) (normalize_short (a ++ c :: b) (Z.of_nat n))
  = true.
Proof.
  intros Hc. unfold normalize_short, slice_to.
  replace (0 <=? Z.of_nat n)%Z with true by (symmetry; apply Z.leb_le; lia).
  rewrite Nat2Z.id. unfold split_ws at 2.
  rewrite (split_from_space_sep a b c Hc []).
  fold (split_ws a). rewrite !lower_join, map_app.
  destruct (join_app_prefix [SP] (map lower (split_ws a)) (map lower (split_ws b)))
    as [rest ->].
  rewrite take_app. apply startswith_app.
Qed.

Lemma role_invocation_normal_form_nonempty (role_name : str) :
  nonempty (normalize_short (role_invocation role_name) 300) = true.
Proof.
  unfold role_invocation, normalize_short, slice_to.
  change (0 <=? 300)%Z with true. cbv iota.
  change (u "ROLE: " ++ role_name ++ nl
          ++ u "INSTRUCTIONS: Return only the requested output (JSON or plain "
          ++ u "text per task). DO NOT echo role text.")
    with (u "ROLE:" ++ SP :: (role_name ++ nl
          ++ u "INSTRUCTIONS: Return only the requested output (JSON or plain "
          ++ u "text per task). DO NOT echo role text.")).
  rewrite split_word_then.
  - set (ws := split_ws _). destruct ws; reflexivity.
  - split; [discriminate|]. apply List.Forall_forall. intros x Hx.
    cbn in Hx. repeat (destruct Hx as [<-|Hx]; [reflexivity|]). contradiction.
Qed.

(** X24: a text that begins with the role text of the invocation, followed
    by a whitespace character, is dropped whatever comes after: the message
    that was sent to the agent is never taken for its answer. *)
Theorem echo_of_role_text_is_dropped
    (role_name rest nrp : str) (c : N) (seen : gset str) :
  isspace c = true ->
  dropped (normalize_short (role_invocation role_name) 300) nrp seen
          (role_invocation role_name ++ c :: rest) = true.
Proof.
  intros Hc. unfold dropped.
  destruct (existsb _ tool_markers); [reflexivity|].
  rewrite role_invocation_normal_form_nonempty.
  rewrite contains_of_startswith; [reflexivity|].
  apply (normalize_short_prefix (role_invocation role_name) rest c 300 Hc).
Qed.

Lemma echo_of_role_text_is_dropped_witness :
  dropped (normalize_short (role_invocation (u "planner-agent")) 300)
          (normalize_short (SUB_PROMPTS (u "planner-agent")) 300) ∅
          (user_msg (u "planner-agent") (u "What is ARC-AGI?")) = true.
Proof.
  apply (echo_of_role_text_is_dropped (u "planner-agent")
           (u "TASK:" ++ nl ++ u "What is ARC-AGI?")
           (normalize_short (SUB_PROMPTS (u "planner-agent")) 300) 10 ∅).
  reflexivity.
Defined.

(** A text keeps a beginning that [lower] leaves alone. *)
Lemma lower_from_fixed_app (a : str) :
  Forall (fun d => lower_fixed d = true) a ->
  forall (b : bool) (r : str), exists b', lower_from b (a ++ r) = a ++ lower_from b' r.
Proof.
  induction 1 as [|c a Hc _ IH]; intros b r.
  - exists b. reflexivity.
  - cbn [app]. rewrite lower_from_fixed_cons by exact Hc.
    destruct (IH (if is_case_ignorable c then b else is_cased c) r) as [b' ->].
    exists b'. reflexivity.
Qed.

Lemma contains_after_fixed (pre key r : str) :
  Forall (fun d => lower_fixed d = true) (pre ++ key) ->
  contains key (lower ((pre ++ key) ++ r)) = true.
Proof.
  intros Hf. unfold lower.
  destruct (lower_from_fixed_app (pre ++ key) Hf false r) as [b' ->].
  rewrite <- app_assoc. apply contains_app_r, contains_of_startswith, startswith_app.
Qed.

(** The payload of the planner begins with a brace, a line feed, two spaces
    and the key objective between quotation marks. *)
Lemma planner_payload_begins `{PyRuntime} (question : str) :
  exists R, planner_payload question
            = ((u "{" ++ nl ++ u "  ") ++ (dq ++ u "objective" ++ dq)) ++ R.
Proof.
  rewrite planner_payload_shape.
  generalize (concat (map escape_char question)). intros X.
  match goal with |- context [u ": " ++ ?r] => generalize (u ": " ++ r) end.
  intros R. exists R. reflexivity.
Qed.

(** X25: the payload of the planner stage is dropped by every role
    invocation when it comes back as a text: it contains the key objective
    between quotation marks. *)
Theorem echo_of_planner_payload_is_dropped `{PyRuntime}
    (nri nrp question : str) (seen : gset str) :
  dropped nri nrp seen (planner_payload question) = true.
Proof.
  destruct (planner_payload_begins question) as [R ->].
  set (t := ((u "{" ++ nl ++ u "  ") ++ (dq ++ u "objective" ++ dq)) ++ R).
  assert (Hkey : existsb (fun key => contains key (lower t)) echo_keys = true).
  { apply existsb_exists. exists (dq ++ u "objective" ++ dq). split.
    - left. reflexivity.
    - apply contains_after_fixed.
      apply List.Forall_forall. apply List.forallb_forall. vm_compute. reflexivity. }
  unfold dropped.
  destruct (existsb _ tool_markers); [reflexivity|].
  destruct (nonempty nri && contains nri _); [reflexivity|].
  destruct (nonempty nrp && contains nrp _); [reflexivity|].
  rewrite Hkey. reflexivity.
Qed.

(** ** A planner that says nothing *)

Lemma blank_has_no_bracket (s : str) :
  Forall (fun c => isspace c = true) s -> Forall (fun c => is_open c = false) s.
Proof.
  intros Hs. eapply Forall_impl; [exact Hs|]. intros c Hc. cbv beta in Hc.
  apply isspace_true_range in Hc. unfold is_open.
  apply orb_false_intro; apply N.eqb_neq; vm_compute (ch _); lia.
Qed.

Lemma loads_or_extract_blank (s : str) :
  Forall (fun c => isspace c = true) s -> loads_or_extract s = JNull.
Proof.
  intros Hs. unfold loads_or_extract. rewrite (json_loads_blank s Hs).
  replace (extract_json_substring s) with (@None str); [reflexivity|].
  symmetry. unfold extract_json_substring. destruct s; [reflexivity|].
  rewrite (find_start_none _ (blank_has_no_bracket _ Hs)). reflexivity.
Qed.

(** X26: when the planner streams nothing, or only whitespace, no plan is
    parsed and the research focus is the question of the user. *)
Theorem blank_plan_gives_the_question `{PyRuntime} (planner_out user_question : str) :
  Forall (fun c => isspace c = true) planner_out ->
  loads_or_extract planner_out = JNull
  /\ research_focus_of (loads_or_extract planner_out) planner_out user_question
     = Ok (JStr user_question).
Proof.
  intros Hs. split; [apply loads_or_extract_blank; exact Hs|].
  rewrite (loads_or_extract_blank _ Hs). unfold research_focus_of. cbn [truthy].
  rewrite (proj2 (proj1 (first_step_blank planner_out)) Hs). reflexivity.
Qed.

Lemma blank_plan_gives_the_question_witness :
  loads_or_extract [SP; 10; 9] = JNull
  /\ research_focus_of (loads_or_extract [SP; 10; 9]) [SP; 10; 9] arc_question
     = Ok (JStr arc_question).
Proof.
  apply (blank_plan_gives_the_question [SP; 10; 9] arc_question).
  repeat constructor.
Defined.
